(** * APRS_SAGEBOT: the APRS-IS client of aprsService.cpp

    A shallow embedding of the connection state machine, the packet reader,
    the logon handshake, the message formatters and the bulletin scheduler of
    aprsService.cpp (the revision with [updateAPRS], which main.cpp and
    taskControl.cpp call), together with the properties its specification
    states about them.

    Modelling choices.
    - The Arduino [String] is a [string]; [+] and [+=] are [append], nested as
      C++ evaluates them.
    - The [WiFiClient] is the part of the system state that holds its
      connection flag, the bytes received and not yet read, and the lines
      handed to [println].  [readStringUntil] takes the bytes at hand up to
      the terminator and does not wait for the rest of a line that has only
      partly arrived (the library waits for it up to the stream timeout), so
      the reader is modelled exactly on buffers that end with a complete
      line.  [connect()] opens a connection with an empty receive buffer;
      [stop()] closes the connection and drops unread bytes; bytes arrive
      only while the connection is open.  The peer does not close the
      connection: the flag changes through [connect()] and [stop()] only.
    - [millis()] is the clock modulo 2^32, an [unsigned long] of the target.
      Time passes, and bytes arrive, at [yield()]; how much and which is the
      environment's choice.
    - [DEBUG_PRINTLN] and [Serial.println] append to one serial log.
    - Globals and function statics are fields of the system state.
    - Code runs in a state monad; a loop takes fuel and fails when it runs
      out, and the loops are shown to end within a stated amount of it. *)

From Stdlib Require Import ZArith List Bool String Ascii Lia DecimalString.
Import ListNotations.

Open Scope string_scope.
Open Scope Z_scope.

(** ** The Arduino [String] operations the code uses *)

Module ArduinoString.

(** [strncmp(s, p, strlen(p)) == 0]: [p] is read off the front of [s]. *)
Fixpoint is_prefix (p s : string) : bool :=
  match p with
  | EmptyString => true
  | String a p' =>
      match s with
      | EmptyString => false
      | String b s' => Ascii.eqb a b && is_prefix p' s'
      end
  end.

(** [s.startsWith(p)] *)
Definition startsWith (s p : string) : bool := is_prefix p s.

(** [strstr]: the offset of the first occurrence of [p] in [s]. *)
Fixpoint strstr (s p : string) : option nat :=
  if is_prefix p s then Some 0%nat
  else match s with
       | EmptyString => None
       | String _ r => option_map S (strstr r p)
       end.

(** [s.indexOf(p)]: [-1] on an empty receiver and when [strstr] finds
    nothing, the offset otherwise. *)
Definition indexOf (s p : string) : Z :=
  if (String.length s =? 0)%nat then -1
  else match strstr s p with
       | Some n => Z.of_nat n
       | None => -1
       end.

(** [stream.readStringUntil(c)] on the bytes at hand: the bytes before the
    first [c], and what stays in the buffer once the terminator is
    consumed; all the bytes when there is no terminator. *)
Fixpoint readStringUntil (c : ascii) (buf : string) : string * string :=
  match buf with
  | EmptyString => (EmptyString, EmptyString)
  | String a r =>
      if Ascii.eqb a c then (EmptyString, r)
      else let (l, r') := readStringUntil c r in (String a l, r')
  end.

(** [snprintf(buf, 10, "%-9.9s", s)]: left-justified, padded with spaces
    to nine characters, cut after nine. *)
Definition fmt_left9 (s : string) : string :=
  String.substring 0 9 (s ++ "         ").

End ArduinoString.
Import ArduinoString.

Definition LF : ascii := "010"%char.

(** What it means for [p] to occur in [s], independently of [indexOf]. *)
Definition Contains (p s : string) : Prop :=
  exists pre post, s = pre ++ p ++ post.

(** ** Credentials (credentials.h) *)

Record Credentials := mkCredentials {
  CALLSIGN : string;
  APRS_PASSCODE : string;
  APRS_SOFTWARE_NAME : string;
  APRS_SOFTWARE_VERS : string;   (* #define APRS_SOFTWARE_VERS FW_VERSION *)
  APRS_FILTER : string
}.

Definition APRS_ID_MESSAGE : string := ":".
Definition APRS_TIMEOUT : Z := 2000.
Definition TIMEOUT_MS : Z := 1500.

(** [unsigned long] arithmetic of the target (32 bits). *)
Definition ulong (z : Z) : Z := z mod 2 ^ 32.

(** ** Connection state *)

Inductive APRS_State :=
| APRS_DISCONNECTED
| APRS_CONNECTED
| APRS_LOGGED_IN
| APRS_VERIFIED.

Definition APRS_State_eqb (a b : APRS_State) : bool :=
  match a, b with
  | APRS_DISCONNECTED, APRS_DISCONNECTED
  | APRS_CONNECTED, APRS_CONNECTED
  | APRS_LOGGED_IN, APRS_LOGGED_IN
  | APRS_VERIFIED, APRS_VERIFIED => true
  | _, _ => false
  end.

(** ** The environment

    What the program cannot decide: how long a [yield()] takes, which bytes
    the server delivers meanwhile, whether a connect attempt succeeds, and the
    text the aphorism collaborator hands out.  All are indexed by the number
    of [yield()]s (respectively picks) performed so far. *)

Record Env := mkEnv {
  delta : nat -> Z;
  arrive : nat -> string;
  server_up : nat -> bool;
  pickAphorism : nat -> string
}.

(** The time that [k] successive [yield()]s take, from the [e]-th on. *)
Fixpoint elapsed (env : Env) (e k : nat) : Z :=
  match k with
  | O => 0
  | S k' => delta env e + elapsed env (S e) k'
  end.

(** ** The system state: transport, clock, serial log and the globals *)

Record St := mkSt {
  (* WiFiClient client *)
  connected : bool;
  rx : string;               (* bytes received and not yet read *)
  tx : list string;          (* lines handed to client.println, oldest first *)
  stops : list Z;            (* the instants of client.stop(), oldest first *)
  (* clock *)
  now : Z;
  epoch : nat;
  (* myTZ *)
  hour : Z;
  minute : Z;
  day : Z;
  (* Serial / DEBUG_PRINTLN *)
  serial : list string;
  (* globals and function statics *)
  aprsState : APRS_State;
  amBulletinSent : bool;
  pmBulletinSent : bool;
  lastDay : Z;               (* static in processBulletins *)
  timeoutStamp : Z;          (* static in readAPRSPacket *)
  (* observation only *)
  picks : nat;               (* calls of pickAphorism so far *)
  requests : list string     (* IDs passed to APRSsendBulletin, oldest first *)
}.

Definition set_connected (v : bool) (s : St) : St :=
  mkSt v (rx s) (tx s) (stops s)
       (now s) (epoch s)
       (hour s) (minute s) (day s)
       (serial s)
       (aprsState s) (amBulletinSent s) (pmBulletinSent s)
       (lastDay s) (timeoutStamp s)
       (picks s) (requests s).

Definition set_rx (v : string) (s : St) : St :=
  mkSt (connected s) v (tx s) (stops s)
       (now s) (epoch s)
       (hour s) (minute s) (day s)
       (serial s)
       (aprsState s) (amBulletinSent s) (pmBulletinSent s)
       (lastDay s) (timeoutStamp s)
       (picks s) (requests s).

Definition set_tx (v : list string) (s : St) : St :=
  mkSt (connected s) (rx s) v (stops s)
       (now s) (epoch s)
       (hour s) (minute s) (day s)
       (serial s)
       (aprsState s) (amBulletinSent s) (pmBulletinSent s)
       (lastDay s) (timeoutStamp s)
       (picks s) (requests s).

Definition set_stops (v : list Z) (s : St) : St :=
  mkSt (connected s) (rx s) (tx s) v
       (now s) (epoch s)
       (hour s) (minute s) (day s)
       (serial s)
       (aprsState s) (amBulletinSent s) (pmBulletinSent s)
       (lastDay s) (timeoutStamp s)
       (picks s) (requests s).

Definition set_now (v : Z) (s : St) : St :=
  mkSt (connected s) (rx s) (tx s) (stops s)
       v (epoch s)
       (hour s) (minute s) (day s)
       (serial s)
       (aprsState s) (amBulletinSent s) (pmBulletinSent s)
       (lastDay s) (timeoutStamp s)
       (picks s) (requests s).

Definition set_epoch (v : nat) (s : St) : St :=
  mkSt (connected s) (rx s) (tx s) (stops s)
       (now s) v
       (hour s) (minute s) (day s)
       (serial s)
       (aprsState s) (amBulletinSent s) (pmBulletinSent s)
       (lastDay s) (timeoutStamp s)
       (picks s) (requests s).

Definition set_localtime (h m d : Z) (s : St) : St :=
  mkSt (connected s) (rx s) (tx s) (stops s)
       (now s) (epoch s)
       h m d
       (serial s)
       (aprsState s) (amBulletinSent s) (pmBulletinSent s)
       (lastDay s) (timeoutStamp s)
       (picks s) (requests s).

Definition set_serial (v : list string) (s : St) : St :=
  mkSt (connected s) (rx s) (tx s) (stops s)
       (now s) (epoch s)
       (hour s) (minute s) (day s)
       v
       (aprsState s) (amBulletinSent s) (pmBulletinSent s)
       (lastDay s) (timeoutStamp s)
       (picks s) (requests s).

Definition set_aprsState (v : APRS_State) (s : St) : St :=
  mkSt (connected s) (rx s) (tx s) (stops s)
       (now s) (epoch s)
       (hour s) (minute s) (day s)
       (serial s)
       v (amBulletinSent s) (pmBulletinSent s)
       (lastDay s) (timeoutStamp s)
       (picks s) (requests s).

Definition set_amBulletinSent (v : bool) (s : St) : St :=
  mkSt (connected s) (rx s) (tx s) (stops s)
       (now s) (epoch s)
       (hour s) (minute s) (day s)
       (serial s)
       (aprsState s) v (pmBulletinSent s)
       (lastDay s) (timeoutStamp s)
       (picks s) (requests s).

Definition set_pmBulletinSent (v : bool) (s : St) : St :=
  mkSt (connected s) (rx s) (tx s) (stops s)
       (now s) (epoch s)
       (hour s) (minute s) (day s)
       (serial s)
       (aprsState s) (amBulletinSent s) v
       (lastDay s) (timeoutStamp s)
       (picks s) (requests s).

Definition set_lastDay (v : Z) (s : St) : St :=
  mkSt (connected s) (rx s) (tx s) (stops s)
       (now s) (epoch s)
       (hour s) (minute s) (day s)
       (serial s)
       (aprsState s) (amBulletinSent s) (pmBulletinSent s)
       v (timeoutStamp s)
       (picks s) (requests s).

Definition set_timeoutStamp (v : Z) (s : St) : St :=
  mkSt (connected s) (rx s) (tx s) (stops s)
       (now s) (epoch s)
       (hour s) (minute s) (day s)
       (serial s)
       (aprsState s) (amBulletinSent s) (pmBulletinSent s)
       (lastDay s) v
       (picks s) (requests s).

Definition set_picks (v : nat) (s : St) : St :=
  mkSt (connected s) (rx s) (tx s) (stops s)
       (now s) (epoch s)
       (hour s) (minute s) (day s)
       (serial s)
       (aprsState s) (amBulletinSent s) (pmBulletinSent s)
       (lastDay s) (timeoutStamp s)
       v (requests s).

Definition set_requests (v : list string) (s : St) : St :=
  mkSt (connected s) (rx s) (tx s) (stops s)
       (now s) (epoch s)
       (hour s) (minute s) (day s)
       (serial s)
       (aprsState s) (amBulletinSent s) (pmBulletinSent s)
       (lastDay s) (timeoutStamp s)
       (picks s) v.

(** The state at power-up: the initialisers of the globals and statics. *)
Definition boot : St :=
  mkSt false "" [] [] 0 0%nat 0 0 1 [] APRS_DISCONNECTED false false (-1) 0 0%nat [].

(** ** A state monad with failure

    A computation reads and writes the system state; [None] is a loop that
    ran out of the fuel it was given. *)

Definition M (A : Type) : Type := St -> option (A * St).

Definition ret {A} (a : A) : M A := fun s => Some (a, s).

Definition bind {A B} (m : M A) (k : A -> M B) : M B :=
  fun s => match m s with
           | Some (a, s') => k a s'
           | None => None
           end.

Definition gets {A} (f : St -> A) : M A := fun s => Some (f s, s).
Definition modify (f : St -> St) : M unit := fun s => Some (tt, f s).
Definition out_of_fuel {A} : M A := fun _ => None.

Declare Scope monad_scope.
Delimit Scope monad_scope with monad.
Notation "x <- m ;; k" := (bind m (fun x => k))
  (at level 61, m at next level, right associativity) : monad_scope.
Notation "m ;; k" := (bind m (fun _ => k))
  (at level 61, right associativity) : monad_scope.
Open Scope monad_scope.

(** ** The program *)

Section Program.

Variable env : Env.
Variable cred : Credentials.

(** *** Primitives of the platform *)

Definition millis : M Z := gets (fun s => ulong (now s)).

(** [yield()]: time passes, and bytes may arrive on an open connection. *)
Definition tick (s : St) : St :=
  set_epoch (S (epoch s))
    (set_rx (if connected s then rx s ++ arrive env (epoch s) else rx s)
       (set_now (now s + delta env (epoch s)) s)).

Definition yield : M unit := modify tick.

Definition DEBUG_PRINTLN (l : string) : M unit :=
  modify (fun s => set_serial (serial s ++ [l]) s).

Definition Serial_println (l : string) : M unit :=
  modify (fun s => set_serial (serial s ++ [l]) s).

Definition client_connected : M bool := gets connected.

Definition client_available : M nat := gets (fun s => String.length (rx s)).

(** [client.connect(APRS_SERVER, APRS_PORT)]: a new connection starts with
    an empty receive buffer. *)
Definition client_connect : M bool :=
  fun s => if server_up env (epoch s)
           then Some (true, set_rx "" (set_connected true s))
           else Some (false, s).

(** [client.stop()]: the connection is closed and unread bytes are lost. *)
Definition client_stop : M unit :=
  modify (fun s =>
    set_stops (stops s ++ [now s]) (set_rx "" (set_connected false s))).

Definition client_println (l : string) : M unit :=
  modify (fun s => set_tx (tx s ++ [l]) s).

Definition client_readStringUntil (c : ascii) : M string :=
  fun s => let (l, r) := readStringUntil c (rx s) in Some (l, set_rx r s).

(** [pickAphorism(APHORISM_FILE, lineArray)] *)
Definition pick : M string :=
  fun s => Some (pickAphorism env (picks s), set_picks (S (picks s)) s).

(** *** performAPRSLogon *)

Definition performAPRSLogon : M unit :=
  let dataString := "user " ++ CALLSIGN cred in
  let dataString := dataString ++ (" pass " ++ APRS_PASSCODE cred) in
  let dataString :=
    dataString ++ (((" ver " ++ APRS_SOFTWARE_NAME cred) ++ " ") ++ APRS_SOFTWARE_VERS cred) in
  let dataString := dataString ++ (" filter " ++ APRS_FILTER cred) in
  client_println dataString ;;
  DEBUG_PRINTLN ("APRS logon: " ++ dataString).

(** *** connectToAPRS *)

Definition connectToAPRS : M bool :=
  c <- client_connected ;;
  if c then ret true
  else
    ok <- client_connect ;;
    if ok then DEBUG_PRINTLN "APRS connected" ;; ret true
    else DEBUG_PRINTLN "APRS connection failed." ;; ret false.

(** *** Formatters *)

Definition APRSformatBulletin (message ID : string) : M string :=
  let str :=
    ((((CALLSIGN cred ++ ">APRS,TCPIP*:") ++ ":BLN") ++ ID) ++ "     :") ++ message in
  DEBUG_PRINTLN ("APRS Bulletin: " ++ str) ;;
  ret str.

Definition APRSpadCall (callSign : string) : string := fmt_left9 callSign.

(** *** postToAPRS *)

Definition postToAPRS (message : string) : M unit :=
  c <- client_connected ;;
  if c then
    client_println message ;;
    DEBUG_PRINTLN ("APRS posted: " ++ message)
  else
    DEBUG_PRINTLN "APRS connection lost. Cannot post message.".

(** *** APRSsendBulletin *)

Definition APRSsendBulletin (message ID : string) : M unit :=
  (* observation: the call is recorded *)
  modify (fun s => set_requests (requests s ++ [ID]) s) ;;
  if (67 <? String.length message)%nat then
    DEBUG_PRINTLN "APRS bulletin too long. Max 67 characters."
  else
    bulletin <- APRSformatBulletin message ID ;;
    postToAPRS bulletin.

(** *** APRSsendACK *)

Definition APRSsendACK (recipient msgID : string) : M unit :=
  let dataString := CALLSIGN cred in
  let dataString := dataString ++ ">APRS,TCPIP*:" in
  let dataString := dataString ++ APRS_ID_MESSAGE in
  let dataString := dataString ++ APRSpadCall recipient in
  let dataString := dataString ++ APRS_ID_MESSAGE in
  let dataString := dataString ++ "ack" in
  let dataString := dataString ++ msgID in
  client_println dataString ;;
  Serial_println dataString.

(** *** processBulletins *)

Definition processBulletins : M unit :=
  h <- gets hour ;; m <- gets minute ;; am <- gets amBulletinSent ;;
  (if (h =? 8) && (m =? 0) && negb am then
     bulletinText <- pick ;;
     APRSsendBulletin bulletinText "M" ;;
     modify (set_amBulletinSent true)
   else ret tt) ;;
  h <- gets hour ;; m <- gets minute ;; pm <- gets pmBulletinSent ;;
  (if (h =? 20) && (m =? 0) && negb pm then
     bulletinText <- pick ;;
     APRSsendBulletin bulletinText "E" ;;
     modify (set_pmBulletinSent true)
   else ret tt) ;;
  currentDay <- gets day ;;
  last <- gets lastDay ;;
  if negb (currentDay =? last) then
    modify (set_lastDay currentDay) ;;
    modify (set_amBulletinSent false) ;;
    modify (set_pmBulletinSent false)
  else ret tt.

(** *** readAPRSPacket: the result and the packet written through the
    reference parameter *)

Definition readAPRSPacket : M (bool * string) :=
  c <- client_connected ;;
  if negb c then ret (false, "")
  else
    n <- client_available ;;
    if negb (n =? 0)%nat then
      packet <- client_readStringUntil LF ;;
      modify (set_timeoutStamp 0) ;;
      ret ((0 <? String.length packet)%nat, packet)
    else
      stamp <- gets timeoutStamp ;;
      (if stamp =? 0 then
         t <- millis ;; modify (set_timeoutStamp t)
       else
         t <- millis ;;
         if ulong (t - stamp) >? TIMEOUT_MS then
           modify (set_timeoutStamp 0) ;;
           client_stop
         else ret tt) ;;
      ret (false, "").

(** *** pollAPRS *)

Fixpoint poll_loop (fuel : nat) : M unit :=
  match fuel with
  | O => out_of_fuel
  | S f =>
      r <- readAPRSPacket ;;
      if fst r then
        (if startsWith (snd r) "#" then ret tt else ret tt) ;;
        poll_loop f
      else ret tt
  end.

Definition pollAPRS (fuel : nat) : M unit :=
  st <- gets aprsState ;;
  if negb (APRS_State_eqb st APRS_VERIFIED) then ret tt
  else
    poll_loop fuel ;;
    c <- client_connected ;;
    if negb c then
      modify (set_aprsState APRS_DISCONNECTED) ;;
      DEBUG_PRINTLN "Connection lost"
    else ret tt.

(** *** verifyLogonStatus

    One turn of the body of the [while]: [Some b] is [return b], [None]
    falls through to [yield()]. *)

Definition verify_body : M (option bool) :=
  r <- readAPRSPacket ;;
  let response := snd r in
  if fst r then
    if startsWith response "# logresp" then
      if negb (indexOf response "verified" =? -1)
         && (indexOf response "unverified" =? -1) then
        DEBUG_PRINTLN "Logon verified" ;; ret (Some true)
      else if negb (indexOf response "unverified" =? -1) then
        DEBUG_PRINTLN "Logon unverified" ;; ret (Some false)
      else ret None
    else ret None
  else ret None.

Fixpoint verify_loop (fuel : nat) (timeout : Z) : M bool :=
  match fuel with
  | O => out_of_fuel
  | S f =>
      t <- millis ;;
      if t <? timeout then
        r <- verify_body ;;
        match r with
        | Some b => ret b
        | None => yield ;; verify_loop f timeout
        end
      else
        DEBUG_PRINTLN "Verification timeout" ;; ret false
  end.

Definition verifyLogonStatus (fuel : nat) : M bool :=
  t <- millis ;;
  let timeout := ulong (t + APRS_TIMEOUT) in
  verify_loop fuel timeout.

(** *** connectToAPRSserver *)

Definition connectToAPRSserver (fuel : nat) : M unit :=
  ok <- connectToAPRS ;;
  if ok then
    modify (set_aprsState APRS_CONNECTED) ;;
    performAPRSLogon ;;
    v <- verifyLogonStatus fuel ;;
    if v then modify (set_aprsState APRS_VERIFIED) else ret tt
  else ret tt.

(** *** updateAPRS *)

Definition updateAPRS (fuel : nat) : M unit :=
  st <- gets aprsState ;;
  match st with
  | APRS_DISCONNECTED =>
      _ <- connectToAPRS ;; ret tt
  | APRS_CONNECTED
  | APRS_LOGGED_IN =>
      v <- verifyLogonStatus fuel ;;
      if v then modify (set_aprsState APRS_VERIFIED) else ret tt
  | APRS_VERIFIED =>
      pollAPRS fuel
  end.

End Program.

(** ** Driving the scheduler

    The host loop calls [processBulletins] once per cycle; between two calls
    the time-zone collaborator [myTZ] has moved on.  A poll is the local time
    ([hour], [minute], [day]) the call observes. *)

Definition LocalTime : Type := Z * Z * Z.

Definition poll_at (env : Env) (cred : Credentials) (p : LocalTime) : M unit :=
  let '(h, m, d) := p in
  modify (set_localtime h m d) ;;
  processBulletins env cred.

Fixpoint run_polls (env : Env) (cred : Credentials) (ps : list LocalTime) : M unit :=
  match ps with
  | [] => ret tt
  | p :: r => poll_at env cred p ;; run_polls env cred r
  end.

(** A poll falls on a scheduled minute: 08:00 or 20:00. *)
Definition scheduled (p : LocalTime) : bool :=
  let '(h, m, _) := p in ((h =? 8) || (h =? 20)) && (m =? 0).

Definition day_of (p : LocalTime) : Z := let '(_, _, d) := p in d.

(** The fire checks of [processBulletins], on the state a poll starts in. *)
Definition morning_due (s : St) : bool :=
  (hour s =? 8) && (minute s =? 0) && negb (amBulletinSent s).

Definition evening_due (s : St) : bool :=
  (hour s =? 20) && (minute s =? 0) && negb (pmBulletinSent s).

(** The three statements of [processBulletins], one by one. *)
Definition morning_check (env : Env) (cred : Credentials) : M unit :=
  h <- gets hour ;; m <- gets minute ;; am <- gets amBulletinSent ;;
  if (h =? 8) && (m =? 0) && negb am then
    bulletinText <- pick env ;;
    APRSsendBulletin cred bulletinText "M" ;;
    modify (set_amBulletinSent true)
  else ret tt.

Definition evening_check (env : Env) (cred : Credentials) : M unit :=
  h <- gets hour ;; m <- gets minute ;; pm <- gets pmBulletinSent ;;
  if (h =? 20) && (m =? 0) && negb pm then
    bulletinText <- pick env ;;
    APRSsendBulletin cred bulletinText "E" ;;
    modify (set_pmBulletinSent true)
  else ret tt.

Definition reset_check : M unit :=
  currentDay <- gets day ;;
  last <- gets lastDay ;;
  if negb (currentDay =? last) then
    modify (set_lastDay currentDay) ;;
    modify (set_amBulletinSent false) ;;
    modify (set_pmBulletinSent false)
  else ret tt.

(** How often a bulletin with the given ID was requested. *)
Definition fired (ID : string) (s : St) : nat :=
  count_occ string_dec (requests s) ID.

(** Requests made so far plus the one the flag still allows. *)
Definition budget_M (s : St) : nat :=
  (fired "M" s + (if amBulletinSent s then 0 else 1))%nat.

Definition budget_E (s : St) : nat :=
  (fired "E" s + (if pmBulletinSent s then 0 else 1))%nat.

(** ** Sample configurations *)

(** credentials.cpp *)
Definition cred_W4KRL : Credentials :=
  mkCredentials "W4KRL-2" "9092" "D1S-VEVOR" "2500610" "b/W4KRL-2*".

Definition cred_CALL : Credentials :=
  mkCredentials "CALL-2" "9092" "ID" "VERSION" "b/CALL-2*".

(** A server that accepts connections and then stays silent; every
    [yield()] takes [d] milliseconds. *)
Definition quiet_env (d : Z) : Env :=
  mkEnv (fun _ => d) (fun _ => "") (fun _ => true) (fun _ => "Keep calm.").

(** A server that refuses connections. *)
Definition down_env (d : Z) : Env :=
  mkEnv (fun _ => d) (fun _ => "") (fun _ => false) (fun _ => "Keep calm.").

(** Sample states.  [st_up]: the transport is connected; [st_up1]: the same
    one millisecond after power-up; [feed l s]: the line [l] and its
    terminator have arrived. *)
Definition st_up : St := set_connected true boot.
Definition st_up1 : St := set_connected true (set_now 1 boot).
Definition feed (l : string) (s : St) : St := set_rx (l ++ String LF "") s.

Definition st_banner : St := feed "# aprsc 2.1.19" st_up.
Definition st_empty_line : St := feed "" st_up.
Definition st_not_verified : St := set_aprsState APRS_CONNECTED st_up.
Definition st_logged_in : St := set_aprsState APRS_LOGGED_IN st_up1.

Definition logresp_ok : string := "# logresp W4KRL-2 verified, server T2TEST".
Definition logresp_bad : string := "# logresp W4KRL-2 unverified, server T2TEST".

Definition long_message : string := String.concat "" (repeat "0123456789" 7).

Definition day5 : list LocalTime := [(0, 0, 5); (8, 0, 5); (8, 0, 5); (20, 0, 5)].
Definition day5_from_eight : list LocalTime := [(8, 0, 5); (8, 0, 5)].

(** A line, as the reader sees it: no terminator inside. *)
Fixpoint no_LF (s : string) : bool :=
  match s with
  | EmptyString => true
  | String a r => negb (Ascii.eqb a LF) && no_LF r
  end.

(** The verdict of the handshake on a response line, in the words of the
    specification, and with the marker the code asks for. *)
Definition logresp : string := "# logresp".

Definition verified_by (line : string) : Prop :=
  startsWith line logresp = true
  /\ Contains "verified" line /\ ~ Contains "unverified" line.

Definition rejected_by (line : string) : Prop :=
  startsWith line logresp = true /\ Contains "unverified" line.

(** The frames of the protocol, as the specification writes them. *)
Definition bulletin_frame (cred : Credentials) (message ID : string) : string :=
  CALLSIGN cred ++ ">APRS,TCPIP*::BLN" ++ ID ++ "     :" ++ message.

Definition ack_frame (cred : Credentials) (recipient msgID : string) : string :=
  CALLSIGN cred ++ ">APRS,TCPIP*::" ++ APRSpadCall recipient ++ ":ack" ++ msgID.

(** What the reader and the verification loop body never touch: the
    connection state, the lines sent, the clock and the scheduler. *)
Definition untouched (s s' : St) : Prop :=
  aprsState s' = aprsState s /\ tx s' = tx s
  /\ now s' = now s /\ epoch s' = epoch s
  /\ amBulletinSent s' = amBulletinSent s /\ pmBulletinSent s' = pmBulletinSent s
  /\ lastDay s' = lastDay s /\ requests s' = requests s.

(** ** main.cpp and taskControl.cpp

    [setup()] and [loop()] without their collaborators (display, Wi-Fi, time
    zone, file system).  Whether the TickTwo ticker [tmrAPRSticker], which
    calls [pollAPRS], is due in a turn of [loop()] is the environment's
    choice; between two turns time passes as at a [yield()]. *)

Definition setup (env : Env) (cred : Credentials) (fuel : nat) : M unit :=
  connectToAPRSserver env cred fuel.

Definition updateTasks (due : bool) (fuel : nat) : M unit :=
  if due then pollAPRS fuel else ret tt.

Definition loop (env : Env) (due : nat -> bool) (fuel : nat) : M unit :=
  e <- gets epoch ;;
  updateTasks (due e) fuel ;;
  updateAPRS env fuel.

Fixpoint run_loop (env : Env) (due : nat -> bool) (fuel n : nat) : M unit :=
  match n with
  | O => ret tt
  | S k => loop env due fuel ;; yield env ;; run_loop env due fuel k
  end.

(** Two calls of [pollAPRS] with one pause between them. *)
Definition poll_pause_poll (env : Env) (fuel : nat) : M unit :=
  pollAPRS fuel ;; yield env ;; pollAPRS fuel.

(** ** Received data (the [APRSreceivedData] revision of aprsService.cpp)

    The globals it writes, and [sprintf(APRSage, "%02d:%02d:%02d", ...)] into
    [char APRSage[9]]: [None] when the text does not fit the buffer. *)

Record Store := mkStore {
  APRSdataWeather : string;
  APRSdataTelemetry : string;
  APRSage : string
}.

Definition APRS_ID_WEATHER : string := "_".
Definition APRS_ID_COMMENT : ascii := "#"%char.

(** [%02d] *)
Definition fmt_02d (z : Z) : string :=
  let d := NilZero.string_of_int (Z.to_int z) in
  if (String.length d <? 2)%nat then "0" ++ d else d.

Definition sprintf_age (h m sec : Z) : option string :=
  let str := fmt_02d h ++ ":" ++ fmt_02d m ++ ":" ++ fmt_02d sec in
  if (String.length str <=? 8)%nat then Some str else None.

Definition APRSreceivedData (t : Z * Z * Z) (APRSrcvd : string) (st : Store)
  : option Store :=
  let '(h, m, sec) := t in
  if negb (APRSrcvd =? "")%string
     && negb (match APRSrcvd with
              | String c _ => Ascii.eqb c APRS_ID_COMMENT
              | EmptyString => false
              end)
     && (10 <? String.length APRSrcvd)%nat
  then
    match
      (if 0 <? indexOf APRSrcvd APRS_ID_WEATHER then
         if negb (APRSdataWeather st =? APRSrcvd)%string then
           match sprintf_age h m sec with
           | Some age => Some (mkStore APRSrcvd (APRSdataTelemetry st) age)
           | None => None
           end
         else Some st
       else Some st)
    with
    | Some st1 =>
        if 0 <? indexOf APRSrcvd "T#" then
          if negb (APRSdataTelemetry st1 =? APRSrcvd)%string then
            Some (mkStore (APRSdataWeather st1) APRSrcvd (APRSage st1))
          else Some st1
        else Some st1
    | None => None
    end
  else Some st.

(** ** Helpers for statements *)

(** [n] spaces. *)
Fixpoint spaces (n : nat) : string :=
  match n with
  | O => ""
  | S k => String " " (spaces k)
  end.

(** Lines as they sit in the receive buffer, each with its terminator. *)
Fixpoint lines_of (ls : list string) : string :=
  match ls with
  | [] => ""
  | l :: r => l ++ String LF (lines_of r)
  end.

(** A line the packet reader reports as a packet. *)
Definition packet_line (l : string) : Prop := no_LF l = true /\ l <> "".

(** A line the verification loop passes over: no login-response marker. *)
Definition passed_over (l : string) : Prop :=
  no_LF l = true /\ startsWith l logresp = false.

(** A verified session on a silent transport whose idle timer was started
    at [t0]. *)
Definition armed (t0 : Z) (s : St) : Prop :=
  aprsState s = APRS_VERIFIED /\ connected s = true /\ rx s = ""
  /\ timeoutStamp s = t0 /\ 0 < t0 <= now s.

(** A poll at 08:00, at 20:00. *)
Definition at_8 (p : LocalTime) : bool := let '(h, m, _) := p in (h =? 8) && (m =? 0).
Definition at_20 (p : LocalTime) : bool := let '(h, m, _) := p in (h =? 20) && (m =? 0).

(** The first poll of the list observes a new day and itself requests the
    morning (evening) bulletin: it falls on 08:00 (20:00) with the flag
    clear. *)
Definition first_fires_M (s : St) (ps : list LocalTime) : bool :=
  match ps with
  | p :: _ => negb (day_of p =? lastDay s) && at_8 p && negb (amBulletinSent s)
  | [] => false
  end.

Definition first_fires_E (s : St) (ps : list LocalTime) : bool :=
  match ps with
  | p :: _ => negb (day_of p =? lastDay s) && at_20 p && negb (pmBulletinSent s)
  | [] => false
  end.

(** A bulletin text the transport will take: the transport is connected and
    the text has at most 67 characters. *)
Definition sendable (text : string) (s : St) : bool :=
  connected s && (String.length text <=? 67)%nat.

(** What the scheduler leaves alone besides its own flags. *)
Definition same_session (s s' : St) : Prop :=
  connected s' = connected s /\ aprsState s' = aprsState s
  /\ rx s' = rx s /\ timeoutStamp s' = timeoutStamp s.

(** A morning with the transport down. *)
Definition day5_later : list LocalTime := [(8, 0, 5); (8, 1, 5); (12, 0, 5)].
Definition st_day5 : St := set_lastDay 5 boot.

(** The verdict [b] is the one the line calls for. *)
Definition verdict (b : bool) (line : string) : Prop :=
  if b then verified_by line else rejected_by line.

(** A server greeting and a verified login response, as aprsc sends them. *)
Definition greeting : list string := ["# aprsc 2.1.19-g730c5c0"].

Definition st_greeted : St :=
  set_rx (lines_of greeting ++ logresp_ok ++ String LF "") (set_now 1 boot).

Definition greeting_env : Env :=
  mkEnv (fun _ => 1) (fun _ => "") (fun _ => true) (fun _ => "Keep calm.").

(** A server that sends its greeting and a verified login response during
    the second [yield()] after power-up. *)
Definition answering_env : Env :=
  mkEnv (fun _ => 1)
        (fun n => if (n =? 1)%nat
                  then lines_of greeting ++ logresp_ok ++ String LF ""
                  else "")
        (fun _ => true) (fun _ => "Keep calm.").

Definition st_verified : St := set_aprsState APRS_VERIFIED st_up1.

(** The idle timer was started 1000 ms before the clock wrapped; it is now
    600 ms after. *)
Definition st_wrapped : St :=
  set_timeoutStamp (2 ^ 32 - 1000) (set_now (2 ^ 32 + 600) st_up).

(** A verified session with one packet, an empty line and a second packet
    at hand. *)
Definition first_packet : string := "KA1ABC>APRS,TCPIP*:>first".
Definition second_packet : string := "KA1ABC>APRS,TCPIP*:>second".

Definition st_split : St :=
  set_rx (lines_of [first_packet] ++ String LF (lines_of [second_packet])) st_verified.

Definition st_two_packets : St :=
  set_rx (lines_of [first_packet; second_packet]) st_verified.

(** The line [performAPRSLogon] sends. *)
Definition login_line (cred : Credentials) : string :=
  "user " ++ CALLSIGN cred ++ " pass " ++ APRS_PASSCODE cred
    ++ " ver " ++ APRS_SOFTWARE_NAME cred ++ " " ++ APRS_SOFTWARE_VERS cred
    ++ " filter " ++ APRS_FILTER cred.

(** A connected session that has the greeting and a verified login response
    at hand; the same one millisecond before the clock wraps. *)
Definition st_answered : St := set_connected true st_greeted.
Definition st_answered_at_wrap : St := set_now (2 ^ 32 - 1) st_answered.

(** A session in state LoggedIn, 2001 ms before the clock wraps. *)
Definition st_before_wrap : St := set_now (2 ^ 32 - 2001) st_logged_in.

(** A ticker that is due in every turn of [loop()]. *)
Definition always_due : nat -> bool := fun _ => true.

(** * Properties *)

(** ** Strings *)

Lemma append_assoc (a b c : string) : (a ++ b) ++ c = a ++ (b ++ c).
Proof. induction a as [|x a IH]; simpl; [reflexivity | now rewrite IH]. Qed.

Lemma append_nil_r (a : string) : a ++ "" = a.
Proof. induction a as [|x a IH]; simpl; [reflexivity | now rewrite IH]. Qed.


Lemma is_prefix_spec (p s : string) :
  is_prefix p s = true <-> exists post, s = p ++ post.
Proof.
  revert s; induction p as [|a p IH]; intros s; simpl.
  - split; [intros _; now exists s | reflexivity].
  - destruct s as [|b s].
    + split; [discriminate | intros [post H]; discriminate].
    + rewrite andb_true_iff, Ascii.eqb_eq, IH. split.
      * intros [-> [post ->]]. now exists post.
      * intros [post H]. injection H as -> ->. split; [reflexivity | now exists post].
Qed.

Lemma Contains_cons (p : string) (a : ascii) (s : string) :
  Contains p (String a s) -> is_prefix p (String a s) = true \/ Contains p s.
Proof.
  intros [pre [post H]]. destruct pre as [|b pre].
  - left. apply is_prefix_spec. now exists post.
  - right. simpl in H. injection H as _ ->. now exists pre, post.
Qed.

Lemma strstr_Some (s p : string) (n : nat) :
  strstr s p = Some n -> Contains p s.
Proof.
  revert n; induction s as [|a s IH]; intros n; simpl.
  - destruct (is_prefix p "") eqn:E; [|discriminate].
    intros _. apply is_prefix_spec in E as [post ->]. now exists "", post.
  - destruct (is_prefix p (String a s)) eqn:E.
    + intros _. apply is_prefix_spec in E as [post ->]. now exists "", post.
    + destruct (strstr s p) as [m|] eqn:F; [|discriminate].
      intros _. destruct (IH m eq_refl) as [pre [post ->]].
      now exists (String a pre), post.
Qed.

Lemma strstr_None (s p : string) :
  strstr s p = None -> ~ Contains p s.
Proof.
  induction s as [|a s IH]; simpl.
  - destruct (is_prefix p "") eqn:E; [discriminate|].
    intros _ [pre [post H]]. destruct pre; [|discriminate].
    assert (is_prefix p "" = true) by (apply is_prefix_spec; now exists post).
    congruence.
  - destruct (is_prefix p (String a s)) eqn:E; [discriminate|].
    destruct (strstr s p) eqn:F; [discriminate|].
    intros _ C. apply Contains_cons in C as [C|C]; [congruence | now apply IH].
Qed.

(** [indexOf] finds a non-empty pattern exactly where it occurs. *)
Lemma indexOf_Contains (s p : string) :
  p <> "" -> (indexOf s p =? -1) = false <-> Contains p s.
Proof.
  intros Hp. unfold indexOf. destruct s as [|a s].
  - simpl. split; [discriminate|].
    intros [pre [post H]]. destruct pre; [destruct p; [congruence | discriminate] | discriminate].
  - cbn [String.length Nat.eqb]. destruct (strstr (String a s) p) as [n|] eqn:E.
    + split; [intros _; eapply strstr_Some; eauto | intros _; apply Z.eqb_neq; lia].
    + split; [discriminate | intros C; now apply strstr_None in E].
Qed.

Lemma indexOf_not_Contains (s p : string) :
  p <> "" -> (indexOf s p =? -1) = true <-> ~ Contains p s.
Proof.
  intros Hp. rewrite <- (indexOf_Contains s p Hp).
  destruct (indexOf s p =? -1); split; congruence.
Qed.

Lemma readStringUntil_line (line rest : string) :
  no_LF line = true ->
  readStringUntil LF (line ++ String LF rest) = (line, rest).
Proof.
  induction line as [|a line IH]; simpl; intros H.
  - reflexivity.
  - apply andb_true_iff in H as [Ha Hl]. apply negb_true_iff in Ha.
    rewrite Ha, (IH Hl). reflexivity.
Qed.

(** ** Running monadic code in proofs *)

Ltac mstep :=
  cbv [bind ret gets modify millis yield DEBUG_PRINTLN Serial_println
       client_connected client_available client_connect client_stop
       client_println client_readStringUntil pick].

(** Projections of updated states, without touching the arithmetic. *)
Ltac stsimpl :=
  cbn [connected rx tx stops now epoch hour minute day serial aprsState
       amBulletinSent pmBulletinSent lastDay timeoutStamp picks requests
       set_connected set_rx set_tx set_stops set_now set_epoch set_localtime
       set_serial set_aprsState set_amBulletinSent set_pmBulletinSent
       set_lastDay set_timeoutStamp set_picks set_requests tick] in *.

Lemma bind_Some {A B} (m : M A) (k : A -> M B) (s s' : St) (a : A) :
  m s = Some (a, s') -> bind m k s = k a s'.
Proof. unfold bind. now intros ->. Qed.

(** ** Message formatter *)

(** C7. The bulletin frame is [<CALLSIGN>>APRS,TCPIP*::BLN<ID>     :<message>],
    with exactly five spaces between [BLN<ID>] and the colon; the only effect
    of formatting is the debug line.  For W4KRL-2, ID "M" and "Keep calm."
    the frame is [W4KRL-2>APRS,TCPIP*::BLNM     :Keep calm.]. *)
Theorem C7_bulletin_frame :
  (forall (cred : Credentials) (message ID : string) (s : St),
      let frame :=
        CALLSIGN cred ++ ">APRS,TCPIP*::BLN" ++ ID
          ++ String.concat "" (repeat " " 5) ++ ":" ++ message in
      APRSformatBulletin cred message ID s
      = Some (frame, set_serial (serial s ++ ["APRS Bulletin: " ++ frame]) s))
  /\ (forall s : St,
         option_map fst (APRSformatBulletin cred_W4KRL "Keep calm." "M" s)
         = Some "W4KRL-2>APRS,TCPIP*::BLNM     :Keep calm.").
Proof.
  split.
  - intros cred message ID s frame. subst frame.
    unfold APRSformatBulletin. mstep.
    rewrite !append_assoc. reflexivity.
  - intros s. reflexivity.
Qed.

(** ** Logon handshake *)

(** C2. What [performAPRSLogon] sends: the keyword before the client
    identification is [ver], so the line differs from
    [user <CALLSIGN> pass <PASSCODE> vers <CLIENT_ID> <VERSION> filter <FILTER>];
    for CALL-2 / 9092 / b/CALL-2* it is
    [user CALL-2 pass 9092 ver ID VERSION filter b/CALL-2*]. *)
Theorem C2_logon_line_sent :
  (forall (cred : Credentials) (s : St),
      let line :=
        "user " ++ CALLSIGN cred ++ " pass " ++ APRS_PASSCODE cred
          ++ " ver " ++ APRS_SOFTWARE_NAME cred ++ " " ++ APRS_SOFTWARE_VERS cred
          ++ " filter " ++ APRS_FILTER cred in
      performAPRSLogon cred s
      = Some (tt, set_serial (serial s ++ ["APRS logon: " ++ line])
                    (set_tx (tx s ++ [line]) s)))
  /\ (exists s', performAPRSLogon cred_CALL boot = Some (tt, s')
                 /\ tx s' = ["user CALL-2 pass 9092 ver ID VERSION filter b/CALL-2*"]
                 /\ tx s' <> ["user CALL-2 pass 9092 vers ID VERSION filter b/CALL-2*"]).
Proof.
  split.
  - intros cred s line. subst line.
    unfold performAPRSLogon. mstep.
    repeat (rewrite !append_assoc; cbn [append]). reflexivity.
  - eexists. split; [reflexivity|]. split; [reflexivity | discriminate].
Qed.

(** ** Packet reader *)

Lemma readStringUntil_length (c : ascii) (buf : string) :
  (String.length (fst (readStringUntil c buf))
   + String.length (snd (readStringUntil c buf)) <= String.length buf)%nat.
Proof.
  induction buf as [|a r IH]; simpl; [lia|].
  destruct (Ascii.eqb a c); simpl; [lia|].
  destruct (readStringUntil c r); simpl in *; lia.
Qed.

Lemma readAPRSPacket_disconnected (s : St) :
  connected s = false -> readAPRSPacket s = Some ((false, ""), s).
Proof. intros H. unfold readAPRSPacket. mstep. now rewrite H. Qed.

Lemma readAPRSPacket_available (s : St) :
  connected s = true -> rx s <> "" ->
  readAPRSPacket s
  = Some (((0 <? String.length (fst (readStringUntil LF (rx s))))%nat,
           fst (readStringUntil LF (rx s))),
          set_timeoutStamp 0 (set_rx (snd (readStringUntil LF (rx s))) s)).
Proof.
  intros Hc Hrx. unfold readAPRSPacket. mstep. rewrite Hc. cbn [negb].
  destruct (rx s) as [|a r] eqn:E; [congruence|].
  cbn [String.length Nat.eqb negb]. rewrite E.
  destruct (readStringUntil LF (String a r)) as [l r']. reflexivity.
Qed.

Lemma readStringUntil_no_LF (buf : string) :
  no_LF (fst (readStringUntil LF buf)) = true.
Proof.
  induction buf as [|a r IH]; simpl; [reflexivity|].
  destruct (Ascii.eqb a LF) eqn:E; simpl; [reflexivity|].
  destruct (readStringUntil LF r) as [l r']. simpl in *. now rewrite E, IH.
Qed.

Lemma readAPRSPacket_line (s : St) (line rest : string) :
  connected s = true -> no_LF line = true ->
  rx s = line ++ String LF rest ->
  readAPRSPacket s
  = Some ((negb (line =? "")%string, line), set_timeoutStamp 0 (set_rx rest s)).
Proof.
  intros Hc Hl Hrx.
  rewrite readAPRSPacket_available; [| assumption | rewrite Hrx; destruct line; discriminate].
  rewrite Hrx, readStringUntil_line by assumption. simpl.
  destruct line; reflexivity.
Qed.

(** The reader reports ok only when it has consumed at least one byte, so
    the loop of [pollAPRS] ends once the receive buffer is drained. *)
Lemma readAPRSPacket_shrinks (s : St) :
  exists (ok : bool) (p : string) (s' : St),
    readAPRSPacket s = Some ((ok, p), s')
    /\ (ok = true -> (String.length (rx s') < String.length (rx s))%nat).
Proof.
  destruct (connected s) eqn:Hc.
  - destruct (rx s) as [|a r] eqn:Hr.
    + unfold readAPRSPacket. mstep. rewrite Hc. cbn [negb]. rewrite Hr.
      cbn [String.length Nat.eqb negb].
      destruct (timeoutStamp s =? 0);
        [| destruct (ulong (ulong (now s) - timeoutStamp s) >? TIMEOUT_MS)];
        do 3 eexists; (split; [reflexivity | discriminate]).
    + rewrite readAPRSPacket_available by (try assumption; rewrite Hr; discriminate).
      do 3 eexists. split; [reflexivity|]. intros Hok. apply Nat.ltb_lt in Hok.
      pose proof (readStringUntil_length LF (rx s)). stsimpl. rewrite <- Hr. lia.
  - rewrite readAPRSPacket_disconnected by assumption.
    do 3 eexists. split; [reflexivity | discriminate].
Qed.

Lemma poll_loop_total (fuel : nat) :
  forall s : St,
    (String.length (rx s) < fuel)%nat ->
    exists s', poll_loop fuel s = Some (tt, s').
Proof.
  induction fuel as [|fuel IH]; intros s Hf; [lia|].
  destruct (readAPRSPacket_shrinks s) as [ok [p [s1 [E Hs]]]].
  cbn [poll_loop]. rewrite (bind_Some _ _ _ _ _ E). cbn [fst snd].
  destruct ok.
  - specialize (Hs eq_refl).
    destruct (IH s1) as [s' E']; [lia|].
    exists s'. destruct (startsWith p "#"); exact E'.
  - exists s1. reflexivity.
Qed.

(** C8, as the code has it.  Not connected: not-ok at once, with an empty
    line and nothing else changed.  Connected with bytes at hand: the bytes
    up to the terminator are returned without it, the idle timer is reset,
    and the call reports ok exactly when that line is not empty.  The same
    holds when the bytes at hand hold no terminator yet: what was read
    contains none. *)
Theorem C8_reader :
  forall s : St,
    (connected s = false -> readAPRSPacket s = Some ((false, ""), s))
    /\ (forall line rest : string,
           connected s = true -> no_LF line = true ->
           rx s = line ++ String LF rest ->
           readAPRSPacket s
           = Some ((negb (line =? "")%string, line),
                   set_timeoutStamp 0 (set_rx rest s)))
    /\ (connected s = true -> rx s <> "" ->
          exists line rest : string,
            readAPRSPacket s
            = Some ((negb (line =? "")%string, line),
                    set_timeoutStamp 0 (set_rx rest s))
            /\ no_LF line = true
            /\ (String.length line + String.length rest <= String.length (rx s))%nat).
Proof.
  intros s. split; [| split].
  - apply readAPRSPacket_disconnected.
  - intros line rest. apply readAPRSPacket_line.
  - intros Hc Hrx.
    exists (fst (readStringUntil LF (rx s))), (snd (readStringUntil LF (rx s))).
    rewrite readAPRSPacket_available by assumption.
    split; [| split].
    + destruct (fst (readStringUntil LF (rx s))); reflexivity.
    + apply readStringUntil_no_LF.
    + apply readStringUntil_length.
Qed.

Lemma C8_reader_witness :
  (connected boot = false /\ readAPRSPacket boot = Some ((false, ""), boot))
  /\ (connected st_banner = true /\ no_LF "# aprsc 2.1.19" = true
      /\ rx st_banner = "# aprsc 2.1.19" ++ String LF ""
      /\ readAPRSPacket st_banner
         = Some ((true, "# aprsc 2.1.19"), set_timeoutStamp 0 (set_rx "" st_banner))).
Proof.
  split.
  - split; [reflexivity|]. apply (proj1 (C8_reader boot)). reflexivity.
  - split; [reflexivity|]. split; [reflexivity|]. split; [reflexivity|].
    apply (proj1 (proj2 (C8_reader st_banner)) "# aprsc 2.1.19" ""); reflexivity.
Defined.

(** C8 as stated fails on an empty line: one byte, the terminator, is at
    hand on a connected transport, and the reader reports not-ok. *)
Lemma C8_counterexample :
  (connected st_empty_line = true
   /\ (0 < String.length (rx st_empty_line))%nat
   /\ option_map fst (readAPRSPacket st_empty_line) = Some (false, ""))
  /\ ~ (forall s : St,
          connected s = true -> rx s <> "" ->
          exists (line : string) (s' : St),
            readAPRSPacket s = Some ((true, line), s')).
Proof.
  split.
  - repeat split. simpl. lia.
  - intros H.
    destruct (H st_empty_line eq_refl ltac:(discriminate)) as [line [s' E]].
    discriminate E.
Qed.

(** ** Sending *)

Lemma APRSsendBulletin_too_long (cred : Credentials) (message ID : string) (s : St) :
  (67 < String.length message)%nat ->
  APRSsendBulletin cred message ID s
  = Some (tt, set_serial (serial s ++ ["APRS bulletin too long. Max 67 characters."])
                (set_requests (requests s ++ [ID]) s)).
Proof.
  intros H. unfold APRSsendBulletin. mstep.
  apply Nat.ltb_lt in H. rewrite H. reflexivity.
Qed.

Lemma APRSsendBulletin_posted (cred : Credentials) (message ID : string) (s : St) :
  (String.length message <= 67)%nat -> connected s = true ->
  APRSsendBulletin cred message ID s
  = Some (tt, set_serial ((serial s ++ ["APRS Bulletin: " ++ bulletin_frame cred message ID])
                            ++ ["APRS posted: " ++ bulletin_frame cred message ID])
                (set_tx (tx s ++ [bulletin_frame cred message ID])
                   (set_requests (requests s ++ [ID]) s))).
Proof.
  intros H Hc. unfold APRSsendBulletin, APRSformatBulletin, postToAPRS, bulletin_frame. mstep.
  apply Nat.ltb_ge in H. rewrite H. simpl. rewrite Hc.
  rewrite !append_assoc. reflexivity.
Qed.

Lemma APRSsendBulletin_lost (cred : Credentials) (message ID : string) (s : St) :
  (String.length message <= 67)%nat -> connected s = false ->
  APRSsendBulletin cred message ID s
  = Some (tt, set_serial ((serial s ++ ["APRS Bulletin: " ++ bulletin_frame cred message ID])
                            ++ ["APRS connection lost. Cannot post message."])
                (set_requests (requests s ++ [ID]) s)).
Proof.
  intros H Hc. unfold APRSsendBulletin, APRSformatBulletin, postToAPRS, bulletin_frame. mstep.
  apply Nat.ltb_ge in H. rewrite H. simpl. rewrite Hc.
  rewrite !append_assoc. reflexivity.
Qed.

Lemma bulletin_frame_Contains (cred : Credentials) (message ID : string) :
  Contains (":BLN" ++ ID) (bulletin_frame cred message ID).
Proof.
  exists (CALLSIGN cred ++ ">APRS,TCPIP*:"), ("     :" ++ message).
  unfold bulletin_frame. rewrite !append_assoc. reflexivity.
Qed.

Lemma APRSsendACK_written (cred : Credentials) (recipient msgID : string) (s : St) :
  APRSsendACK cred recipient msgID s
  = Some (tt, set_serial (serial s ++ [ack_frame cred recipient msgID])
                (set_tx (tx s ++ [ack_frame cred recipient msgID]) s)).
Proof.
  unfold APRSsendACK, ack_frame, APRS_ID_MESSAGE. mstep.
  repeat (rewrite !append_assoc; cbn [append]). reflexivity.
Qed.

(** C5, as the code has it.  A message longer than 67 characters is never
    written: the send is reported on the debug channel and dropped, and
    nothing but the logs changes.  A message of at most 67 characters is
    written exactly once, as a line containing [:BLN<ID>], when the transport
    is connected; when it is not, nothing is written and the loss is
    reported. *)
Theorem C5_send_bulletin :
  forall (cred : Credentials) (message ID : string) (s : St),
    ((67 < String.length message)%nat ->
       APRSsendBulletin cred message ID s
       = Some (tt, set_serial (serial s ++ ["APRS bulletin too long. Max 67 characters."])
                     (set_requests (requests s ++ [ID]) s)))
    /\ ((String.length message <= 67)%nat -> connected s = true ->
          exists (s' : St) (line : string),
            APRSsendBulletin cred message ID s = Some (tt, s')
            /\ tx s' = (tx s ++ [line])%list
            /\ line = bulletin_frame cred message ID
            /\ Contains (":BLN" ++ ID) line)
    /\ ((String.length message <= 67)%nat -> connected s = false ->
          exists s' : St,
            APRSsendBulletin cred message ID s = Some (tt, s')
            /\ tx s' = tx s
            /\ In "APRS connection lost. Cannot post message." (serial s')).
Proof.
  intros cred message ID s. split; [| split].
  - apply APRSsendBulletin_too_long.
  - intros H Hc. eexists. exists (bulletin_frame cred message ID).
    split; [now apply APRSsendBulletin_posted|].
    split; [reflexivity|]. split; [reflexivity|]. apply bulletin_frame_Contains.
  - intros H Hc. eexists. split; [now apply APRSsendBulletin_lost|].
    split; [reflexivity|]. simpl. apply in_or_app. right. now left.
Qed.

Lemma C5_send_bulletin_witness :
  ((67 < String.length long_message)%nat
   /\ option_map (fun r => tx (snd r)) (APRSsendBulletin cred_W4KRL long_message "M" st_up)
      = Some (tx st_up))
  /\ ((String.length "Keep calm." <= 67)%nat /\ connected st_up = true
      /\ exists (s' : St) (line : string),
           APRSsendBulletin cred_W4KRL "Keep calm." "M" st_up = Some (tt, s')
           /\ tx s' = (tx st_up ++ [line])%list
           /\ line = bulletin_frame cred_W4KRL "Keep calm." "M"
           /\ Contains (":BLN" ++ "M") line)
  /\ ((String.length "Keep calm." <= 67)%nat /\ connected boot = false
      /\ exists s' : St,
           APRSsendBulletin cred_W4KRL "Keep calm." "M" boot = Some (tt, s')
           /\ tx s' = tx boot
           /\ In "APRS connection lost. Cannot post message." (serial s')).
Proof.
  assert (L : (67 < String.length long_message)%nat) by (simpl; lia).
  assert (K : (String.length "Keep calm." <= 67)%nat) by (simpl; lia).
  split; [| split].
  - split; [exact L|].
    rewrite (proj1 (C5_send_bulletin cred_W4KRL long_message "M" st_up) L). reflexivity.
  - split; [exact K|]. split; [reflexivity|].
    exact (proj1 (proj2 (C5_send_bulletin cred_W4KRL "Keep calm." "M" st_up)) K eq_refl).
  - split; [exact K|]. split; [reflexivity|].
    exact (proj2 (proj2 (C5_send_bulletin cred_W4KRL "Keep calm." "M" boot)) K eq_refl).
Defined.

(** C5 as stated fails when the transport is down: a ten-character message
    is not written at all. *)
Lemma C5_counterexample :
  ((String.length "Keep calm." <= 67)%nat
   /\ option_map (fun r => tx (snd r)) (APRSsendBulletin cred_W4KRL "Keep calm." "M" boot)
      = Some [])
  /\ ~ (forall (cred : Credentials) (message ID : string) (s : St),
          (String.length message <= 67)%nat ->
          exists (s' : St) (line : string),
            APRSsendBulletin cred message ID s = Some (tt, s')
            /\ tx s' = (tx s ++ [line])%list).
Proof.
  assert (K : (String.length "Keep calm." <= 67)%nat) by (simpl; lia).
  split.
  - split; [exact K | reflexivity].
  - intros H. destruct (H cred_W4KRL "Keep calm." "M" boot K) as [s' [line [E T]]].
    injection E as <-. discriminate T.
Qed.

(** C6, as the code has it.  The gate on a bulletin is the transport's own
    connection flag, not the connection state: with the transport down the
    send is reported as lost and dropped, nothing is written and nothing is
    kept for later; with the transport up the bulletin is written in every
    connection state.  An acknowledgement is handed to the transport without
    any check. *)
Theorem C6_send_gate :
  forall (cred : Credentials) (s : St),
    (forall message ID : string,
        connected s = false ->
        exists s' : St,
          APRSsendBulletin cred message ID s = Some (tt, s')
          /\ tx s' = tx s
          /\ set_serial (serial s) (set_requests (requests s) s') = s
          /\ ((String.length message <= 67)%nat ->
              In "APRS connection lost. Cannot post message." (serial s')))
    /\ (forall message ID : string,
           connected s = true -> (String.length message <= 67)%nat ->
           exists s' : St,
             APRSsendBulletin cred message ID s = Some (tt, s')
             /\ tx s' = (tx s ++ [bulletin_frame cred message ID])%list
             /\ aprsState s' = aprsState s)
    /\ (forall recipient msgID : string,
           exists s' : St,
             APRSsendACK cred recipient msgID s = Some (tt, s')
             /\ tx s' = (tx s ++ [ack_frame cred recipient msgID])%list
             /\ aprsState s' = aprsState s).
Proof.
  intros cred s. split; [| split].
  - intros message ID Hc.
    destruct (Nat.ltb_spec 67 (String.length message)) as [L|L].
    + eexists. split; [now apply APRSsendBulletin_too_long|].
      split; [reflexivity|]. split; [destruct s; reflexivity | lia].
    + eexists. split; [now apply APRSsendBulletin_lost|].
      split; [reflexivity|]. split; [destruct s; reflexivity|].
      intros _. simpl. apply in_or_app. right. now left.
  - intros message ID Hc L. eexists.
    split; [now apply APRSsendBulletin_posted|]. split; reflexivity.
  - intros recipient msgID. eexists.
    split; [apply APRSsendACK_written|]. split; reflexivity.
Qed.

Lemma C6_send_gate_witness :
  (connected boot = false
   /\ option_map (fun r => tx (snd r)) (APRSsendBulletin cred_W4KRL "Keep calm." "M" boot)
      = Some (tx boot))
  /\ (connected st_not_verified = true /\ (String.length "Keep calm." <= 67)%nat
      /\ option_map (fun r => tx (snd r))
           (APRSsendBulletin cred_W4KRL "Keep calm." "M" st_not_verified)
         = Some ["W4KRL-2>APRS,TCPIP*::BLNM     :Keep calm."]).
Proof.
  assert (K : (String.length "Keep calm." <= 67)%nat) by (simpl; lia).
  split.
  - split; [reflexivity|].
    destruct (proj1 (C6_send_gate cred_W4KRL boot) "Keep calm." "M" eq_refl)
      as [s' [E [T _]]].
    rewrite E. simpl. now rewrite T.
  - split; [reflexivity|]. split; [exact K|].
    destruct (proj1 (proj2 (C6_send_gate cred_W4KRL st_not_verified)) "Keep calm." "M" eq_refl K)
      as [s' [E [T _]]].
    rewrite E. simpl. now rewrite T.
Defined.

(** C6 as stated fails: in state [APRS_CONNECTED] (logon not verified) on a
    connected transport a bulletin is written, and an acknowledgement is
    written as well. *)
Lemma C6_counterexample :
  (aprsState st_not_verified <> APRS_VERIFIED
   /\ option_map (fun r => tx (snd r))
        (APRSsendBulletin cred_W4KRL "Keep calm." "M" st_not_verified)
      = Some ["W4KRL-2>APRS,TCPIP*::BLNM     :Keep calm."]
   /\ option_map (fun r => tx (snd r))
        (APRSsendACK cred_W4KRL "N0CALL" "42" st_not_verified)
      = Some ["W4KRL-2>APRS,TCPIP*::N0CALL   :ack42"])
  /\ ~ (forall (cred : Credentials) (message ID : string) (s : St),
          aprsState s <> APRS_VERIFIED ->
          exists s' : St,
            APRSsendBulletin cred message ID s = Some (tt, s') /\ tx s' = tx s).
Proof.
  split.
  - split; [discriminate|]. split; reflexivity.
  - intros H.
    destruct (H cred_W4KRL "Keep calm." "M" st_not_verified ltac:(discriminate))
      as [s' [E T]].
    injection E as <-. discriminate T.
Qed.

(** ** Logon verification: the verdict on a line *)

Lemma unverified_verified (line : string) :
  Contains "unverified" line -> Contains "verified" line.
Proof.
  intros [pre [post ->]]. exists (pre ++ "un"), post.
  rewrite !append_assoc. reflexivity.
Qed.

(** [verify_body] on a state whose receive buffer starts with a full line. *)
Lemma verify_body_line (s : St) (line rest : string) :
  connected s = true -> no_LF line = true -> rx s = line ++ String LF rest ->
  let s' := set_timeoutStamp 0 (set_rx rest s) in
  verify_body s
  = Some (if startsWith line logresp
             && negb (indexOf line "verified" =? -1)
             && (indexOf line "unverified" =? -1)
          then (Some true, set_serial (serial s ++ ["Logon verified"]) s')
          else if startsWith line logresp && negb (indexOf line "unverified" =? -1)
          then (Some false, set_serial (serial s ++ ["Logon unverified"]) s')
          else (None, s')).
Proof.
  intros Hc Hl Hrx s'. unfold verify_body.
  rewrite (bind_Some _ _ _ _ _ (readAPRSPacket_line s line rest Hc Hl Hrx)).
  cbn [fst snd]. fold s'. unfold logresp.
  destruct line as [|a line].
  - reflexivity.
  - cbn [String.eqb negb].
    destruct (startsWith (String a line) "# logresp"); [|reflexivity].
    destruct (indexOf (String a line) "verified" =? -1);
      destruct (indexOf (String a line) "unverified" =? -1); reflexivity.
Qed.

Lemma verify_loop_step (env : Env) (fuel : nat) (timeout : Z) (s : St) :
  ulong (now s) < timeout ->
  verify_loop env (S fuel) timeout s
  = match verify_body s with
    | Some (Some b, s1) => Some (b, s1)
    | Some (None, s1) => verify_loop env fuel timeout (tick env s1)
    | None => None
    end.
Proof.
  intros H. apply Z.ltb_lt in H. cbn [verify_loop]. unfold bind at 1, millis, gets.
  rewrite H. unfold bind at 1. destruct (verify_body s) as [[[b|] s1]|]; reflexivity.
Qed.

Ltac verdict_cases line :=
  let Esw := fresh "Esw" in
  let Ev := fresh "Ev" in
  let Eu := fresh "Eu" in
  destruct (startsWith line logresp) eqn:Esw;
  destruct (indexOf line "verified" =? -1) eqn:Ev;
  destruct (indexOf line "unverified" =? -1) eqn:Eu;
  cbn [andb negb];
  first [apply indexOf_Contains in Ev | apply indexOf_not_Contains in Ev];
  try discriminate;
  first [apply indexOf_Contains in Eu | apply indexOf_not_Contains in Eu];
  try discriminate.

(** C3, as the code has it.  Only a line that begins with the login-response
    marker [# logresp] is judged.  Such a line is verified exactly when it
    contains [verified] and not [unverified]; it is a definitive rejection,
    which ends verification with a not-verified result, exactly when it
    contains [unverified]; every other line, the marker missing or neither
    word present, is ignored and polling continues after a [yield()]. *)
Theorem C3_verdict :
  forall (env : Env) (s : St) (line rest : string),
    connected s = true -> no_LF line = true -> rx s = line ++ String LF rest ->
    let s' := set_timeoutStamp 0 (set_rx rest s) in
    let accepted := set_serial (serial s ++ ["Logon verified"]) s' in
    let refused := set_serial (serial s ++ ["Logon unverified"]) s' in
    (verify_body s = Some (Some true, accepted) <-> verified_by line)
    /\ (verify_body s = Some (Some false, refused) <-> rejected_by line)
    /\ (verify_body s = Some (None, s') <-> ~ verified_by line /\ ~ rejected_by line)
    /\ (forall (fuel : nat) (timeout : Z),
           ulong (now s) < timeout ->
           (verified_by line ->
              verify_loop env (S fuel) timeout s = Some (true, accepted))
           /\ (rejected_by line ->
                 verify_loop env (S fuel) timeout s = Some (false, refused))
           /\ (~ verified_by line /\ ~ rejected_by line ->
                 verify_loop env (S fuel) timeout s
                 = verify_loop env fuel timeout (tick env s'))).
Proof.
  intros env s line rest Hc Hl Hrx s' accepted refused.
  assert (B := verify_body_line s line rest Hc Hl Hrx). cbv zeta in B.
  fold s' in B. fold accepted in B. fold refused in B.
  assert (Hun := unverified_verified line).
  unfold verified_by, rejected_by.
  split; [| split; [| split]].
  - rewrite B. verdict_cases line; split; intros H;
      try discriminate; try reflexivity; try solve [intuition discriminate].
  - rewrite B. verdict_cases line; split; intros H;
      try discriminate; try reflexivity; try solve [intuition discriminate].
  - rewrite B. verdict_cases line; split; intros H;
      try discriminate; try reflexivity; try solve [intuition discriminate].
  - intros fuel timeout Ht. rewrite (verify_loop_step env fuel timeout s Ht), B.
    verdict_cases line; repeat split; intros H; try reflexivity;
      solve [intuition discriminate].
Qed.

Lemma C3_verdict_witness :
  connected (feed logresp_ok st_up) = true /\ no_LF logresp_ok = true
  /\ rx (feed logresp_ok st_up) = logresp_ok ++ String LF ""
  /\ verified_by logresp_ok
  /\ option_map fst (verify_loop (quiet_env 1) 1 1 (feed logresp_ok st_up)) = Some true.
Proof.
  pose proof (C3_verdict (quiet_env 1) (feed logresp_ok st_up) logresp_ok ""
                eq_refl eq_refl eq_refl) as [V [_ [_ L]]].
  assert (Hv : verified_by logresp_ok) by (apply (proj1 V); reflexivity).
  split; [reflexivity|]. split; [reflexivity|]. split; [reflexivity|].
  split; [exact Hv|].
  rewrite (proj1 (L 0%nat 1 eq_refl) Hv). reflexivity.
Defined.

(** C3 as stated fails on a line without the marker: it contains [verified]
    and not [unverified], yet it is ignored, and verification of a session
    that receives nothing else ends not verified. *)
Lemma C3_counterexample :
  (Contains "verified" "verified" /\ ~ Contains "unverified" "verified"
   /\ verify_body (feed "verified" st_up1)
      = Some (None, set_timeoutStamp 0 (set_rx "" (feed "verified" st_up1)))
   /\ option_map fst (verifyLogonStatus (quiet_env 400) 10 (feed "verified" st_up1))
      = Some false)
  /\ ~ (forall (s : St) (line rest : string),
          connected s = true -> no_LF line = true -> rx s = line ++ String LF rest ->
          Contains "verified" line -> ~ Contains "unverified" line ->
          exists s' : St, verify_body s = Some (Some true, s')).
Proof.
  assert (V : Contains "verified" "verified")
    by (apply (indexOf_Contains "verified" "verified"); [discriminate | reflexivity]).
  assert (U : ~ Contains "unverified" "verified")
    by (apply (indexOf_not_Contains "verified" "unverified"); [discriminate | reflexivity]).
  split.
  - split; [exact V|]. split; [exact U|]. split; [reflexivity|].
    vm_compute. reflexivity.
  - intros H.
    destruct (H (feed "verified" st_up1) "verified" "" eq_refl eq_refl eq_refl V U)
      as [s' E].
    discriminate E.
Qed.

(** ** Logon verification: termination and what it leaves alone *)


Lemma readAPRSPacket_untouched (s : St) :
  exists r s', readAPRSPacket s = Some (r, s') /\ untouched s s'.
Proof.
  unfold readAPRSPacket. mstep.
  destruct (connected s); cbn [negb].
  - destruct (String.length (rx s) =? 0)%nat; cbn [negb].
    + destruct (timeoutStamp s =? 0).
      * do 2 eexists. split; [reflexivity | repeat split].
      * destruct (ulong (ulong (now s) - timeoutStamp s) >? TIMEOUT_MS);
          do 2 eexists; (split; [reflexivity | repeat split]).
    + destruct (readStringUntil LF (rx s)) as [l r].
      do 2 eexists. split; [reflexivity | repeat split].
  - do 2 eexists. split; [reflexivity | repeat split].
Qed.

Lemma verify_body_untouched (s : St) :
  exists r s', verify_body s = Some (r, s') /\ untouched s s'.
Proof.
  destruct (readAPRSPacket_untouched s) as [[ok response] [s1 [E U]]].
  unfold verify_body. rewrite (bind_Some _ _ _ _ _ E). cbn [fst snd].
  destruct ok; [| do 2 eexists; split; [reflexivity | exact U]].
  destruct (startsWith response "# logresp"); [| do 2 eexists; split; [reflexivity | exact U]].
  destruct (negb (indexOf response "verified" =? -1) && (indexOf response "unverified" =? -1)).
  - do 2 eexists. split; [reflexivity|]. exact U.
  - destruct (negb (indexOf response "unverified" =? -1));
      do 2 eexists; (split; [reflexivity | exact U]).
Qed.

Lemma ulong_small (z : Z) : 0 <= z < 2 ^ 32 -> ulong z = z.
Proof. intros H. unfold ulong. now apply Z.mod_small. Qed.

Lemma verify_loop_exit (env : Env) (fuel : nat) (timeout : Z) (s : St) :
  timeout <= ulong (now s) ->
  verify_loop env (S fuel) timeout s
  = Some (false, set_serial (serial s ++ ["Verification timeout"]) s).
Proof.
  intros H. apply Z.ltb_ge in H. cbn [verify_loop]. unfold bind at 1, millis, gets.
  rewrite H. reflexivity.
Qed.

Lemma readAPRSPacket_ok_connected (s s' : St) (p : string) :
  readAPRSPacket s = Some ((true, p), s') -> connected s' = true.
Proof.
  unfold readAPRSPacket. mstep.
  destruct (connected s) eqn:Hc; cbn [negb]; [| discriminate].
  destruct (rx s) as [|a r0] eqn:Hr; cbn [String.length Nat.eqb negb].
  - destruct (timeoutStamp s =? 0);
      [| destruct (ulong (ulong (now s) - timeoutStamp s) >? TIMEOUT_MS)];
      discriminate.
  - rewrite Hr. destruct (readStringUntil LF (String a r0)) as [l r'].
    intros E. injection E as _ _ <-. exact Hc.
Qed.

Lemma verify_body_verdict_connected (s s' : St) (b : bool) :
  verify_body s = Some (Some b, s') -> connected s' = true.
Proof.
  unfold verify_body, bind at 1.
  destruct (readAPRSPacket s) as [[[ok p] s1]|] eqn:E; [| discriminate].
  cbn [fst snd]. destruct ok; [| discriminate].
  apply readAPRSPacket_ok_connected in E.
  destruct (startsWith p "# logresp"); [| discriminate].
  destruct (negb (indexOf p "verified" =? -1) && (indexOf p "unverified" =? -1)).
  - intros H. injection H as _ <-. exact E.
  - destruct (negb (indexOf p "unverified" =? -1)); [| discriminate].
    intros H. injection H as _ <-. exact E.
Qed.

Lemma elapsed_S (env : Env) (e k : nat) :
  elapsed env e (S k) = delta env e + elapsed env (S e) k.
Proof. reflexivity. Qed.

(** Whatever the clock does, the loop leaves the connection state and the
    lines sent alone, and it returns true only on a connected transport. *)
Lemma verify_loop_frame (env : Env) (fuel : nat) (T : Z) :
  forall (s s' : St) (v : bool),
    verify_loop env fuel T s = Some (v, s') ->
    aprsState s' = aprsState s /\ tx s' = tx s /\ (v = true -> connected s' = true).
Proof.
  induction fuel as [|fuel IH]; intros s s' v E; [discriminate E|].
  destruct (Z_lt_le_dec (ulong (now s)) T) as [Hlt|Hge].
  - rewrite verify_loop_step in E by exact Hlt.
    destruct (verify_body_untouched s) as [r [s1 [E1 U]]]. rewrite E1 in E.
    destruct U as [Ua [Ut _]].
    destruct r as [b|].
    + injection E as <- <-. repeat split; auto. intros _.
      eapply verify_body_verdict_connected; eauto.
    + apply IH in E. stsimpl. destruct E as [A [T' C]].
      repeat split; auto; congruence.
  - rewrite verify_loop_exit in E by exact Hge. injection E as <- <-.
    repeat split; auto. discriminate.
Qed.

Lemma verifyLogonStatus_frame (env : Env) (fuel : nat) (s s' : St) (v : bool) :
  verifyLogonStatus env fuel s = Some (v, s') ->
  aprsState s' = aprsState s /\ tx s' = tx s /\ (v = true -> connected s' = true).
Proof.
  unfold verifyLogonStatus, bind at 1, millis, gets. apply verify_loop_frame.
Qed.

Section Progress.

Variable env : Env.
Variable D : Z.
Hypothesis delta_bounds : forall n : nat, 0 <= delta env n <= D.

Lemma elapsed_bounds (e k : nat) : 0 <= elapsed env e k <= Z.of_nat k * D.
Proof.
  revert e. induction k as [|k IH]; intros e; [cbn; lia|].
  rewrite elapsed_S, Nat2Z.inj_succ.
  pose proof (delta_bounds e). pose proof (IH (S e)). lia.
Qed.

(** With a clock that does not run backwards, reaches the deadline within
    [k] turns and cannot jump over the end of the [unsigned long] range, the
    loop ends within [k] turns. *)
Lemma verify_loop_returns (T : Z) :
  T + D <= 2 ^ 32 ->
  forall (k fuel : nat) (s : St),
    0 <= now s -> now s < T + D ->
    T <= now s + elapsed env (epoch s) k -> (k < fuel)%nat ->
    exists v s', verify_loop env fuel T s = Some (v, s').
Proof.
  intros HT. induction k as [|k IH]; intros fuel s H0 H1 Hk Hf;
    (destruct fuel as [|fuel]; [lia|]).
  - cbn [elapsed] in Hk. rewrite verify_loop_exit by (rewrite ulong_small; lia).
    eauto.
  - assert (Hu : ulong (now s) = now s) by (apply ulong_small; lia).
    destruct (Z_lt_le_dec (now s) T) as [Hlt|Hge].
    + rewrite verify_loop_step by lia.
      destruct (verify_body_untouched s) as [r [s1 [E U]]]. rewrite E.
      destruct U as [_ [_ [Un [Ue _]]]].
      destruct r as [b|]; [eauto|].
      pose proof (delta_bounds (epoch s)) as Hd.
      rewrite elapsed_S in Hk.
      apply IH; stsimpl; rewrite ?Un, ?Ue; lia.
    + rewrite verify_loop_exit by lia. eauto.
Qed.

Lemma verifyLogonStatus_returns (k fuel : nat) (s : St) :
  0 <= now s -> now s + APRS_TIMEOUT + D <= 2 ^ 32 ->
  APRS_TIMEOUT <= elapsed env (epoch s) k -> (k < fuel)%nat ->
  exists v s', verifyLogonStatus env fuel s = Some (v, s').
Proof.
  unfold APRS_TIMEOUT. intros H0 H1 Hk Hf.
  pose proof (elapsed_bounds (epoch s) k) as Hb.
  assert (HD : 0 < D) by nia.
  unfold verifyLogonStatus, bind at 1, millis, gets.
  rewrite (ulong_small (now s)) by lia.
  unfold APRS_TIMEOUT. rewrite (ulong_small (now s + 2000)) by lia.
  apply (verify_loop_returns (now s + 2000)) with (k := k); lia.
Qed.

End Progress.

(** ** Connection state machine *)

Lemma connectToAPRS_refused (env : Env) (s : St) :
  connected s = false -> server_up env (epoch s) = false ->
  connectToAPRS env s
  = Some (false, set_serial (serial s ++ ["APRS connection failed."]) s).
Proof.
  intros Hc Hs. unfold connectToAPRS. mstep. rewrite Hc, Hs. reflexivity.
Qed.

(** What a poll in state LoggedIn does with the outcome of the check. *)
Lemma updateAPRS_logged_in (env : Env) (fuel : nat) (s s1 : St) (v : bool) :
  aprsState s = APRS_LOGGED_IN ->
  verifyLogonStatus env fuel s = Some (v, s1) ->
  updateAPRS env fuel s
  = Some (tt, if v then set_aprsState APRS_VERIFIED s1 else s1).
Proof.
  intros Hs E. unfold updateAPRS, bind at 1, gets. rewrite Hs.
  rewrite (bind_Some _ _ _ _ _ E). destruct v; reflexivity.
Qed.

(** C1, as the code has it.  A poll in state Disconnected whose connect
    attempt fails leaves the state Disconnected and the transport down.  A
    poll in state LoggedIn runs the verification check; whenever the check
    returns not passed, by timeout or by rejection, the state stays LoggedIn:
    it moves neither to Verified nor to Disconnected.  It becomes Verified
    exactly when the check is passed.  This holds whatever the clock does.
    The last part says when the check is sure to return: the clock does not
    run backwards, no [yield()] lasts longer than [D], the yields add up to
    the window after [k] turns, and [millis()] cannot wrap within the
    window. *)
Theorem C1_state_machine :
  forall (env : Env) (D : Z) (fuel k : nat) (s : St),
    (aprsState s = APRS_DISCONNECTED ->
       connected s = false -> server_up env (epoch s) = false ->
       exists s', updateAPRS env fuel s = Some (tt, s')
                  /\ aprsState s' = APRS_DISCONNECTED /\ connected s' = false)
    /\ (aprsState s = APRS_LOGGED_IN ->
          forall (v : bool) (s1 : St),
            verifyLogonStatus env fuel s = Some (v, s1) ->
            exists s', updateAPRS env fuel s = Some (tt, s')
                       /\ aprsState s' = (if v then APRS_VERIFIED else APRS_LOGGED_IN))
    /\ (aprsState s = APRS_LOGGED_IN ->
          (forall n : nat, 0 <= delta env n <= D) ->
          0 <= now s -> now s + APRS_TIMEOUT + D <= 2 ^ 32 ->
          APRS_TIMEOUT <= elapsed env (epoch s) k -> (k < fuel)%nat ->
          exists (v : bool) (s1 : St), verifyLogonStatus env fuel s = Some (v, s1)).
Proof.
  intros env D fuel k s. split; [| split].
  - intros Hs Hc Hup. unfold updateAPRS, bind at 1, gets. rewrite Hs.
    rewrite (bind_Some _ _ _ _ _ (connectToAPRS_refused env s Hc Hup)).
    eexists. split; [reflexivity|]. split; [exact Hs | exact Hc].
  - intros Hs v s1 E.
    rewrite (updateAPRS_logged_in env fuel s s1 v Hs E).
    destruct (verifyLogonStatus_frame env fuel s s1 v E) as [A _].
    eexists. split; [reflexivity|].
    destruct v; [reflexivity | congruence].
  - intros _ Hd H0 H1 Hk Hf.
    exact (verifyLogonStatus_returns env D Hd k fuel s H0 H1 Hk Hf).
Qed.

Lemma C1_state_machine_witness :
  (aprsState boot = APRS_DISCONNECTED /\ connected boot = false
   /\ server_up (down_env 400) (epoch boot) = false
   /\ exists s', updateAPRS (down_env 400) 10 boot = Some (tt, s')
                 /\ aprsState s' = APRS_DISCONNECTED /\ connected s' = false)
  /\ (aprsState st_logged_in = APRS_LOGGED_IN
      /\ (forall n : nat, 0 <= delta (quiet_env 400) n <= 400)
      /\ 0 <= now st_logged_in
      /\ now st_logged_in + APRS_TIMEOUT + 400 <= 2 ^ 32
      /\ APRS_TIMEOUT <= elapsed (quiet_env 400) (epoch st_logged_in) 5
      /\ (5 < 10)%nat
      /\ exists (v : bool) (s1 s' : St),
           verifyLogonStatus (quiet_env 400) 10 st_logged_in = Some (v, s1)
           /\ updateAPRS (quiet_env 400) 10 st_logged_in = Some (tt, s')
           /\ aprsState s' = (if v then APRS_VERIFIED else APRS_LOGGED_IN)).
Proof.
  assert (Hd : forall n : nat, 0 <= delta (quiet_env 400) n <= 400) by (intros n; simpl; lia).
  assert (H0 : 0 <= now st_logged_in) by (simpl; lia).
  assert (H1 : now st_logged_in + APRS_TIMEOUT + 400 <= 2 ^ 32)
    by (simpl; unfold APRS_TIMEOUT; lia).
  assert (Hk : APRS_TIMEOUT <= elapsed (quiet_env 400) (epoch st_logged_in) 5)
    by (vm_compute; discriminate).
  assert (Hf : (5 < 10)%nat) by lia.
  split.
  - split; [reflexivity|]. split; [reflexivity|]. split; [reflexivity|].
    exact (proj1 (C1_state_machine (down_env 400) 400 10 5 boot) eq_refl eq_refl eq_refl).
  - split; [reflexivity|]. split; [exact Hd|]. split; [exact H0|].
    split; [exact H1|]. split; [exact Hk|]. split; [exact Hf|].
    destruct (proj2 (proj2 (C1_state_machine (quiet_env 400) 400 10 5 st_logged_in))
                eq_refl Hd H0 H1 Hk Hf) as [v [s1 E]].
    destruct (proj1 (proj2 (C1_state_machine (quiet_env 400) 400 10 5 st_logged_in))
                eq_refl v s1 E) as [s' [E' A]].
    exists v, s1, s'. split; [exact E|]. split; [exact E' | exact A].
Defined.

(** C1 as stated fails from LoggedIn: on a silent server the verification
    check times out, and the poll leaves the state LoggedIn, not
    Disconnected; a rejection does the same. *)
Lemma C1_counterexample :
  (aprsState st_logged_in = APRS_LOGGED_IN
   /\ option_map (fun x => (fst x, last (serial (snd x)) ""))
        (verifyLogonStatus (quiet_env 400) 10 st_logged_in)
      = Some (false, "Verification timeout")
   /\ option_map (fun x => aprsState (snd x)) (updateAPRS (quiet_env 400) 10 st_logged_in)
      = Some APRS_LOGGED_IN
   /\ option_map (fun x => (fst x, last (serial (snd x)) ""))
        (verifyLogonStatus (quiet_env 400) 10 (feed logresp_bad st_logged_in))
      = Some (false, "Logon unverified")
   /\ option_map (fun x => aprsState (snd x))
        (updateAPRS (quiet_env 400) 10 (feed logresp_bad st_logged_in))
      = Some APRS_LOGGED_IN)
  /\ ~ (forall (env : Env) (fuel : nat) (s s1 s' : St),
          aprsState s = APRS_LOGGED_IN ->
          verifyLogonStatus env fuel s = Some (false, s1) ->
          updateAPRS env fuel s = Some (tt, s') ->
          aprsState s' = APRS_DISCONNECTED).
Proof.
  split.
  - repeat split; vm_compute; reflexivity.
  - intros H.
    destruct (verifyLogonStatus (quiet_env 400) 10 st_logged_in) as [[v s1]|] eqn:E1;
      [| vm_compute in E1; discriminate E1].
    destruct (updateAPRS (quiet_env 400) 10 st_logged_in) as [[u s']|] eqn:E2;
      [| vm_compute in E2; discriminate E2].
    destruct u.
    assert (Hv : v = false) by (vm_compute in E1; injection E1 as <- _; reflexivity).
    subst v.
    specialize (H (quiet_env 400) 10%nat st_logged_in s1 s' eq_refl E1 E2).
    vm_compute in E2. injection E2 as <-. discriminate H.
Qed.

(** ** A silent session during verification *)

Lemma verify_body_not_ok (s s1 : St) (p : string) :
  readAPRSPacket s = Some ((false, p), s1) -> verify_body s = Some (None, s1).
Proof. intros E. unfold verify_body. now rewrite (bind_Some _ _ _ _ _ E). Qed.

Lemma reader_idle_arm (s : St) :
  connected s = true -> rx s = "" -> timeoutStamp s = 0 -> 0 <= now s < 2 ^ 32 ->
  readAPRSPacket s = Some ((false, ""), set_timeoutStamp (now s) s).
Proof.
  intros Hc Hr Ht Hn. unfold readAPRSPacket. mstep.
  rewrite Hc. cbn [negb]. rewrite Hr. cbn [negb String.length Nat.eqb].
  rewrite Ht. cbn [Z.eqb]. rewrite (ulong_small _ Hn). reflexivity.
Qed.

Lemma reader_idle_wait (s : St) :
  connected s = true -> rx s = "" -> 0 < timeoutStamp s <= now s ->
  now s - timeoutStamp s <= TIMEOUT_MS -> now s < 2 ^ 32 ->
  readAPRSPacket s = Some ((false, ""), s).
Proof.
  intros Hc Hr Ht Hw Hn. unfold readAPRSPacket. mstep.
  rewrite Hc. cbn [negb]. rewrite Hr. cbn [negb String.length Nat.eqb].
  replace (timeoutStamp s =? 0) with false by (symmetry; apply Z.eqb_neq; lia).
  rewrite (ulong_small (now s)) by lia.
  rewrite (ulong_small (now s - timeoutStamp s)) by lia.
  replace (now s - timeoutStamp s >? TIMEOUT_MS) with false
    by (symmetry; rewrite Z.gtb_ltb; apply Z.ltb_ge; lia).
  reflexivity.
Qed.

Lemma reader_idle_close (s : St) :
  connected s = true -> rx s = "" -> 0 < timeoutStamp s <= now s ->
  TIMEOUT_MS < now s - timeoutStamp s -> now s < 2 ^ 32 ->
  readAPRSPacket s
  = Some ((false, ""),
          set_stops (stops s ++ [now s])
            (set_rx "" (set_connected false (set_timeoutStamp 0 s)))).
Proof.
  intros Hc Hr Ht Hw Hn. unfold readAPRSPacket. mstep.
  rewrite Hc. cbn [negb]. rewrite Hr. cbn [negb String.length Nat.eqb].
  replace (timeoutStamp s =? 0) with false by (symmetry; apply Z.eqb_neq; lia).
  rewrite (ulong_small (now s)) by lia.
  rewrite (ulong_small (now s - timeoutStamp s)) by lia.
  replace (now s - timeoutStamp s >? TIMEOUT_MS) with true
    by (symmetry; rewrite Z.gtb_ltb; apply Z.ltb_lt; lia).
  reflexivity.
Qed.

Section QuietLine.

Variable env : Env.
Hypothesis quiet : forall n : nat, arrive env n = "".
Hypothesis cadence : forall n : nat, 0 <= delta env n < 500.

(** Once the transport is down, the loop spins until the timeout. *)
Lemma verify_loop_down (T : Z) :
  T + 500 <= 2 ^ 32 ->
  forall (k fuel : nat) (s : St),
    connected s = false -> 0 <= now s -> now s < T + 500 ->
    T <= now s + elapsed env (epoch s) k -> (k < fuel)%nat ->
    exists s', verify_loop env fuel T s = Some (false, s')
               /\ connected s' = false /\ stops s' = stops s
               /\ last (serial s') "" = "Verification timeout".
Proof.
  intros HT. induction k as [|k IH]; intros fuel s Hc H0 H1 Hk Hf;
    (destruct fuel as [|fuel]; [lia|]);
    assert (Hu : ulong (now s) = now s) by (apply ulong_small; lia).
  - cbn [elapsed] in Hk. rewrite verify_loop_exit by lia.
    eexists. split; [reflexivity|].
    split; [exact Hc|]. split; [reflexivity|]. stsimpl. apply last_last.
  - destruct (Z_lt_le_dec (now s) T) as [Hlt|Hge].
    + rewrite verify_loop_step by lia.
      rewrite (verify_body_not_ok s s "" (readAPRSPacket_disconnected s Hc)).
      pose proof (cadence (epoch s)) as Hd. rewrite elapsed_S in Hk.
      destruct (IH fuel (tick env s)) as [s' [E [C [S' L]]]];
        try (stsimpl; lia); [exact Hc|].
      exists s'. auto.
    + rewrite verify_loop_exit by lia. eexists. split; [reflexivity|].
      split; [exact Hc|]. split; [reflexivity|]. stsimpl. apply last_last.
Qed.

(** While the idle timer runs on a silent, connected transport, the reader
    closes it at the first turn later than [TIMEOUT_MS] after the stamp. *)
Lemma verify_loop_armed (T : Z) :
  T + 500 <= 2 ^ 32 ->
  forall (k fuel : nat) (s : St),
    connected s = true -> rx s = "" ->
    0 < timeoutStamp s <= now s -> now s < T -> timeoutStamp s + 1999 < T ->
    T <= now s + elapsed env (epoch s) k -> (k < fuel)%nat ->
    exists s' t, verify_loop env fuel T s = Some (false, s')
                 /\ connected s' = false /\ stops s' = (stops s ++ [t])%list
                 /\ t < T /\ TIMEOUT_MS < t - timeoutStamp s
                 /\ last (serial s') "" = "Verification timeout".
Proof.
  intros HT. induction k as [|k IH]; intros fuel s Hc Hr Hs Hn Hq Hk Hf;
    [cbn [elapsed] in Hk; lia|].
  destruct fuel as [|fuel]; [lia|].
  rewrite verify_loop_step by (rewrite ulong_small; lia).
  pose proof (cadence (epoch s)) as Hd. rewrite elapsed_S in Hk.
  destruct (Z_lt_le_dec TIMEOUT_MS (now s - timeoutStamp s)) as [Hlate|Hearly].
  - rewrite (verify_body_not_ok _ _ _ (reader_idle_close s Hc Hr Hs Hlate ltac:(lia))).
    match goal with |- context [verify_loop env fuel T ?x] => set (s1 := x) end.
    destruct (verify_loop_down T HT k fuel s1) as [s' [E [C [S' L]]]];
      try (subst s1; stsimpl; lia).
    exists s', (now s). split; [exact E|]. split; [exact C|].
    split; [rewrite S'; reflexivity|]. split; [lia|]. split; [lia | exact L].
  - rewrite (verify_body_not_ok _ _ _ (reader_idle_wait s Hc Hr Hs Hearly ltac:(lia))).
    unfold TIMEOUT_MS in *.
    destruct (IH fuel (tick env s)) as [s' [t [E [C [S' [Lt [Gt L]]]]]]];
      try (stsimpl; lia).
    + exact Hc.
    + stsimpl. rewrite Hc, Hr, quiet. reflexivity.
    + exists s', t. stsimpl. auto 10.
Qed.

End QuietLine.

(** C10, as the code has it.  Verification starts on a connected transport
    with nothing to read and nothing arrives.  The clock does not read zero
    at the start (the stamp 0 means that the idle timer is off), the idle
    timer is off or was started in the past, the clock does not run
    backwards, every [yield()] lasts less than half a second, the yields add
    up to the window after [k] turns, and [millis()] cannot wrap within the
    window.  Then the reader's idle timer, not the verification timeout, ends
    the session: the nested [readAPRSPacket] calls [client.stop()] once, at
    an instant [t] more than [TIMEOUT_MS] after the idle timer was started
    and still before the verification deadline; the loop then spins on the
    closed transport until the deadline and [verifyLogonStatus] returns
    false. *)
Theorem C10_idle_timeout_closes_first :
  forall (env : Env) (fuel k : nat) (s : St),
    (forall n : nat, arrive env n = "") ->
    (forall n : nat, 0 <= delta env n < 500) ->
    connected s = true -> rx s = "" ->
    0 < now s -> now s + APRS_TIMEOUT + 500 <= 2 ^ 32 ->
    timeoutStamp s = 0 \/ 0 < timeoutStamp s <= now s ->
    APRS_TIMEOUT <= elapsed env (epoch s) k -> (k < fuel)%nat ->
    exists (s' : St) (t : Z),
      verifyLogonStatus env fuel s = Some (false, s')
      /\ connected s' = false
      /\ stops s' = (stops s ++ [t])%list
      /\ t < now s + APRS_TIMEOUT
      /\ TIMEOUT_MS < t - (if timeoutStamp s =? 0 then now s else timeoutStamp s)
      /\ last (serial s') "" = "Verification timeout".
Proof.
  intros env fuel k s quiet cadence Hc Hr H0 H1 Hst Hk Hf.
  unfold APRS_TIMEOUT in *.
  unfold verifyLogonStatus, bind at 1, millis, gets.
  rewrite (ulong_small (now s)) by lia.
  unfold APRS_TIMEOUT. rewrite (ulong_small (now s + 2000)) by lia.
  set (T := now s + 2000).
  assert (HT : T + 500 <= 2 ^ 32) by (subst T; lia).
  destruct Hst as [Hz | Hpos].
  - destruct k as [|k]; [cbn [elapsed] in Hk; lia|].
    destruct fuel as [|fuel]; [lia|].
    rewrite verify_loop_step by (rewrite ulong_small; subst T; lia).
    rewrite (verify_body_not_ok _ _ _ (reader_idle_arm s Hc Hr Hz ltac:(lia))).
    pose proof (cadence (epoch s)) as Hd. rewrite elapsed_S in Hk.
    match goal with |- context [verify_loop env fuel T ?x] => set (s1 := x) end.
    destruct (verify_loop_armed env quiet cadence T HT k fuel s1)
      as [s' [t [E [C [S' [Lt [Gt L]]]]]]];
      try (subst s1 T; stsimpl; lia).
    + exact Hc.
    + subst s1. stsimpl. rewrite Hc, Hr, quiet. reflexivity.
    + exists s', t. subst s1. stsimpl. rewrite Hz. cbn [Z.eqb].
      split; [exact E|]. split; [exact C|]. split; [exact S'|].
      split; [exact Lt|]. split; [exact Gt | exact L].
  - destruct (verify_loop_armed env quiet cadence T HT k fuel s)
      as [s' [t [E [C [S' [Lt [Gt L]]]]]]]; try assumption; try (subst T; lia).
    exists s', t.
    replace (timeoutStamp s =? 0) with false by (symmetry; apply Z.eqb_neq; lia).
    split; [exact E|]. split; [exact C|]. split; [exact S'|].
    split; [exact Lt|]. split; [exact Gt | exact L].
Qed.

Lemma C10_idle_timeout_closes_first_witness :
  (forall n : nat, arrive (quiet_env 400) n = "")
  /\ (forall n : nat, 0 <= delta (quiet_env 400) n < 500)
  /\ connected st_up1 = true /\ rx st_up1 = ""
  /\ 0 < now st_up1 /\ now st_up1 + APRS_TIMEOUT + 500 <= 2 ^ 32
  /\ (timeoutStamp st_up1 = 0 \/ 0 < timeoutStamp st_up1 <= now st_up1)
  /\ APRS_TIMEOUT <= elapsed (quiet_env 400) (epoch st_up1) 5
  /\ (5 < 10)%nat
  /\ exists (s' : St) (t : Z),
       verifyLogonStatus (quiet_env 400) 10 st_up1 = Some (false, s')
       /\ connected s' = false
       /\ stops s' = (stops st_up1 ++ [t])%list
       /\ t < now st_up1 + APRS_TIMEOUT
       /\ TIMEOUT_MS < t - (if timeoutStamp st_up1 =? 0 then now st_up1 else timeoutStamp st_up1)
       /\ last (serial s') "" = "Verification timeout".
Proof.
  assert (Hq : forall n : nat, arrive (quiet_env 400) n = "") by reflexivity.
  assert (Hd : forall n : nat, 0 <= delta (quiet_env 400) n < 500) by (intros n; simpl; lia).
  assert (H0 : 0 < now st_up1) by (simpl; lia).
  assert (H1 : now st_up1 + APRS_TIMEOUT + 500 <= 2 ^ 32) by (unfold APRS_TIMEOUT; simpl; lia).
  assert (Hs : timeoutStamp st_up1 = 0 \/ 0 < timeoutStamp st_up1 <= now st_up1)
    by (left; reflexivity).
  assert (Hk : APRS_TIMEOUT <= elapsed (quiet_env 400) (epoch st_up1) 5)
    by (vm_compute; discriminate).
  assert (Hf : (5 < 10)%nat) by lia.
  repeat (split; [first [assumption | reflexivity]|]).
  exact (C10_idle_timeout_closes_first (quiet_env 400) 10 5 st_up1
           Hq Hd eq_refl eq_refl H0 H1 Hs Hk Hf).
Defined.

(** C10 as stated fails in two ways.  When [millis()] reads 0 at the first
    turn the reader stores the stamp 0, which means that the timer is off;
    the timer is started one turn later and, with turns of 400 ms, has run
    for 1200 ms when the verification deadline ends the loop.  And when a
    turn takes a second, the reader is not called between 1000 ms and the
    deadline.  In both runs nothing arrives for the whole window, the
    transport is never closed, and [verifyLogonStatus] returns false through
    its own timeout. *)
Lemma C10_counterexample :
  (connected st_up = true /\ rx st_up = ""
   /\ option_map
        (fun x => (fst x, connected (snd x), stops (snd x), now (snd x),
                   last (serial (snd x)) ""))
        (verifyLogonStatus (quiet_env 400) 10 st_up)
      = Some (false, true, [], 2000, "Verification timeout"))
  /\ (connected st_up1 = true /\ rx st_up1 = ""
      /\ option_map
           (fun x => (fst x, connected (snd x), stops (snd x), now (snd x),
                      last (serial (snd x)) ""))
           (verifyLogonStatus (quiet_env 1000) 10 st_up1)
         = Some (false, true, [], 2001, "Verification timeout"))
  /\ ~ (forall (env : Env) (fuel : nat) (s s' : St) (v : bool),
          (forall n : nat, arrive env n = "") ->
          connected s = true -> rx s = "" ->
          verifyLogonStatus env fuel s = Some (v, s') ->
          connected s' = false).
Proof.
  split; [| split].
  - repeat split; vm_compute; reflexivity.
  - repeat split; vm_compute; reflexivity.
  - intros H.
    destruct (verifyLogonStatus (quiet_env 400) 10 st_up) as [[v s']|] eqn:E;
      [| vm_compute in E; discriminate E].
    pose proof (H (quiet_env 400) 10%nat st_up s' v (fun _ => eq_refl) eq_refl eq_refl E)
      as C.
    vm_compute in E. injection E as _ <-. discriminate C.
Qed.

(** The same session, run: the transport is closed at 1601 ms on the clock,
    the loop gives up at 2001 ms. *)
Example quiet_session_run :
  option_map (fun x => (fst x, connected (snd x), stops (snd x), now (snd x)))
    (verifyLogonStatus (quiet_env 400) 10 st_up1)
  = Some (false, false, [1601], 2001).
Proof. vm_compute. reflexivity. Qed.

(** ** Bulletin scheduler *)

Lemma processBulletins_blocks (env : Env) (cred : Credentials) (s : St) :
  processBulletins env cred s
  = (morning_check env cred ;; evening_check env cred ;; reset_check) s.
Proof.
  unfold processBulletins, morning_check, evening_check, reset_check.
  cbv [bind gets]. reflexivity.
Qed.

(** A bulletin request, sent or not, leaves the scheduler alone. *)
Lemma APRSsendBulletin_schedule (cred : Credentials) (message ID : string) (s : St) :
  exists s',
    APRSsendBulletin cred message ID s = Some (tt, s')
    /\ requests s' = (requests s ++ [ID])%list
    /\ amBulletinSent s' = amBulletinSent s /\ pmBulletinSent s' = pmBulletinSent s
    /\ lastDay s' = lastDay s
    /\ hour s' = hour s /\ minute s' = minute s /\ day s' = day s.
Proof.
  destruct (Nat.ltb_spec 67 (String.length message)) as [L|L].
  - rewrite APRSsendBulletin_too_long by assumption. eexists. repeat split.
  - destruct (connected s) eqn:C.
    + rewrite APRSsendBulletin_posted by assumption. eexists. repeat split.
    + rewrite APRSsendBulletin_lost by assumption. eexists. repeat split.
Qed.

Lemma morning_check_effect (env : Env) (cred : Credentials) (s : St) :
  exists s',
    morning_check env cred s = Some (tt, s')
    /\ requests s' = (requests s ++ (if morning_due s then ["M"] else []))%list
    /\ amBulletinSent s' = amBulletinSent s || morning_due s
    /\ pmBulletinSent s' = pmBulletinSent s
    /\ lastDay s' = lastDay s
    /\ hour s' = hour s /\ minute s' = minute s /\ day s' = day s.
Proof.
  unfold morning_check. cbv [bind gets]. fold (morning_due s).
  destruct (morning_due s) eqn:E.
  - unfold pick.
    destruct (APRSsendBulletin_schedule cred (pickAphorism env (picks s)) "M"
                (set_picks (S (picks s)) s)) as [s1 [E1 [R [A [P [L [H [Mi Dy]]]]]]]].
    rewrite E1. unfold modify. eexists. split; [reflexivity|]. stsimpl.
    rewrite orb_true_r. auto 10.
  - exists s. rewrite app_nil_r, orb_false_r. unfold ret. auto 10.
Qed.

Lemma evening_check_effect (env : Env) (cred : Credentials) (s : St) :
  exists s',
    evening_check env cred s = Some (tt, s')
    /\ requests s' = (requests s ++ (if evening_due s then ["E"] else []))%list
    /\ amBulletinSent s' = amBulletinSent s
    /\ pmBulletinSent s' = pmBulletinSent s || evening_due s
    /\ lastDay s' = lastDay s
    /\ hour s' = hour s /\ minute s' = minute s /\ day s' = day s.
Proof.
  unfold evening_check. cbv [bind gets]. fold (evening_due s).
  destruct (evening_due s) eqn:E.
  - unfold pick.
    destruct (APRSsendBulletin_schedule cred (pickAphorism env (picks s)) "E"
                (set_picks (S (picks s)) s)) as [s1 [E1 [R [A [P [L [H [Mi Dy]]]]]]]].
    rewrite E1. unfold modify. eexists. split; [reflexivity|]. stsimpl.
    rewrite orb_true_r. auto 10.
  - exists s. rewrite app_nil_r, orb_false_r. unfold ret. auto 10.
Qed.

(** One poll: which bulletins are requested, and the flags afterwards. *)
Lemma processBulletins_effect (env : Env) (cred : Credentials) (s : St) :
  exists s',
    processBulletins env cred s = Some (tt, s')
    /\ requests s' = (requests s ++ (if morning_due s then ["M"] else [])
                                 ++ (if evening_due s then ["E"] else []))%list
    /\ amBulletinSent s'
       = (if day s =? lastDay s then amBulletinSent s || morning_due s else false)
    /\ pmBulletinSent s'
       = (if day s =? lastDay s then pmBulletinSent s || evening_due s else false)
    /\ lastDay s' = day s
    /\ hour s' = hour s /\ minute s' = minute s /\ day s' = day s.
Proof.
  rewrite processBulletins_blocks.
  destruct (morning_check_effect env cred s) as [s1 [E1 [R1 [A1 [P1 [L1 [H1 [M1 D1]]]]]]]].
  destruct (evening_check_effect env cred s1) as [s2 [E2 [R2 [A2 [P2 [L2 [H2 [M2 D2]]]]]]]].
  rewrite (bind_Some _ _ _ _ _ E1), (bind_Some _ _ _ _ _ E2).
  assert (Ev : evening_due s1 = evening_due s)
    by (unfold evening_due; congruence).
  unfold reset_check. cbv [bind gets modify ret].
  replace (day s2) with (day s) by congruence.
  replace (lastDay s2) with (lastDay s) by congruence.
  destruct (day s =? lastDay s) eqn:Ed; cbn [negb].
  - exists s2. split; [reflexivity|]. apply Z.eqb_eq in Ed.
    rewrite R2, R1, Ev, <- app_assoc. repeat split; congruence.
  - eexists. split; [reflexivity|]. stsimpl.
    rewrite R2, R1, Ev, <- app_assoc. repeat split; congruence.
Qed.

Lemma poll_at_effect (env : Env) (cred : Credentials) (h m d : Z) (s : St) :
  let s0 := set_localtime h m d s in
  exists s',
    poll_at env cred (h, m, d) s = Some (tt, s')
    /\ requests s' = (requests s ++ (if morning_due s0 then ["M"] else [])
                                 ++ (if evening_due s0 then ["E"] else []))%list
    /\ amBulletinSent s'
       = (if d =? lastDay s then amBulletinSent s || morning_due s0 else false)
    /\ pmBulletinSent s'
       = (if d =? lastDay s then pmBulletinSent s || evening_due s0 else false)
    /\ lastDay s' = d.
Proof.
  intros s0. unfold poll_at. cbv [bind modify]. fold s0.
  destruct (processBulletins_effect env cred s0) as [s' [E [R [A [P [L _]]]]]].
  exists s'. auto.
Qed.

Lemma fired_app (ID : string) (s s' : St) (l : list string) :
  requests s' = (requests s ++ l)%list ->
  fired ID s' = (fired ID s + count_occ string_dec l ID)%nat.
Proof. intros H. unfold fired. now rewrite H, count_occ_app. Qed.

(** A poll that sees the day of the last reset keeps both budgets. *)
Lemma poll_same_day (env : Env) (cred : Credentials) (p : LocalTime) (s : St) :
  day_of p = lastDay s ->
  exists s',
    poll_at env cred p s = Some (tt, s')
    /\ budget_M s' = budget_M s /\ budget_E s' = budget_E s
    /\ lastDay s' = lastDay s.
Proof.
  destruct p as [[h m] d]. cbn [day_of]. intros Hd.
  destruct (poll_at_effect env cred h m d s) as [s' [E [R [A [P L]]]]].
  exists s'. split; [exact E|].
  apply Z.eqb_eq in Hd as Hd'. rewrite Hd' in A, P.
  unfold budget_M, budget_E.
  rewrite (fired_app "M" s s' _ R), (fired_app "E" s s' _ R), A, P, !count_occ_app.
  unfold morning_due, evening_due. stsimpl.
  split; [| split; [| congruence]].
  - destruct (amBulletinSent s);
      destruct ((h =? 8) && (m =? 0)); destruct ((h =? 20) && (m =? 0));
      destruct (pmBulletinSent s); cbn; lia.
  - destruct (amBulletinSent s);
      destruct ((h =? 8) && (m =? 0)); destruct ((h =? 20) && (m =? 0));
      destruct (pmBulletinSent s); cbn; lia.
Qed.


Lemma poll_same_day_flags (env : Env) (cred : Credentials) (p : LocalTime) (s : St) :
  day_of p = lastDay s ->
  exists s',
    poll_at env cred p s = Some (tt, s')
    /\ amBulletinSent s' = amBulletinSent s || at_8 p
    /\ pmBulletinSent s' = pmBulletinSent s || at_20 p
    /\ budget_M s' = budget_M s /\ budget_E s' = budget_E s
    /\ lastDay s' = lastDay s.
Proof.
  intros Hd. destruct (poll_same_day env cred p s Hd) as [s' [E [BM [BE L]]]].
  exists s'. split; [exact E|].
  destruct p as [[h m] d]. cbn [day_of at_8 at_20] in *.
  destruct (poll_at_effect env cred h m d s) as [s2 [E2 [_ [A [P _]]]]].
  rewrite E in E2. injection E2 as <-.
  apply Z.eqb_eq in Hd. rewrite Hd in A, P.
  unfold morning_due, evening_due in A, P. stsimpl.
  repeat split; auto.
  - rewrite A. destruct (amBulletinSent s); destruct ((h =? 8) && (m =? 0)); reflexivity.
  - rewrite P. destruct (pmBulletinSent s); destruct ((h =? 20) && (m =? 0)); reflexivity.
Qed.

Lemma run_same_day_flags (env : Env) (cred : Credentials) (ps : list LocalTime) :
  forall s : St,
    Forall (fun p => day_of p = lastDay s) ps ->
    exists s',
      run_polls env cred ps s = Some (tt, s')
      /\ amBulletinSent s' = amBulletinSent s || existsb at_8 ps
      /\ pmBulletinSent s' = pmBulletinSent s || existsb at_20 ps
      /\ budget_M s' = budget_M s /\ budget_E s' = budget_E s
      /\ lastDay s' = lastDay s.
Proof.
  induction ps as [|p ps IH]; intros s H.
  - exists s. cbn [existsb]. rewrite !orb_false_r. repeat split.
  - inversion H as [|? ? Hp Hps]; subst.
    destruct (poll_same_day_flags env cred p s Hp) as [s1 [E1 [A1 [P1 [M1 [B1 L1]]]]]].
    destruct (IH s1) as [s' [E [A [P [M' [B' L]]]]]].
    + rewrite L1. exact Hps.
    + exists s'. cbn [run_polls existsb]. rewrite (bind_Some _ _ _ _ _ E1).
      split; [exact E|]. rewrite A, P, A1, P1, !orb_assoc.
      repeat split; congruence.
Qed.

Lemma fired_from_budget (s s' : St) :
  budget_M s' = budget_M s -> budget_E s' = budget_E s ->
  fired "M" s'
  = (fired "M" s + (if negb (amBulletinSent s) && amBulletinSent s' then 1 else 0)
     - (if amBulletinSent s && negb (amBulletinSent s') then 1 else 0))%nat
  /\ fired "E" s'
     = (fired "E" s + (if negb (pmBulletinSent s) && pmBulletinSent s' then 1 else 0)
        - (if pmBulletinSent s && negb (pmBulletinSent s') then 1 else 0))%nat.
Proof.
  unfold budget_M, budget_E.
  destruct (amBulletinSent s); destruct (amBulletinSent s');
    destruct (pmBulletinSent s); destruct (pmBulletinSent s'); cbn; lia.
Qed.

(** The polls of one day, counted.  Only the first poll can observe a new
    day; whatever it requests itself comes on top of what the rest of the day
    requests with the flags it has cleared. *)
Lemma run_day_counts (env : Env) (cred : Credentials) (d : Z) (ps : list LocalTime) (s : St) :
  Forall (fun p => day_of p = d) ps ->
  exists s',
    run_polls env cred ps s = Some (tt, s')
    /\ fired "M" s'
       = (fired "M" s
          + (if first_fires_M s ps then 1 else 0)
          + (if (if (d =? lastDay s)%Z
                 then negb (amBulletinSent s) && existsb at_8 ps
                 else existsb at_8 (tl ps))
             then 1 else 0))%nat
    /\ fired "E" s'
       = (fired "E" s
          + (if first_fires_E s ps then 1 else 0)
          + (if (if (d =? lastDay s)%Z
                 then negb (pmBulletinSent s) && existsb at_20 ps
                 else existsb at_20 (tl ps))
             then 1 else 0))%nat.
Proof.
  intros Hday. destruct (d =? lastDay s) eqn:Hd.
  - apply Z.eqb_eq in Hd.
    destruct (run_same_day_flags env cred ps s) as [s' [E [A [P [BM [BE _]]]]]];
      [rewrite <- Hd; exact Hday|].
    exists s'. split; [exact E|].
    destruct (fired_from_budget s s' BM BE) as [FM FE].
    assert (FM0 : first_fires_M s ps = false).
    { destruct ps as [|p ps]; [reflexivity|]. inversion Hday as [|? ? H1 H2]; subst.
      cbn [first_fires_M]. rewrite H1, Z.eqb_refl. reflexivity. }
    assert (FE0 : first_fires_E s ps = false).
    { destruct ps as [|p ps]; [reflexivity|]. inversion Hday as [|? ? H1 H2]; subst.
      cbn [first_fires_E]. rewrite H1, Z.eqb_refl. reflexivity. }
    rewrite FM, FE, A, P, FM0, FE0.
    destruct (amBulletinSent s); destruct (pmBulletinSent s);
      destruct (existsb at_8 ps); destruct (existsb at_20 ps); cbn; split; lia.
  - destruct ps as [|p rest].
    + exists s. split; [reflexivity|]. cbn. split; lia.
    + inversion Hday as [|? ? Hp Hrest]; subst.
      destruct p as [[h m] d]. cbn [day_of] in *.
      destruct (poll_at_effect env cred h m d s) as [s1 [E1 [R1 [A1 [P1 L1]]]]].
      rewrite Hd in A1, P1.
      destruct (run_same_day_flags env cred rest s1) as [s' [E [A [P [BM [BE _]]]]]];
        [rewrite L1; exact Hrest|].
      exists s'. cbn [run_polls]. rewrite (bind_Some _ _ _ _ _ E1).
      split; [exact E|].
      destruct (fired_from_budget s1 s' BM BE) as [FM FE].
      rewrite FM, FE, A, P, A1, P1.
      rewrite (fired_app "M" s s1 _ R1), (fired_app "E" s s1 _ R1), !count_occ_app.
      cbn [first_fires_M first_fires_E day_of at_8 at_20 tl]. rewrite Hd.
      unfold morning_due, evening_due. stsimpl. cbn [negb andb].
      destruct ((h =? 8) && (m =? 0)); destruct ((h =? 20) && (m =? 0));
        destruct (amBulletinSent s); destruct (pmBulletinSent s);
        destruct (existsb at_8 rest); destruct (existsb at_20 rest);
        cbn; split; lia.
Qed.

(** C4, on the code.  Take the polls of one calendar day.  A bulletin is
    requested at most once that day unless the first poll observes a new day
    and itself requests that bulletin (it falls on the scheduled minute with
    the flag clear).  In that case the poll sets the flag and then, seeing
    the new day, clears it again, so that a later poll in the scheduled
    minute requests the bulletin a second time: two requests on one day,
    against the documented once per day.  The remaining parts hold: a poll at
    08:00 with the morning flag clear requests the morning bulletin once (the
    flag is set when the poll ends unless that poll observes a new day); a
    poll at 08:00 with the flag set requests nothing; a poll that observes a
    day other than the day of the last reset ends with both flags clear,
    whatever they were, and with that day recorded, and its fire checks ran
    first, on the flags as they were before the reset. *)
Theorem C4_scheduler :
  forall (env : Env) (cred : Credentials),
    (forall (d : Z) (ps : list LocalTime) (s : St),
        Forall (fun p => day_of p = d) ps ->
        exists s',
          run_polls env cred ps s = Some (tt, s')
          /\ (first_fires_M s ps = false -> (fired "M" s' <= fired "M" s + 1)%nat)
          /\ (first_fires_E s ps = false -> (fired "E" s' <= fired "E" s + 1)%nat)
          /\ (first_fires_M s ps = true -> existsb at_8 (tl ps) = true ->
              fired "M" s' = (fired "M" s + 2)%nat)
          /\ (first_fires_E s ps = true -> existsb at_20 (tl ps) = true ->
              fired "E" s' = (fired "E" s + 2)%nat))
    /\ (forall (d : Z) (s : St),
           amBulletinSent s = false ->
           exists s',
             poll_at env cred (8, 0, d) s = Some (tt, s')
             /\ requests s' = (requests s ++ ["M"])%list
             /\ amBulletinSent s' = (d =? lastDay s))
    /\ (forall (d : Z) (s : St),
           amBulletinSent s = true ->
           exists s',
             poll_at env cred (8, 0, d) s = Some (tt, s')
             /\ requests s' = requests s)
    /\ (forall (h m d : Z) (s : St),
           d <> lastDay s ->
           exists s',
             poll_at env cred (h, m, d) s = Some (tt, s')
             /\ amBulletinSent s' = false /\ pmBulletinSent s' = false
             /\ lastDay s' = d
             /\ requests s'
                = (requests s
                   ++ (if (h =? 8) && (m =? 0) && negb (amBulletinSent s)
                       then ["M"] else [])
                   ++ (if (h =? 20) && (m =? 0) && negb (pmBulletinSent s)
                       then ["E"] else []))%list).
Proof.
  intros env cred. split; [| split; [| split]].
  - intros d ps s Hday.
    destruct (run_day_counts env cred d ps s Hday) as [s' [E [FM FE]]].
    exists s'. split; [exact E|].
    assert (HM : (d =? lastDay s) = false -> first_fires_M s ps = true ->
                 existsb at_8 (tl ps) = true ->
                 fired "M" s' = (fired "M" s + 2)%nat)
      by (intros X Y Z0; rewrite FM, X, Y, Z0; lia).
    assert (HE : (d =? lastDay s) = false -> first_fires_E s ps = true ->
                 existsb at_20 (tl ps) = true ->
                 fired "E" s' = (fired "E" s + 2)%nat)
      by (intros X Y Z0; rewrite FE, X, Y, Z0; lia).
    assert (Hnew_M : first_fires_M s ps = true -> (d =? lastDay s) = false).
    { destruct ps as [|p ps0]; [discriminate|]. inversion Hday; subst.
      cbn [first_fires_M]. destruct (day_of p =? lastDay s); [discriminate | reflexivity]. }
    assert (Hnew_E : first_fires_E s ps = true -> (d =? lastDay s) = false).
    { destruct ps as [|p ps0]; [discriminate|]. inversion Hday; subst.
      cbn [first_fires_E]. destruct (day_of p =? lastDay s); [discriminate | reflexivity]. }
    split; [| split; [| split]].
    + intros X. rewrite FM, X.
      destruct (if d =? lastDay s
                then negb (amBulletinSent s) && existsb at_8 ps
                else existsb at_8 (tl ps)); lia.
    + intros X. rewrite FE, X.
      destruct (if d =? lastDay s
                then negb (pmBulletinSent s) && existsb at_20 ps
                else existsb at_20 (tl ps)); lia.
    + intros X Y. apply HM; auto.
    + intros X Y. apply HE; auto.
  - intros d s Ham.
    destruct (poll_at_effect env cred 8 0 d s) as [s' [E [R [A _]]]].
    exists s'. split; [exact E|].
    unfold morning_due, evening_due in *. stsimpl. rewrite Ham in *.
    cbn in R, A. split; [exact R|].
    rewrite A. destruct (d =? lastDay s); reflexivity.
  - intros d s Ham.
    destruct (poll_at_effect env cred 8 0 d s) as [s' [E [R _]]].
    exists s'. split; [exact E|].
    unfold morning_due, evening_due in *. stsimpl. rewrite Ham in *.
    cbn in R. now rewrite !app_nil_r in R.
  - intros h m d s Hd.
    destruct (poll_at_effect env cred h m d s) as [s' [E [R [A [P L]]]]].
    exists s'. split; [exact E|]. apply Z.eqb_neq in Hd. rewrite Hd in A, P.
    unfold morning_due, evening_due in R. stsimpl. auto.
Qed.

Lemma C4_scheduler_witness :
  (Forall (fun p => day_of p = 5) day5
   /\ first_fires_M boot day5 = false /\ first_fires_E boot day5 = false
   /\ exists s',
        run_polls (quiet_env 1) cred_W4KRL day5 boot = Some (tt, s')
        /\ (fired "M" s' <= fired "M" boot + 1)%nat
        /\ (fired "E" s' <= fired "E" boot + 1)%nat)
  /\ (Forall (fun p => day_of p = 5) day5_from_eight
      /\ first_fires_M boot day5_from_eight = true
      /\ existsb at_8 (tl day5_from_eight) = true
      /\ exists s',
           run_polls (quiet_env 1) cred_W4KRL day5_from_eight boot = Some (tt, s')
           /\ fired "M" s' = (fired "M" boot + 2)%nat)
  /\ (amBulletinSent boot = false
      /\ exists s',
           poll_at (quiet_env 1) cred_W4KRL (8, 0, 5) boot = Some (tt, s')
           /\ requests s' = (requests boot ++ ["M"])%list
           /\ amBulletinSent s' = (5 =? lastDay boot))
  /\ (5 <> lastDay boot
      /\ exists s',
           poll_at (quiet_env 1) cred_W4KRL (8, 0, 5) boot = Some (tt, s')
           /\ amBulletinSent s' = false /\ pmBulletinSent s' = false
           /\ lastDay s' = 5
           /\ requests s'
              = (requests boot
                 ++ (if (8 =? 8) && (0 =? 0) && negb (amBulletinSent boot)
                     then ["M"] else [])
                 ++ (if (8 =? 20) && (0 =? 0) && negb (pmBulletinSent boot)
                     then ["E"] else []))%list).
Proof.
  assert (Hd : Forall (fun p => day_of p = 5) day5) by (repeat constructor).
  assert (Hd8 : Forall (fun p => day_of p = 5) day5_from_eight) by (repeat constructor).
  assert (Hn : 5 <> lastDay boot) by (simpl; lia).
  pose proof (C4_scheduler (quiet_env 1) cred_W4KRL) as [A [B [_ R]]].
  split; [| split; [| split]].
  - split; [exact Hd|]. split; [reflexivity|]. split; [reflexivity|].
    destruct (A 5 day5 boot Hd) as [s' [E [M1 [E1 _]]]].
    exists s'. split; [exact E|]. split; [exact (M1 eq_refl) | exact (E1 eq_refl)].
  - split; [exact Hd8|]. split; [reflexivity|]. split; [reflexivity|].
    destruct (A 5 day5_from_eight boot Hd8) as [s' [E [_ [_ [M2 _]]]]].
    exists s'. split; [exact E | exact (M2 eq_refl eq_refl)].
  - split; [reflexivity|]. exact (B 5 boot eq_refl).
  - split; [exact Hn|]. exact (R 8 0 5 boot Hn).
Defined.

(** The failing run: at power-up, with the clock reading 08:00 on the fifth,
    two polls in that minute request the morning bulletin twice. *)
Example double_morning_request :
  option_map (fun x => (requests (snd x), fired "M" (snd x), amBulletinSent (snd x)))
    (run_polls (quiet_env 1) cred_W4KRL day5_from_eight boot)
  = Some (["M"; "M"], 2%nat, true).
Proof. vm_compute. reflexivity. Qed.

(** * Further properties of the code *)

(** ** Callsign padding and the acknowledgement frame *)

Lemma substring_0_length (s : string) : String.substring 0 (String.length s) s = s.
Proof. induction s as [|a s IH]; simpl; [reflexivity | now rewrite IH]. Qed.

Lemma substring_0_app_short (n : nat) (a b : string) :
  (n <= String.length a)%nat ->
  String.substring 0 n (a ++ b) = String.substring 0 n a.
Proof.
  revert a; induction n as [|n IH]; intros a H.
  - destruct a; destruct b; reflexivity.
  - destruct a as [|x a]; simpl in *; [lia|]. rewrite IH by lia. reflexivity.
Qed.

Lemma substring_0_app_long (k : nat) (a b : string) :
  String.substring 0 (String.length a + k) (a ++ b) = a ++ String.substring 0 k b.
Proof. induction a as [|x a IH]; simpl; [reflexivity | now rewrite IH]. Qed.

Lemma substring_0_spaces (n m : nat) :
  (n <= m)%nat -> String.substring 0 n (spaces m) = spaces n.
Proof.
  revert m; induction n as [|n IH]; intros m H.
  - destruct m; reflexivity.
  - destruct m as [|m]; [lia|]. simpl. rewrite IH by lia. reflexivity.
Qed.

Lemma length_spaces (n : nat) : String.length (spaces n) = n.
Proof. induction n as [|n IH]; simpl; [reflexivity | now rewrite IH]. Qed.

Lemma string_length_append (a b : string) :
  String.length (a ++ b) = (String.length a + String.length b)%nat.
Proof. induction a as [|x a IH]; simpl; [reflexivity | now rewrite IH]. Qed.

Lemma length_substring_0 (n : nat) (s : string) :
  (n <= String.length s)%nat -> String.length (String.substring 0 n s) = n.
Proof.
  revert s; induction n as [|n IH]; intros s H.
  - destruct s; reflexivity.
  - destruct s as [|x s]; simpl in *; [lia|]. rewrite IH by lia. reflexivity.
Qed.

Lemma APRSpadCall_short (c : string) :
  (String.length c <= 9)%nat -> APRSpadCall c = c ++ spaces (9 - String.length c).
Proof.
  intros H. unfold APRSpadCall, fmt_left9.
  replace 9%nat with (String.length c + (9 - String.length c))%nat at 1 by lia.
  rewrite substring_0_app_long.
  change "         " with (spaces 9). rewrite substring_0_spaces by lia. reflexivity.
Qed.

Lemma APRSpadCall_long (c : string) :
  (9 <= String.length c)%nat -> APRSpadCall c = String.substring 0 9 c.
Proof. intros H. unfold APRSpadCall, fmt_left9. now apply substring_0_app_short. Qed.

Lemma APRSpadCall_length (c : string) : String.length (APRSpadCall c) = 9%nat.
Proof.
  destruct (Nat.le_ge_cases (String.length c) 9) as [H|H].
  - rewrite APRSpadCall_short by assumption.
    rewrite string_length_append, length_spaces. lia.
  - rewrite APRSpadCall_long by assumption. now apply length_substring_0.
Qed.

(** X1.  The addressee field is always nine characters wide: a callsign of at
    most nine characters is kept and followed by spaces, a longer one is cut
    after its ninth character, and padding a padded callsign changes
    nothing. *)
Theorem APRSpadCall_field :
  forall c : string,
    String.length (APRSpadCall c) = 9%nat
    /\ ((String.length c <= 9)%nat ->
        APRSpadCall c = c ++ spaces (9 - String.length c))
    /\ ((9 <= String.length c)%nat -> APRSpadCall c = String.substring 0 9 c)
    /\ APRSpadCall (APRSpadCall c) = APRSpadCall c.
Proof.
  intros c. split; [apply APRSpadCall_length|].
  split; [apply APRSpadCall_short|]. split; [apply APRSpadCall_long|].
  rewrite (APRSpadCall_long (APRSpadCall c)) by (rewrite APRSpadCall_length; lia).
  rewrite <- (APRSpadCall_length c) at 1. apply substring_0_length.
Qed.

Lemma APRSpadCall_field_witness :
  ((String.length "N0CALL" <= 9)%nat /\ APRSpadCall "N0CALL" = "N0CALL   ")
  /\ ((9 <= String.length "W4KRL-15-X")%nat /\ APRSpadCall "W4KRL-15-X" = "W4KRL-15-").
Proof.
  split.
  - split; [simpl; lia|].
    rewrite (proj1 (proj2 (APRSpadCall_field "N0CALL"))) by (simpl; lia). reflexivity.
  - split; [simpl; lia|].
    rewrite (proj1 (proj2 (proj2 (APRSpadCall_field "W4KRL-15-X")))) by (simpl; lia).
    reflexivity.
Defined.

(** X2.  [APRSsendACK] hands exactly one line to the transport and echoes it
    on the serial port.  In that line the addressee occupies the nine columns
    after [<CALLSIGN>>APRS,TCPIP*::] whatever the recipient's length, and the
    message id is what follows [:ack], so both can be read back from fixed
    positions. *)
Theorem APRSsendACK_layout :
  forall (cred : Credentials) (recipient msgID : string) (s : St),
    exists line : string,
      APRSsendACK cred recipient msgID s
      = Some (tt, set_serial (serial s ++ [line]) (set_tx (tx s ++ [line]) s))
      /\ String.length line
         = (String.length (CALLSIGN cred) + 27 + String.length msgID)%nat
      /\ String.substring (String.length (CALLSIGN cred) + 14) 9 line
         = APRSpadCall recipient
      /\ String.substring (String.length (CALLSIGN cred) + 23) 4 line = ":ack"
      /\ String.substring (String.length (CALLSIGN cred) + 27) (String.length msgID) line
         = msgID.
Proof.
  intros cred recipient msgID s. exists (ack_frame cred recipient msgID).
  split; [apply APRSsendACK_written|].
  assert (Sk : forall (a b : string) (n m : nat),
             String.substring (String.length a + n) m (a ++ b) = String.substring n m b).
  { intros a b n m. induction a as [|x a IH]; simpl; [reflexivity | exact IH]. }
  pose proof (APRSpadCall_length recipient) as L9.
  unfold ack_frame. split; [| split; [| split]].
  - rewrite !string_length_append, L9. simpl. lia.
  - rewrite Sk. change 14%nat with (String.length ">APRS,TCPIP*::" + 0)%nat.
    rewrite Sk. rewrite <- L9 at 1.
    rewrite <- (Nat.add_0_r (String.length (APRSpadCall recipient))) at 1.
    rewrite substring_0_app_long. destruct (":ack" ++ msgID); simpl; apply append_nil_r.
  - rewrite Sk. change 23%nat with (String.length ">APRS,TCPIP*::" + 9)%nat.
    rewrite Sk. rewrite <- L9 at 1.
    rewrite <- (Nat.add_0_r (String.length (APRSpadCall recipient))) at 1.
    rewrite Sk. destruct msgID; reflexivity.
  - rewrite Sk. change 27%nat with (String.length ">APRS,TCPIP*::" + 13)%nat.
    rewrite Sk. change 13%nat with (9 + 4)%nat. rewrite <- L9 at 1.
    rewrite Sk. change 4%nat with (String.length ":ack" + 0)%nat. rewrite Sk.
    apply substring_0_length.
Qed.

(** ** The packet reader's idle timer *)

Lemma readAPRSPacket_never_connects (s : St) :
  exists (r : bool * string) (s' : St),
    readAPRSPacket s = Some (r, s') /\ (connected s' = true -> connected s = true).
Proof.
  unfold readAPRSPacket. mstep.
  destruct (connected s) eqn:Hc; cbn [negb].
  - destruct (rx s) as [|a r0] eqn:Hr; cbn [String.length Nat.eqb negb].
    + destruct (timeoutStamp s =? 0);
        [| destruct (ulong (ulong (now s) - timeoutStamp s) >? TIMEOUT_MS)];
        do 2 eexists; (split; [reflexivity | auto]).
    + rewrite Hr. destruct (readStringUntil LF (String a r0)) as [l r'].
      do 2 eexists. split; [reflexivity | auto].
  - do 2 eexists. split; [reflexivity|]. rewrite Hc. auto.
Qed.

(** X3.  [readAPRSPacket] never writes and never touches the connection
    state; it leaves the transport as it found it except in one case: the
    transport was connected, nothing was at hand, the idle timer was running
    and more than [TIMEOUT_MS] had passed on the [unsigned long] clock.  Then
    it closes the transport, stops the timer and reports not-ok.  In
    particular a transport with bytes at hand is never closed. *)
Theorem reader_closes_only_after_silence :
  forall s : St,
    exists (r : bool * string) (s' : St),
      readAPRSPacket s = Some (r, s')
      /\ tx s' = tx s /\ aprsState s' = aprsState s
      /\ ((connected s' = connected s /\ stops s' = stops s)
          \/ (connected s = true /\ connected s' = false
              /\ rx s = "" /\ timeoutStamp s <> 0
              /\ TIMEOUT_MS < ulong (ulong (now s) - timeoutStamp s)
              /\ r = (false, "")
              /\ stops s' = (stops s ++ [now s])%list
              /\ timeoutStamp s' = 0)).
Proof.
  intros s. unfold readAPRSPacket. mstep.
  destruct (connected s) eqn:Hc; cbn [negb].
  - destruct (rx s) as [|a r0] eqn:Hr; cbn [String.length Nat.eqb negb].
    + destruct (timeoutStamp s =? 0) eqn:Ht.
      * do 2 eexists. split; [reflexivity|]. stsimpl. auto.
      * destruct (ulong (ulong (now s) - timeoutStamp s) >? TIMEOUT_MS) eqn:Hg.
        -- do 2 eexists. split; [reflexivity|]. stsimpl.
           split; [reflexivity|]. split; [reflexivity|]. right.
           apply Z.eqb_neq in Ht. rewrite Z.gtb_ltb in Hg. apply Z.ltb_lt in Hg.
           repeat split; auto.
        -- do 2 eexists. split; [reflexivity|]. stsimpl. auto.
    + rewrite Hr. destruct (readStringUntil LF (String a r0)) as [l r'].
      do 2 eexists. split; [reflexivity|]. stsimpl. auto.
  - do 2 eexists. split; [reflexivity|]. auto.
Qed.

Lemma ulong_diff (t0 e : Z) :
  0 <= e < 2 ^ 32 -> ulong (ulong (t0 + e) - ulong t0) = e.
Proof.
  intros H. unfold ulong. rewrite <- Zminus_mod.
  replace (t0 + e - t0) with e by lia. now apply Z.mod_small.
Qed.

Lemma reader_idle_elapsed (s : St) (t0 e : Z) :
  connected s = true -> rx s = "" ->
  timeoutStamp s = ulong t0 -> ulong t0 <> 0 ->
  now s = t0 + e -> 0 <= e < 2 ^ 32 ->
  readAPRSPacket s
  = Some ((false, ""),
          if TIMEOUT_MS <? e
          then set_stops (stops s ++ [now s])
                 (set_rx "" (set_connected false (set_timeoutStamp 0 s)))
          else s).
Proof.
  intros Hc Hr Hs Hz Hn He. unfold readAPRSPacket. mstep.
  rewrite Hc. cbn [negb]. rewrite Hr. cbn [negb String.length Nat.eqb].
  rewrite Hs. replace (ulong t0 =? 0) with false by (symmetry; now apply Z.eqb_neq).
  replace (ulong (ulong (now s) - ulong t0)) with e
    by (rewrite Hn; symmetry; now apply ulong_diff).
  rewrite Z.gtb_ltb. destruct (TIMEOUT_MS <? e); reflexivity.
Qed.

(** X4.  The idle timer measures elapsed time correctly across the
    wrap-around of [millis()]: with the timer started at instant [t0] (stamp
    [t0 mod 2^32], not zero) and [e] milliseconds gone, less than 2^32, the
    reader on a silent connected transport closes it exactly when
    [e > TIMEOUT_MS], wherever [t0] and [t0 + e] lie relative to a multiple
    of 2^32. *)
Theorem reader_idle_timer_across_wrap :
  forall (s : St) (t0 e : Z),
    connected s = true -> rx s = "" ->
    timeoutStamp s = ulong t0 -> ulong t0 <> 0 ->
    now s = t0 + e -> 0 <= e < 2 ^ 32 ->
    readAPRSPacket s
    = Some ((false, ""),
            if TIMEOUT_MS <? e
            then set_stops (stops s ++ [now s])
                   (set_rx "" (set_connected false (set_timeoutStamp 0 s)))
            else s).
Proof. intros s t0 e. apply reader_idle_elapsed. Qed.

Lemma reader_idle_timer_across_wrap_witness :
  connected st_wrapped = true /\ rx st_wrapped = ""
  /\ timeoutStamp st_wrapped = ulong (2 ^ 32 - 1000) /\ ulong (2 ^ 32 - 1000) <> 0
  /\ now st_wrapped = (2 ^ 32 - 1000) + 1600 /\ 0 <= 1600 < 2 ^ 32
  /\ option_map (fun x => connected (snd x)) (readAPRSPacket st_wrapped) = Some false.
Proof.
  assert (Hs : timeoutStamp st_wrapped = ulong (2 ^ 32 - 1000)) by reflexivity.
  assert (Hz : ulong (2 ^ 32 - 1000) <> 0) by (vm_compute; discriminate).
  assert (Hn : now st_wrapped = (2 ^ 32 - 1000) + 1600) by reflexivity.
  assert (He : 0 <= 1600 < 2 ^ 32) by lia.
  repeat (split; [first [assumption | reflexivity]|]).
  rewrite (reader_idle_timer_across_wrap st_wrapped _ _ eq_refl eq_refl Hs Hz Hn He).
  reflexivity.
Defined.

(** ** pollAPRS *)

Lemma readAPRSPacket_frame (s : St) :
  exists (ok : bool) (p : string) (s' : St),
    readAPRSPacket s = Some ((ok, p), s')
    /\ untouched s s'
    /\ (connected s' = true -> connected s = true)
    /\ (ok = true -> (String.length (rx s') < String.length (rx s))%nat).
Proof.
  destruct (readAPRSPacket_shrinks s) as [ok [p [s' [E Hs]]]].
  destruct (readAPRSPacket_untouched s) as [r [s1 [E1 U]]].
  destruct (readAPRSPacket_never_connects s) as [r2 [s2 [E2 C]]].
  rewrite E in E1, E2. injection E1 as <- <-. injection E2 as <- <-.
  exists ok, p, s'. auto.
Qed.

Lemma poll_loop_frame (fuel : nat) :
  forall s : St,
    (String.length (rx s) < fuel)%nat ->
    exists s', poll_loop fuel s = Some (tt, s')
               /\ untouched s s'
               /\ (connected s' = true -> connected s = true).
Proof.
  induction fuel as [|fuel IH]; intros s Hf; [lia|].
  destruct (readAPRSPacket_frame s) as [ok [p [s1 [E [U [C Hs]]]]]].
  cbn [poll_loop]. rewrite (bind_Some _ _ _ _ _ E). cbn [fst snd].
  destruct ok.
  - specialize (Hs eq_refl).
    destruct (IH s1) as [s' [E' [U' C']]]; [lia|].
    exists s'. split; [destruct (startsWith p "#"); exact E'|].
    split; [| auto]. unfold untouched in *. intuition congruence.
  - exists s1. split; [reflexivity | auto].
Qed.

(** X5.  [pollAPRS] returns once the receive buffer is drained (fuel beyond
    the number of bytes at hand is never used up), and it never writes.
    Outside state Verified it does nothing at all.  In state Verified it ends
    Verified exactly when the transport is still connected and Disconnected
    otherwise (the watchdog), and it never opens a connection. *)
Theorem pollAPRS_watchdog :
  forall (fuel : nat) (s : St),
    (String.length (rx s) < fuel)%nat ->
    exists s' : St,
      pollAPRS fuel s = Some (tt, s')
      /\ tx s' = tx s
      /\ (aprsState s <> APRS_VERIFIED -> s' = s)
      /\ (aprsState s = APRS_VERIFIED ->
          aprsState s' = (if connected s' then APRS_VERIFIED else APRS_DISCONNECTED))
      /\ (connected s' = true -> connected s = true).
Proof.
  intros fuel s Hf. unfold pollAPRS, bind at 1, gets.
  destruct (aprsState s) eqn:Hst; cbn [APRS_State_eqb negb];
    try (exists s; unfold ret; repeat split; auto; discriminate).
  destruct (poll_loop_frame fuel s Hf) as [s1 [E [U C]]].
  rewrite (bind_Some _ _ _ _ _ E). unfold bind at 1, client_connected, gets.
  destruct U as [Ua [Ut _]].
  destruct (connected s1) eqn:Hc1; cbn [negb].
  - exists s1. unfold ret. rewrite Hc1. repeat split; auto; congruence.
  - eexists. split; [reflexivity|]. stsimpl. rewrite Hc1.
    repeat split; auto; congruence.
Qed.

Lemma pollAPRS_watchdog_witness :
  (String.length (rx st_verified) < 1)%nat
  /\ exists s' : St,
       pollAPRS 1 st_verified = Some (tt, s')
       /\ tx s' = tx st_verified
       /\ (aprsState st_verified <> APRS_VERIFIED -> s' = st_verified)
       /\ (aprsState st_verified = APRS_VERIFIED ->
           aprsState s' = (if connected s' then APRS_VERIFIED else APRS_DISCONNECTED))
       /\ (connected s' = true -> connected st_verified = true).
Proof.
  assert (H : (String.length (rx st_verified) < 1)%nat) by (simpl; lia).
  split; [exact H|]. exact (pollAPRS_watchdog 1 st_verified H).
Defined.

Lemma poll_loop_lines (ls : list string) :
  forall (fuel : nat) (s : St) (more : string),
    connected s = true -> Forall packet_line ls ->
    rx s = lines_of ls ++ String LF more -> (List.length ls < fuel)%nat ->
    poll_loop fuel s = Some (tt, set_timeoutStamp 0 (set_rx more s)).
Proof.
  induction ls as [|l ls IH]; intros fuel s more Hc Hl Hrx Hf.
  - destruct fuel as [|fuel]; [simpl in Hf; lia|].
    cbn [poll_loop].
    rewrite (bind_Some _ _ _ _ _ (readAPRSPacket_line s "" more Hc eq_refl Hrx)).
    reflexivity.
  - destruct fuel as [|fuel]; [simpl in Hf; lia|].
    inversion Hl as [|? ? [Hn He] Hls]; subst.
    cbn [lines_of] in Hrx. rewrite append_assoc in Hrx. cbn [append] in Hrx.
    cbn [poll_loop].
    rewrite (bind_Some _ _ _ _ _ (readAPRSPacket_line s l _ Hc Hn Hrx)).
    replace (negb (l =? "")%string) with true
      by (symmetry; apply negb_true_iff; now apply String.eqb_neq).
    cbn [fst snd].
    assert (E : forall s1 : St,
               connected s1 = true -> rx s1 = lines_of ls ++ String LF more ->
               poll_loop fuel s1 = Some (tt, set_timeoutStamp 0 (set_rx more s1))).
    { intros s1 Hc1 Hr1. apply IH; try assumption. simpl in Hf. lia. }
    destruct (startsWith l "#"); unfold bind at 1, ret;
      rewrite E by (stsimpl; auto); reflexivity.
Qed.

(** X6.  In state Verified, one call of [pollAPRS] reads on until a line is
    empty: with the packets [ls] at hand, then an empty line, then [more],
    the call consumes the packets and the empty line and returns; [more]
    stays in the buffer for a later call.  Transport and state are as
    before, the idle timer is stopped. *)
Theorem pollAPRS_stops_at_empty_line :
  forall (fuel : nat) (s : St) (ls : list string) (more : string),
    aprsState s = APRS_VERIFIED -> connected s = true ->
    Forall packet_line ls ->
    rx s = lines_of ls ++ String LF more -> (List.length ls < fuel)%nat ->
    pollAPRS fuel s = Some (tt, set_timeoutStamp 0 (set_rx more s)).
Proof.
  intros fuel s ls more Hst Hc Hl Hrx Hf.
  unfold pollAPRS, bind at 1, gets. rewrite Hst. cbn [APRS_State_eqb negb].
  rewrite (bind_Some _ _ _ _ _ (poll_loop_lines ls fuel s more Hc Hl Hrx Hf)).
  unfold bind, client_connected, gets. stsimpl. rewrite Hc. reflexivity.
Qed.

Lemma pollAPRS_stops_at_empty_line_witness :
  aprsState st_split = APRS_VERIFIED /\ connected st_split = true
  /\ Forall packet_line [first_packet]
  /\ rx st_split = lines_of [first_packet] ++ String LF (lines_of [second_packet])
  /\ (List.length [first_packet] < 2)%nat
  /\ option_map (fun x => rx (snd x)) (pollAPRS 2 st_split)
     = Some (lines_of [second_packet]).
Proof.
  assert (P : Forall packet_line [first_packet]).
  { constructor; [| constructor]. split; [reflexivity | discriminate]. }
  assert (F : (List.length [first_packet] < 2)%nat) by (simpl; lia).
  split; [reflexivity|]. split; [reflexivity|]. split; [exact P|].
  split; [reflexivity|]. split; [exact F|].
  rewrite (pollAPRS_stops_at_empty_line 2 st_split [first_packet]
             (lines_of [second_packet]) eq_refl eq_refl P eq_refl F).
  reflexivity.
Defined.

Lemma reader_arms (s : St) :
  connected s = true -> rx s = "" -> timeoutStamp s = 0 ->
  readAPRSPacket s = Some ((false, ""), set_timeoutStamp (ulong (now s)) s).
Proof.
  intros Hc Hr Ht. unfold readAPRSPacket. mstep.
  rewrite Hc. cbn [negb]. rewrite Hr. cbn [negb String.length Nat.eqb].
  rewrite Ht. reflexivity.
Qed.

Lemma poll_loop_drain (ls : list string) :
  forall (fuel : nat) (s : St),
    connected s = true -> Forall packet_line ls ->
    rx s = lines_of ls -> (ls = [] -> timeoutStamp s = 0) ->
    (List.length ls < fuel)%nat ->
    poll_loop fuel s = Some (tt, set_timeoutStamp (ulong (now s)) (set_rx "" s)).
Proof.
  induction ls as [|l ls IH]; intros fuel s Hc Hl Hrx Hst Hf.
  - destruct fuel as [|fuel]; [simpl in Hf; lia|].
    cbn [poll_loop].
    rewrite (bind_Some _ _ _ _ _ (reader_arms s Hc Hrx (Hst eq_refl))).
    cbn [fst]. unfold ret. destruct s; simpl in *; subst; reflexivity.
  - destruct fuel as [|fuel]; [simpl in Hf; lia|].
    inversion Hl as [|? ? [Hn He] Hls]; subst.
    cbn [lines_of] in Hrx. cbn [poll_loop].
    rewrite (bind_Some _ _ _ _ _ (readAPRSPacket_line s l _ Hc Hn Hrx)).
    replace (negb (l =? "")%string) with true
      by (symmetry; apply negb_true_iff; now apply String.eqb_neq).
    cbn [fst snd].
    assert (E : forall s1 : St,
               connected s1 = true -> rx s1 = lines_of ls -> timeoutStamp s1 = 0 ->
               poll_loop fuel s1
               = Some (tt, set_timeoutStamp (ulong (now s1)) (set_rx "" s1))).
    { intros s1 Hc1 Hr1 Ht1. apply IH; try assumption; auto. simpl in Hf. lia. }
    destruct (startsWith l "#"); unfold bind at 1, ret;
      rewrite E by (stsimpl; auto); reflexivity.
Qed.

(** X7.  In state Verified, one call of [pollAPRS] consumes all the packets
    at hand, however many, when none of the lines is empty; the last read
    then finds the buffer empty and starts the idle timer at the instant of
    the call.  State and transport are as before. *)
Theorem pollAPRS_drains_packets :
  forall (fuel : nat) (s : St) (ls : list string),
    aprsState s = APRS_VERIFIED -> connected s = true ->
    Forall packet_line ls -> ls <> [] ->
    rx s = lines_of ls -> (List.length ls < fuel)%nat ->
    pollAPRS fuel s
    = Some (tt, set_timeoutStamp (ulong (now s)) (set_rx "" s)).
Proof.
  intros fuel s ls Hst Hc Hl Hne Hrx Hf.
  unfold pollAPRS, bind at 1, gets. rewrite Hst. cbn [APRS_State_eqb negb].
  rewrite (bind_Some _ _ _ _ _
             (poll_loop_drain ls fuel s Hc Hl Hrx ltac:(intros; contradiction) Hf)).
  unfold bind, client_connected, gets. stsimpl. rewrite Hc. reflexivity.
Qed.

Lemma pollAPRS_drains_packets_witness :
  aprsState st_two_packets = APRS_VERIFIED /\ connected st_two_packets = true
  /\ Forall packet_line [first_packet; second_packet]
  /\ [first_packet; second_packet] <> []
  /\ rx st_two_packets = lines_of [first_packet; second_packet]
  /\ (List.length [first_packet; second_packet] < 3)%nat
  /\ option_map (fun x => (rx (snd x), timeoutStamp (snd x))) (pollAPRS 3 st_two_packets)
     = Some ("", 1).
Proof.
  assert (P : Forall packet_line [first_packet; second_packet]).
  { repeat constructor; discriminate. }
  assert (N : [first_packet; second_packet] <> []) by discriminate.
  assert (F : (List.length [first_packet; second_packet] < 3)%nat) by (simpl; lia).
  split; [reflexivity|]. split; [reflexivity|]. split; [exact P|].
  split; [exact N|]. split; [reflexivity|]. split; [exact F|].
  rewrite (pollAPRS_drains_packets 3 st_two_packets [first_packet; second_packet]
             eq_refl eq_refl P N eq_refl F).
  reflexivity.
Defined.

(** ** A verified session that goes quiet *)

Lemma pollAPRS_verified_unfold (fuel : nat) (s s1 : St) :
  aprsState s = APRS_VERIFIED ->
  poll_loop fuel s = Some (tt, s1) ->
  pollAPRS fuel s
  = Some (tt, if connected s1 then s1
              else set_serial (serial s1 ++ ["Connection lost"])
                     (set_aprsState APRS_DISCONNECTED s1)).
Proof.
  intros Hst E. unfold pollAPRS, bind at 1, gets. rewrite Hst.
  cbn [APRS_State_eqb negb]. rewrite (bind_Some _ _ _ _ _ E).
  unfold bind at 1, client_connected, gets.
  destruct (connected s1); reflexivity.
Qed.

(** X8.  A verified, connected session with nothing to read and its idle
    timer off is polled, [d] milliseconds pass in which nothing arrives
    ([d < 2^32]), and it is polled again.  The first poll starts the idle
    timer.  If [d > TIMEOUT_MS] and [millis()] did not read zero at the first
    poll, the second poll closes the transport and the watchdog moves the
    state to Disconnected; otherwise the session stays Verified and
    connected.  In particular a timer started at [millis() = 0] is not
    running, because the stamp 0 means that the timer is off: the second
    poll starts it afresh, however long the pause was.  Nothing is sent
    either way. *)
Theorem quiet_verified_session :
  forall (env : Env) (fuel : nat) (s : St),
    aprsState s = APRS_VERIFIED -> connected s = true -> rx s = "" ->
    timeoutStamp s = 0 ->
    arrive env (epoch s) = "" -> 0 <= delta env (epoch s) < 2 ^ 32 ->
    (0 < fuel)%nat ->
    let closes := negb (ulong (now s) =? 0) && (TIMEOUT_MS <? delta env (epoch s)) in
    exists s' : St,
      poll_pause_poll env fuel s = Some (tt, s')
      /\ tx s' = tx s
      /\ aprsState s' = (if closes then APRS_DISCONNECTED else APRS_VERIFIED)
      /\ connected s' = negb closes.
Proof.
  intros env fuel s Hst Hc Hr Ht Ha Hd Hf closes. subst closes.
  destruct fuel as [|fuel]; [lia|].
  assert (P1 : poll_loop (S fuel) s = Some (tt, set_timeoutStamp (ulong (now s)) s)).
  { cbn [poll_loop]. rewrite (bind_Some _ _ _ _ _ (reader_arms s Hc Hr Ht)).
    reflexivity. }
  unfold poll_pause_poll.
  rewrite (bind_Some _ _ _ _ _ (pollAPRS_verified_unfold _ _ _ Hst P1)).
  stsimpl. rewrite Hc. unfold bind at 1, yield, modify.
  set (s2 := tick env (set_timeoutStamp (ulong (now s)) s)).
  assert (Hc2 : connected s2 = true) by exact Hc.
  assert (Hr2 : rx s2 = "").
  { subst s2. stsimpl. rewrite Hc, Hr, Ha. reflexivity. }
  assert (Hst2 : aprsState s2 = APRS_VERIFIED) by exact Hst.
  assert (Htx : tx s2 = tx s) by reflexivity.
  assert (R : exists s3 : St,
             readAPRSPacket s2 = Some ((false, ""), s3)
             /\ tx s3 = tx s2 /\ aprsState s3 = aprsState s2
             /\ connected s3
                = negb (negb (ulong (now s) =? 0)
                        && (TIMEOUT_MS <? delta env (epoch s)))).
  { destruct (ulong (now s) =? 0) eqn:Hz; cbn [negb andb].
    - apply Z.eqb_eq in Hz.
      rewrite (reader_arms s2 Hc2 Hr2) by (subst s2; stsimpl; exact Hz).
      eexists. split; [reflexivity|]. stsimpl. auto.
    - apply Z.eqb_neq in Hz.
      rewrite (reader_idle_elapsed s2 (now s) (delta env (epoch s)) Hc2 Hr2)
        by (subst s2; stsimpl; auto).
      eexists. split; [reflexivity|].
      destruct (TIMEOUT_MS <? delta env (epoch s)); stsimpl; auto. }
  destruct R as [s3 [R [T3 [A3 C3]]]].
  assert (P2 : poll_loop (S fuel) s2 = Some (tt, s3)).
  { cbn [poll_loop]. rewrite (bind_Some _ _ _ _ _ R). reflexivity. }
  rewrite (pollAPRS_verified_unfold _ _ _ Hst2 P2). clear P2 R.
  eexists. split; [reflexivity|].
  rewrite C3.
  destruct (negb (ulong (now s) =? 0) && (TIMEOUT_MS <? delta env (epoch s)));
    cbn [negb] in *; stsimpl; repeat split; congruence.
Qed.

Lemma quiet_verified_session_witness :
  aprsState st_verified = APRS_VERIFIED /\ connected st_verified = true
  /\ rx st_verified = "" /\ timeoutStamp st_verified = 0
  /\ arrive (quiet_env 1600) (epoch st_verified) = ""
  /\ 0 <= delta (quiet_env 1600) (epoch st_verified) < 2 ^ 32
  /\ (0 < 1)%nat
  /\ option_map (fun x => (aprsState (snd x), connected (snd x)))
       (poll_pause_poll (quiet_env 1600) 1 st_verified)
     = Some (APRS_DISCONNECTED, false).
Proof.
  assert (Hd : 0 <= delta (quiet_env 1600) (epoch st_verified) < 2 ^ 32) by (simpl; lia).
  assert (Hf : (0 < 1)%nat) by lia.
  repeat (split; [first [assumption | reflexivity]|]).
  destruct (quiet_verified_session (quiet_env 1600) 1 st_verified
              eq_refl eq_refl eq_refl eq_refl eq_refl Hd Hf) as [s' [E [_ [A C]]]].
  rewrite E. cbn [option_map snd]. rewrite A, C. reflexivity.
Defined.

(** ** The state machine over many turns of loop() *)

Lemma pollAPRS_not_verified (fuel : nat) (s : St) :
  aprsState s <> APRS_VERIFIED -> pollAPRS fuel s = Some (tt, s).
Proof.
  intros H. unfold pollAPRS, bind, gets.
  destruct (aprsState s); try reflexivity. contradiction.
Qed.

Lemma updateAPRS_in_disconnected (env : Env) (fuel : nat) (s : St) :
  aprsState s = APRS_DISCONNECTED ->
  exists s', updateAPRS env fuel s = Some (tt, s')
             /\ aprsState s' = APRS_DISCONNECTED /\ tx s' = tx s
             /\ (connected s = false -> server_up env (epoch s) = false ->
                 connected s' = false).
Proof.
  intros H. unfold updateAPRS, bind at 1, gets. rewrite H.
  unfold connectToAPRS. mstep.
  destruct (connected s) eqn:Hc.
  - exists s. repeat split; auto. discriminate.
  - destruct (server_up env (epoch s)); eexists; (split; [reflexivity|]);
      stsimpl; repeat split; auto; discriminate.
Qed.

Lemma loop_in_disconnected (env : Env) (due : nat -> bool) (fuel : nat) (s : St) :
  aprsState s = APRS_DISCONNECTED ->
  exists s', loop env due fuel s = Some (tt, s')
             /\ aprsState s' = APRS_DISCONNECTED /\ tx s' = tx s.
Proof.
  intros H. unfold loop, bind at 1, gets.
  assert (U : updateTasks (due (epoch s)) fuel s = Some (tt, s)).
  { unfold updateTasks. destruct (due (epoch s)); [| reflexivity].
    apply pollAPRS_not_verified. rewrite H. discriminate. }
  rewrite (bind_Some _ _ _ _ _ U).
  destruct (updateAPRS_in_disconnected env fuel s H) as [s' [E [A [T _]]]].
  exists s'. auto.
Qed.

Lemma run_loop_in_disconnected (env : Env) (due : nat -> bool) (fuel n : nat) :
  forall s : St,
    aprsState s = APRS_DISCONNECTED ->
    exists s', run_loop env due fuel n s = Some (tt, s')
               /\ aprsState s' = APRS_DISCONNECTED /\ tx s' = tx s.
Proof.
  induction n as [|n IH]; intros s H.
  - exists s. repeat split; assumption.
  - destruct (loop_in_disconnected env due fuel s H) as [s1 [E1 [A1 T1]]].
    cbn [run_loop]. rewrite (bind_Some _ _ _ _ _ E1).
    unfold bind at 1, yield, modify.
    destruct (IH (tick env s1)) as [s' [E [A T]]]; [exact A1|].
    exists s'. split; [exact E|]. split; [exact A|]. stsimpl. congruence.
Qed.

(** X9.  Disconnected is final for [loop()]: from state Disconnected, after
    any number of turns, whatever the server does and whether or not the
    ticker calls [pollAPRS], the state is still Disconnected and not one line
    has been sent: [updateAPRS] reconnects the transport at most, it never
    logs on.  This holds even when no fuel is given, since no loop of the
    program runs in this state. *)
Theorem disconnected_is_final :
  forall (env : Env) (due : nat -> bool) (fuel n : nat) (s : St),
    aprsState s = APRS_DISCONNECTED ->
    exists s' : St,
      run_loop env due fuel n s = Some (tt, s')
      /\ aprsState s' = APRS_DISCONNECTED
      /\ tx s' = tx s.
Proof. intros env due fuel n s. apply run_loop_in_disconnected. Qed.

Lemma disconnected_is_final_witness :
  aprsState boot = APRS_DISCONNECTED
  /\ exists s' : St,
       run_loop (quiet_env 10) always_due 0 1000 boot = Some (tt, s')
       /\ aprsState s' = APRS_DISCONNECTED
       /\ tx s' = tx boot.
Proof.
  split; [reflexivity|].
  exact (disconnected_is_final (quiet_env 10) always_due 0 1000 boot eq_refl).
Defined.

(** ** What one call of updateAPRS can do *)

Section ClockSafe.

Variable env : Env.
Variable D : Z.
Hypothesis delta_bounds : forall n : nat, 0 < delta env n <= D.

Lemma verify_loop_safe (fuel : nat) (T : Z) :
  T + D <= 2 ^ 32 ->
  forall s : St,
    0 <= now s -> now s < T + D -> (Z.to_nat (T - now s) < fuel)%nat ->
    exists v s', verify_loop env fuel T s = Some (v, s')
                 /\ aprsState s' = aprsState s /\ tx s' = tx s
                 /\ (v = true -> connected s' = true).
Proof.
  intros HT. induction fuel as [|fuel IH]; intros s H0 H1 Hf; [lia|].
  assert (Hu : ulong (now s) = now s) by (apply ulong_small; lia).
  destruct (Z_lt_le_dec (now s) T) as [Hlt|Hge].
  - rewrite verify_loop_step by lia.
    destruct (verify_body_untouched s) as [r [s1 [E U]]]. rewrite E.
    destruct U as [Ua [Ut [Un [Ue _]]]].
    destruct r as [b|].
    + exists b, s1. repeat split; auto. intros _.
      eapply verify_body_verdict_connected; eauto.
    + pose proof (delta_bounds (epoch s1)) as Hd.
      destruct (IH (tick env s1)) as [v [s' [E' [A' [T' C']]]]].
      * stsimpl. lia.
      * stsimpl. lia.
      * stsimpl. lia.
      * exists v, s'. stsimpl. repeat split; auto; congruence.
  - rewrite verify_loop_exit by lia. do 2 eexists. split; [reflexivity|].
    repeat split; auto. discriminate.
Qed.

Lemma verifyLogonStatus_safe (fuel : nat) (s : St) :
  0 <= now s -> now s + APRS_TIMEOUT + D <= 2 ^ 32 -> (2000 < fuel)%nat ->
  exists v s', verifyLogonStatus env fuel s = Some (v, s')
               /\ aprsState s' = aprsState s /\ tx s' = tx s
               /\ (v = true -> connected s' = true).
Proof.
  unfold APRS_TIMEOUT. intros H0 H1 Hf.
  pose proof (delta_bounds 0%nat) as Hd.
  assert (Hu : ulong (now s) = now s) by (apply ulong_small; lia).
  unfold verifyLogonStatus, bind at 1, millis, gets. rewrite Hu.
  unfold APRS_TIMEOUT. rewrite (ulong_small (now s + 2000)) by lia.
  apply verify_loop_safe; lia.
Qed.

End ClockSafe.

(** X10.  One call of [updateAPRS], with a clock that advances at every
    [yield()] and does not wrap within the verification window, returns,
    and: it never sends a line; if it ends in state Verified the transport is
    connected; and it never enters the states Connected or LoggedIn (it ends
    in one of them only if it started there). *)
Theorem updateAPRS_safe :
  forall (env : Env) (D : Z) (fuel : nat) (s : St),
    (forall n : nat, 0 < delta env n <= D) ->
    0 <= now s -> now s + APRS_TIMEOUT + D <= 2 ^ 32 ->
    (2000 < fuel)%nat -> (String.length (rx s) < fuel)%nat ->
    exists s' : St,
      updateAPRS env fuel s = Some (tt, s')
      /\ tx s' = tx s
      /\ (aprsState s' = APRS_VERIFIED -> connected s' = true)
      /\ (aprsState s' = APRS_CONNECTED -> aprsState s = APRS_CONNECTED)
      /\ (aprsState s' = APRS_LOGGED_IN -> aprsState s = APRS_LOGGED_IN).
Proof.
  intros env D fuel s Hd H0 H1 Hf Hr.
  destruct (aprsState s) eqn:Hst.
  - destruct (updateAPRS_in_disconnected env fuel s Hst) as [s' [E [A [T _]]]].
    exists s'. rewrite A. repeat split; auto; discriminate.
  - destruct (verifyLogonStatus_safe env D Hd fuel s H0 H1 Hf) as [v [s1 [E [A [T C]]]]].
    unfold updateAPRS, bind at 1, gets. rewrite Hst, (bind_Some _ _ _ _ _ E).
    destruct v.
    + eexists. split; [reflexivity|]. stsimpl. repeat split; auto; discriminate.
    + exists s1. split; [reflexivity|]. rewrite A, Hst.
      repeat split; auto; discriminate.
  - destruct (verifyLogonStatus_safe env D Hd fuel s H0 H1 Hf) as [v [s1 [E [A [T C]]]]].
    unfold updateAPRS, bind at 1, gets. rewrite Hst, (bind_Some _ _ _ _ _ E).
    destruct v.
    + eexists. split; [reflexivity|]. stsimpl. repeat split; auto; discriminate.
    + exists s1. split; [reflexivity|]. rewrite A, Hst.
      repeat split; auto; discriminate.
  - destruct (poll_loop_frame fuel s Hr) as [s1 [E [[Ua [Ut _]] C]]].
    unfold updateAPRS, bind at 1, gets. rewrite Hst.
    rewrite (pollAPRS_verified_unfold fuel s s1 Hst E).
    eexists. split; [reflexivity|].
    destruct (connected s1) eqn:Hc1; stsimpl;
      repeat split; auto; try congruence; try discriminate.
Qed.

Lemma updateAPRS_safe_witness :
  (forall n : nat, 0 < delta (quiet_env 400) n <= 400)
  /\ 0 <= now st_logged_in /\ now st_logged_in + APRS_TIMEOUT + 400 <= 2 ^ 32
  /\ (2000 < 2001)%nat /\ (String.length (rx st_logged_in) < 2001)%nat
  /\ exists s' : St,
       updateAPRS (quiet_env 400) 2001 st_logged_in = Some (tt, s')
       /\ tx s' = tx st_logged_in
       /\ (aprsState s' = APRS_VERIFIED -> connected s' = true)
       /\ (aprsState s' = APRS_CONNECTED -> aprsState st_logged_in = APRS_CONNECTED)
       /\ (aprsState s' = APRS_LOGGED_IN -> aprsState st_logged_in = APRS_LOGGED_IN).
Proof.
  assert (Hd : forall n : nat, 0 < delta (quiet_env 400) n <= 400) by (intros n; simpl; lia).
  assert (H0 : 0 <= now st_logged_in) by (simpl; lia).
  assert (H1 : now st_logged_in + APRS_TIMEOUT + 400 <= 2 ^ 32)
    by (unfold APRS_TIMEOUT; simpl; lia).
  assert (Hf : (2000 < 2001)%nat) by lia.
  assert (Hr : (String.length (rx st_logged_in) < 2001)%nat) by (simpl; lia).
  repeat (split; [assumption|]).
  exact (updateAPRS_safe (quiet_env 400) 400 2001 st_logged_in Hd H0 H1 Hf Hr).
Defined.

(** ** Logon verification: the deadline and the response *)

Lemma ulong_wrapped (z : Z) : 2 ^ 32 <= z < 2 * 2 ^ 32 -> ulong z = z - 2 ^ 32.
Proof.
  intros H. unfold ulong. symmetry. apply Z.mod_unique with (q := 1); lia.
Qed.

Lemma ulong_range (z : Z) : 0 <= ulong z < 2 ^ 32.
Proof. unfold ulong. apply Z.mod_pos_bound. lia. Qed.

(** X11.  When [millis() + APRS_TIMEOUT] overflows the [unsigned long], that
    is in the last two seconds before the clock wraps, [verifyLogonStatus]
    gives up at once: the deadline it computes lies before the current
    instant, so it reports a timeout without reading a single byte, even
    with a verified login response at hand. *)
Theorem verifyLogonStatus_before_wrap :
  forall (env : Env) (fuel : nat) (s : St),
    2 ^ 32 - APRS_TIMEOUT <= ulong (now s) ->
    verifyLogonStatus env (S fuel) s
    = Some (false, set_serial (serial s ++ ["Verification timeout"]) s).
Proof.
  intros env fuel s H. unfold APRS_TIMEOUT in H.
  pose proof (ulong_range (now s)) as R.
  unfold verifyLogonStatus, bind at 1, millis, gets. unfold APRS_TIMEOUT.
  rewrite (ulong_wrapped (ulong (now s) + 2000)) by lia.
  apply verify_loop_exit. lia.
Qed.

Lemma verifyLogonStatus_before_wrap_witness :
  2 ^ 32 - APRS_TIMEOUT <= ulong (now st_answered_at_wrap)
  /\ verified_by logresp_ok
  /\ option_map (fun x => (fst x, rx (snd x)))
       (verifyLogonStatus greeting_env 1 st_answered_at_wrap)
     = Some (false, rx st_answered_at_wrap).
Proof.
  assert (H : 2 ^ 32 - APRS_TIMEOUT <= ulong (now st_answered_at_wrap))
    by (vm_compute; discriminate).
  split; [exact H|]. split.
  - split; [reflexivity|]. split.
    + apply (indexOf_Contains logresp_ok "verified"); [discriminate | reflexivity].
    + apply (indexOf_not_Contains logresp_ok "unverified"); [discriminate | reflexivity].
  - rewrite (verifyLogonStatus_before_wrap greeting_env 0 st_answered_at_wrap H).
    reflexivity.
Defined.

Lemma verify_body_passed_over (s : St) (l rest : string) :
  connected s = true -> passed_over l -> rx s = l ++ String LF rest ->
  verify_body s = Some (None, set_timeoutStamp 0 (set_rx rest s)).
Proof.
  intros Hc [Hn Hsw] Hrx. rewrite (verify_body_line s l rest Hc Hn Hrx).
  rewrite Hsw. reflexivity.
Qed.

Lemma verify_body_verified (s : St) (l rest : string) :
  connected s = true -> no_LF l = true -> verified_by l -> rx s = l ++ String LF rest ->
  verify_body s
  = Some (Some true, set_serial (serial s ++ ["Logon verified"])
                       (set_timeoutStamp 0 (set_rx rest s))).
Proof.
  intros Hc Hn [Hsw [Hv Hu]] Hrx. rewrite (verify_body_line s l rest Hc Hn Hrx).
  apply indexOf_Contains in Hv; [| discriminate].
  apply indexOf_not_Contains in Hu; [| discriminate].
  rewrite Hsw, Hv, Hu. reflexivity.
Qed.

Lemma verify_body_rejected (s : St) (l rest : string) :
  connected s = true -> no_LF l = true -> rejected_by l -> rx s = l ++ String LF rest ->
  verify_body s
  = Some (Some false, set_serial (serial s ++ ["Logon unverified"])
                        (set_timeoutStamp 0 (set_rx rest s))).
Proof.
  intros Hc Hn [Hsw Hu] Hrx. rewrite (verify_body_line s l rest Hc Hn Hrx).
  apply indexOf_Contains in Hu; [| discriminate].
  rewrite Hsw, Hu. rewrite andb_false_r. reflexivity.
Qed.

Section Response.

Variable env : Env.
Variable D : Z.
Hypothesis delta_bounds : forall n : nat, 0 <= delta env n <= D.

Lemma verify_loop_response (b : bool) (line : string) (T : Z) (pre : list string) :
  no_LF line = true -> verdict b line -> T <= 2 ^ 32 ->
  forall (fuel : nat) (s : St) (rest : string),
    connected s = true -> Forall passed_over pre ->
    rx s = lines_of pre ++ line ++ String LF rest ->
    0 <= now s -> now s + Z.of_nat (List.length pre) * D < T ->
    (List.length pre < fuel)%nat ->
    exists s', verify_loop env fuel T s = Some (b, s')
               /\ connected s' = true
               /\ aprsState s' = aprsState s /\ tx s' = tx s
               /\ (exists more, rx s' = rest ++ more)
               /\ last (serial s') ""
                  = (if b then "Logon verified" else "Logon unverified").
Proof.
  intros Hn Hv HT. induction pre as [|l pre IH]; intros fuel s rest Hc Hp Hrx H0 H1 Hf.
  - destruct fuel as [|fuel]; [simpl in Hf; lia|].
    cbn [lines_of append List.length] in *.
    rewrite verify_loop_step by (rewrite ulong_small; lia).
    destruct b; unfold verdict in Hv.
    + rewrite (verify_body_verified s line rest Hc Hn Hv Hrx).
      eexists. split; [reflexivity|]. stsimpl.
      repeat split; auto; [exists ""; symmetry; apply append_nil_r | apply last_last].
    + rewrite (verify_body_rejected s line rest Hc Hn Hv Hrx).
      eexists. split; [reflexivity|]. stsimpl.
      repeat split; auto; [exists ""; symmetry; apply append_nil_r | apply last_last].
  - destruct fuel as [|fuel]; [simpl in Hf; lia|].
    inversion Hp as [|? ? Hl Hpre]; subst.
    pose proof (delta_bounds (epoch s)) as Hd.
    assert (HD : 0 <= D) by lia.
    cbn [lines_of] in Hrx. rewrite append_assoc in Hrx. cbn [append] in Hrx.
    cbn [List.length] in H1, Hf. rewrite Nat2Z.inj_succ in H1.
    rewrite verify_loop_step by (rewrite ulong_small; nia).
    rewrite (verify_body_passed_over s l _ Hc Hl Hrx).
    destruct (IH fuel (tick env (set_timeoutStamp 0
                         (set_rx (lines_of pre ++ line ++ String LF rest) s)))
                (rest ++ arrive env (epoch s)))
      as [s' [E [C [A [Tx [[more R] L]]]]]].
    + exact Hc.
    + exact Hpre.
    + stsimpl. rewrite Hc, !append_assoc. cbn [append]. reflexivity.
    + stsimpl. lia.
    + stsimpl. nia.
    + lia.
    + exists s'. split; [exact E|]. stsimpl.
      repeat split; auto.
      exists (arrive env (epoch s) ++ more). rewrite R. apply append_assoc.
Qed.

End Response.

Lemma verifyLogonStatus_response
  (env : Env) (D : Z) (fuel : nat) (s : St)
  (pre : list string) (line rest : string) (b : bool) :
  (forall n : nat, 0 <= delta env n <= D) ->
  connected s = true -> Forall passed_over pre ->
  no_LF line = true -> verdict b line ->
  rx s = lines_of pre ++ line ++ String LF rest ->
  0 <= now s -> now s + APRS_TIMEOUT < 2 ^ 32 ->
  Z.of_nat (List.length pre) * D < APRS_TIMEOUT ->
  (List.length pre < fuel)%nat ->
  exists s' : St,
    verifyLogonStatus env fuel s = Some (b, s')
    /\ connected s' = true
    /\ aprsState s' = aprsState s /\ tx s' = tx s
    /\ (exists more, rx s' = rest ++ more)
    /\ last (serial s') "" = (if b then "Logon verified" else "Logon unverified").
Proof.
  intros Hd Hc Hp Hn Hv Hrx H0 H1 Hk Hf.
  unfold APRS_TIMEOUT in *.
  unfold verifyLogonStatus, bind at 1, millis, gets.
  rewrite (ulong_small (now s)) by lia.
  unfold APRS_TIMEOUT. rewrite (ulong_small (now s + 2000)) by lia.
  apply (verify_loop_response env D Hd b line (now s + 2000) pre Hn Hv); auto; lia.
Qed.

(** X12.  Verification finds the login response behind other traffic.  With
    lines that do not begin with [# logresp] at hand (the greeting, packets,
    empty lines), then a login-response line, the loop passes over the former,
    one per turn, and returns on the latter: true on a verified response,
    false at once on a rejection, without waiting for the deadline.  It is
    enough that the turns spent on the lines passed over fit into the
    verification window and that the clock does not wrap in it.  The bytes
    behind the response stay in the buffer. *)
Theorem verification_finds_response :
  forall (env : Env) (D : Z) (fuel : nat) (s : St)
         (pre : list string) (line rest : string) (b : bool),
    (forall n : nat, 0 <= delta env n <= D) ->
    connected s = true -> Forall passed_over pre ->
    no_LF line = true -> verdict b line ->
    rx s = lines_of pre ++ line ++ String LF rest ->
    0 <= now s -> now s + APRS_TIMEOUT < 2 ^ 32 ->
    Z.of_nat (List.length pre) * D < APRS_TIMEOUT ->
    (List.length pre < fuel)%nat ->
    exists s' : St,
      verifyLogonStatus env fuel s = Some (b, s')
      /\ connected s' = true
      /\ aprsState s' = aprsState s /\ tx s' = tx s
      /\ (exists more, rx s' = rest ++ more)
      /\ last (serial s') "" = (if b then "Logon verified" else "Logon unverified").
Proof.
  intros env D fuel s pre line rest b. apply verifyLogonStatus_response.
Qed.

Lemma verification_finds_response_witness :
  (forall n : nat, 0 <= delta greeting_env n <= 1)
  /\ connected st_answered = true /\ Forall passed_over greeting
  /\ no_LF logresp_ok = true /\ verdict true logresp_ok
  /\ rx st_answered = lines_of greeting ++ logresp_ok ++ String LF ""
  /\ 0 <= now st_answered /\ now st_answered + APRS_TIMEOUT < 2 ^ 32
  /\ Z.of_nat (List.length greeting) * 1 < APRS_TIMEOUT
  /\ (List.length greeting < 2)%nat
  /\ option_map fst (verifyLogonStatus greeting_env 2 st_answered) = Some true.
Proof.
  assert (Hd : forall n : nat, 0 <= delta greeting_env n <= 1) by (intros n; simpl; lia).
  assert (Hp : Forall passed_over greeting) by (repeat constructor).
  assert (Hv : verdict true logresp_ok).
  { split; [reflexivity|]. split.
    - apply (indexOf_Contains logresp_ok "verified"); [discriminate | reflexivity].
    - apply (indexOf_not_Contains logresp_ok "unverified"); [discriminate | reflexivity]. }
  assert (H0 : 0 <= now st_answered) by (simpl; lia).
  assert (H1 : now st_answered + APRS_TIMEOUT < 2 ^ 32) by (unfold APRS_TIMEOUT; simpl; lia).
  assert (Hk : Z.of_nat (List.length greeting) * 1 < APRS_TIMEOUT)
    by (unfold APRS_TIMEOUT; simpl; lia).
  assert (Hf : (List.length greeting < 2)%nat) by (simpl; lia).
  repeat (split; [first [assumption | reflexivity]|]).
  destruct (verification_finds_response greeting_env 1 2 st_answered greeting
              logresp_ok "" true Hd eq_refl Hp eq_refl Hv eq_refl H0 H1 Hk Hf)
    as [s' [E _]].
  rewrite E. reflexivity.
Defined.

(** ** connectToAPRSserver *)

Lemma performAPRSLogon_sent (cred : Credentials) (s : St) :
  performAPRSLogon cred s
  = Some (tt, set_serial (serial s ++ ["APRS logon: " ++ login_line cred])
                (set_tx (tx s ++ [login_line cred]) s)).
Proof.
  unfold performAPRSLogon, login_line. mstep.
  repeat (rewrite !append_assoc; cbn [append]). reflexivity.
Qed.

Lemma connectToAPRS_ok (env : Env) (s : St) :
  connected s = true \/ server_up env (epoch s) = true ->
  connectToAPRS env s
  = Some (true, if connected s then s
                else set_serial (serial s ++ ["APRS connected"])
                       (set_rx "" (set_connected true s))).
Proof.
  intros H. unfold connectToAPRS. mstep.
  destruct (connected s); [reflexivity|].
  destruct H as [H|H]; [discriminate|]. rewrite H. reflexivity.
Qed.

(** The state in which [connectToAPRSserver] starts verification. *)
Lemma connectToAPRSserver_unfold (env : Env) (cred : Credentials) (fuel : nat) (s : St) :
  connected s = true \/ server_up env (epoch s) = true ->
  exists s1 : St,
    connected s1 = true /\ rx s1 = (if connected s then rx s else "")
    /\ now s1 = now s /\ epoch s1 = epoch s
    /\ timeoutStamp s1 = timeoutStamp s
    /\ aprsState s1 = APRS_CONNECTED /\ tx s1 = (tx s ++ [login_line cred])%list
    /\ connectToAPRSserver env cred fuel s
       = match verifyLogonStatus env fuel s1 with
         | Some (v, s2) => Some (tt, if v then set_aprsState APRS_VERIFIED s2 else s2)
         | None => None
         end.
Proof.
  intros H. unfold connectToAPRSserver.
  rewrite (bind_Some _ _ _ _ _ (connectToAPRS_ok env s H)).
  unfold bind at 1, modify. rewrite (bind_Some _ _ _ _ _ (performAPRSLogon_sent cred _)).
  match goal with
  | |- context [bind (verifyLogonStatus env fuel) _ ?x] => exists x
  end.
  split; [| split; [| split; [| split; [| split; [| split; [| split]]]]]].
  8: { unfold bind at 1.
       destruct (verifyLogonStatus env fuel _) as [[[|] s2]|]; reflexivity. }
  all: destruct (connected s) eqn:Hc; stsimpl; auto.
Qed.

(** X13.  [connectToAPRSserver] either fails to connect, and then reports it
    and leaves state and transport alone without sending anything; or it has
    a connected transport, and then, whenever it returns, it has sent
    exactly one line, the login line, and ends in state Verified or Connected
    whatever the state was before, Verified only on a connected transport.
    This holds whatever the clock does.  The call is sure to return when the
    clock does not run backwards, no [yield()] lasts longer than [D], the
    yields add up to the verification window after [k] turns, and [millis()]
    cannot wrap within the window. *)
Theorem connectToAPRSserver_outcomes :
  forall (env : Env) (cred : Credentials) (D : Z) (fuel k : nat) (s : St),
    (connected s = false -> server_up env (epoch s) = false ->
       connectToAPRSserver env cred fuel s
       = Some (tt, set_serial (serial s ++ ["APRS connection failed."]) s))
    /\ (connected s = true \/ server_up env (epoch s) = true ->
          (forall s' : St,
              connectToAPRSserver env cred fuel s = Some (tt, s') ->
              tx s' = (tx s ++ [login_line cred])%list
              /\ (aprsState s' = APRS_VERIFIED \/ aprsState s' = APRS_CONNECTED)
              /\ (aprsState s' = APRS_VERIFIED -> connected s' = true))
          /\ ((forall n : nat, 0 <= delta env n <= D) ->
              0 <= now s -> now s + APRS_TIMEOUT + D <= 2 ^ 32 ->
              APRS_TIMEOUT <= elapsed env (epoch s) k -> (k < fuel)%nat ->
              exists s' : St, connectToAPRSserver env cred fuel s = Some (tt, s'))).
Proof.
  intros env cred D fuel k s. split.
  - intros Hc Hs. unfold connectToAPRSserver.
    rewrite (bind_Some _ _ _ _ _ (connectToAPRS_refused env s Hc Hs)). reflexivity.
  - intros H.
    destruct (connectToAPRSserver_unfold env cred fuel s H)
      as [s1 [C1 [_ [N1 [Ep1 [_ [A1 [T1 E]]]]]]]].
    split.
    + intros s' R. rewrite E in R.
      destruct (verifyLogonStatus env fuel s1) as [[v s2]|] eqn:E2; [| discriminate R].
      destruct (verifyLogonStatus_frame env fuel s1 s2 v E2) as [A2 [T2 C2]].
      injection R as <-.
      destruct v; stsimpl.
      * split; [congruence|]. split; [left; reflexivity | auto].
      * split; [congruence|]. split; [right; congruence|].
        intros X. rewrite A2, A1 in X. discriminate.
    + intros Hd H0 H1 Hk Hf.
      destruct (verifyLogonStatus_returns env D Hd k fuel s1) as [v [s2 E2]];
        rewrite ?N1, ?Ep1; auto.
      rewrite E, E2. eauto.
Qed.

Lemma connectToAPRSserver_outcomes_witness :
  (connected boot = false /\ server_up (down_env 400) (epoch boot) = false
   /\ connectToAPRSserver (down_env 400) cred_W4KRL 10 boot
      = Some (tt, set_serial (serial boot ++ ["APRS connection failed."]) boot))
  /\ ((connected boot = true \/ server_up (quiet_env 400) (epoch boot) = true)
      /\ (forall n : nat, 0 <= delta (quiet_env 400) n <= 400)
      /\ 0 <= now boot /\ now boot + APRS_TIMEOUT + 400 <= 2 ^ 32
      /\ APRS_TIMEOUT <= elapsed (quiet_env 400) (epoch boot) 5
      /\ (5 < 10)%nat
      /\ exists s' : St,
           connectToAPRSserver (quiet_env 400) cred_W4KRL 10 boot = Some (tt, s')
           /\ tx s' = (tx boot ++ [login_line cred_W4KRL])%list
           /\ (aprsState s' = APRS_VERIFIED \/ aprsState s' = APRS_CONNECTED)
           /\ (aprsState s' = APRS_VERIFIED -> connected s' = true)).
Proof.
  assert (H : connected boot = true \/ server_up (quiet_env 400) (epoch boot) = true)
    by (right; reflexivity).
  assert (Hd : forall n : nat, 0 <= delta (quiet_env 400) n <= 400) by (intros n; simpl; lia).
  assert (H0 : 0 <= now boot) by (simpl; lia).
  assert (H1 : now boot + APRS_TIMEOUT + 400 <= 2 ^ 32)
    by (unfold APRS_TIMEOUT; simpl; lia).
  assert (Hk : APRS_TIMEOUT <= elapsed (quiet_env 400) (epoch boot) 5)
    by (vm_compute; discriminate).
  assert (Hf : (5 < 10)%nat) by lia.
  split.
  - split; [reflexivity|]. split; [reflexivity|].
    exact (proj1 (connectToAPRSserver_outcomes (down_env 400) cred_W4KRL 400 10 5 boot)
             eq_refl eq_refl).
  - repeat (split; [assumption|]).
    destruct (proj2 (connectToAPRSserver_outcomes (quiet_env 400) cred_W4KRL 400 10 5 boot) H)
      as [Out Ret].
    destruct (Ret Hd H0 H1 Hk Hf) as [s' E].
    exists s'. split; [exact E | exact (Out s' E)].
Defined.

(** ** setup(): the login response arrives after the connection is opened *)

Lemma verifyLogonStatus_unfold (env : Env) (fuel : nat) (s : St) :
  0 <= now s -> now s + APRS_TIMEOUT < 2 ^ 32 ->
  verifyLogonStatus env fuel s = verify_loop env fuel (now s + APRS_TIMEOUT) s.
Proof.
  unfold APRS_TIMEOUT. intros H0 H1.
  unfold verifyLogonStatus, bind at 1, millis, gets.
  rewrite (ulong_small (now s)) by lia.
  unfold APRS_TIMEOUT. rewrite (ulong_small (now s + 2000)) by lia.
  reflexivity.
Qed.

(** A read on a silent transport within [TIMEOUT_MS] of [t0], the earliest
    instant at which the idle timer can have been started. *)
Lemma reader_idle_quiet (t0 : Z) (s : St) :
  connected s = true -> rx s = "" ->
  timeoutStamp s = 0 \/ (0 < timeoutStamp s /\ t0 <= timeoutStamp s <= now s) ->
  0 <= t0 <= now s -> now s - t0 <= TIMEOUT_MS -> now s < 2 ^ 32 ->
  exists s1 : St,
    readAPRSPacket s = Some ((false, ""), s1)
    /\ connected s1 = true /\ rx s1 = ""
    /\ now s1 = now s /\ epoch s1 = epoch s
    /\ aprsState s1 = aprsState s /\ tx s1 = tx s
    /\ (timeoutStamp s1 = 0 \/ (0 < timeoutStamp s1 /\ t0 <= timeoutStamp s1 <= now s1)).
Proof.
  intros Hc Hr Hs Ht Hw Hn. destruct Hs as [Hz | [Hp Hb]].
  - rewrite (reader_idle_arm s Hc Hr Hz) by lia.
    eexists. split; [reflexivity|]. stsimpl. repeat split; auto.
    destruct (Z.eq_dec (now s) 0); [left; assumption | right; lia].
  - rewrite (reader_idle_wait s Hc Hr) by lia.
    exists s. repeat split; auto.
Qed.

Section Waiting.

Variable env : Env.
Hypothesis delta_nonneg : forall n : nat, 0 <= delta env n.

Lemma elapsed_nonneg (e k : nat) : 0 <= elapsed env e k.
Proof.
  revert e. induction k as [|k IH]; intros e; [cbn; lia|].
  rewrite elapsed_S. pose proof (delta_nonneg e). pose proof (IH (S e)). lia.
Qed.

(** The loop turns on a silent transport until the bytes of the [j]-th
    [yield()] are at hand, provided this happens within [TIMEOUT_MS] of
    [t0] and before the deadline [T]. *)
Lemma verify_loop_wait (T t0 : Z) :
  T <= 2 ^ 32 ->
  forall (j fuel : nat) (s : St),
    connected s = true -> rx s = "" ->
    timeoutStamp s = 0 \/ (0 < timeoutStamp s /\ t0 <= timeoutStamp s <= now s) ->
    0 <= t0 <= now s ->
    now s + elapsed env (epoch s) j <= t0 + TIMEOUT_MS ->
    now s + elapsed env (epoch s) j < T ->
    (forall i : nat, (i < j)%nat -> arrive env (epoch s + i) = "") ->
    exists s' : St,
      verify_loop env (S j + fuel) T s = verify_loop env fuel T s'
      /\ connected s' = true /\ rx s' = arrive env (epoch s + j)
      /\ now s' = now s + elapsed env (epoch s) (S j)
      /\ epoch s' = (epoch s + S j)%nat
      /\ aprsState s' = aprsState s /\ tx s' = tx s.
Proof.
  intros HT. induction j as [|j IH]; intros fuel s Hc Hr Hs Ht Hw Hd Hq.
  - cbn [elapsed] in Hw, Hd.
    destruct (reader_idle_quiet t0 s Hc Hr Hs Ht) as [s1 [R [C1 [R1 [N1 [E1 [A1 [T1 _]]]]]]]];
      try lia.
    cbn [Nat.add]. rewrite verify_loop_step by (rewrite ulong_small; lia).
    rewrite (verify_body_not_ok _ _ _ R).
    exists (tick env s1). split; [reflexivity|]. stsimpl.
    rewrite C1, R1, N1, E1, Nat.add_0_r, Nat.add_1_r. cbn [elapsed append].
    repeat split; auto. lia.
  - pose proof (elapsed_nonneg (S (epoch s)) j) as Hj.
    pose proof (delta_nonneg (epoch s)) as Hd0.
    rewrite elapsed_S in Hw, Hd.
    destruct (reader_idle_quiet t0 s Hc Hr Hs Ht) as [s1 [R [C1 [R1 [N1 [E1 [A1 [T1 S1]]]]]]]];
      try lia.
    change (S (S j) + fuel)%nat with (S (S j + fuel)).
    rewrite verify_loop_step by (rewrite ulong_small; lia).
    rewrite (verify_body_not_ok _ _ _ R).
    destruct (IH fuel (tick env s1)) as [s' [E [C' [R' [N' [E' [A' T']]]]]]].
    + exact C1.
    + stsimpl. rewrite C1, R1, E1.
      rewrite <- (Nat.add_0_r (epoch s)). apply Hq. lia.
    + stsimpl. rewrite E1. destruct S1 as [Z1 | [P1 B1]]; [left; exact Z1 | right; lia].
    + stsimpl. rewrite N1, E1. lia.
    + stsimpl. rewrite N1, E1. lia.
    + stsimpl. rewrite N1, E1. lia.
    + intros i Hi. stsimpl. rewrite E1.
      replace (S (epoch s) + i)%nat with (epoch s + S i)%nat by lia.
      apply Hq. lia.
    + exists s'. split; [exact E|]. stsimpl.
      rewrite N1, E1 in *. rewrite (elapsed_S env (epoch s) (S j)).
      replace (epoch s + S j)%nat with (S (epoch s) + j)%nat by lia.
      repeat split; auto; try congruence; try lia.
Qed.

End Waiting.

(** X14.  [setup()] at power-up (transport not connected, idle timer off)
    against a reachable server.  The transport is opened with an empty
    receive buffer and the login line is sent.  Nothing arrives until the
    [j]-th [yield()], which begins no more than [TIMEOUT_MS] after the start;
    during it the server's answer arrives: lines without the login-response
    marker, then the login response.  The clock does not run backwards, no
    [yield()] lasts longer than [D], the clock does not wrap within the
    window, and the time until the answer is at hand plus [D] for each line
    passed over stays below the window.  Then the state ends Verified on a
    verified response and Connected on a rejection, the transport is
    connected, and the login line is the only line sent: after a rejection
    the login is not sent again by [setup()]. *)
Theorem setup_logs_on :
  forall (env : Env) (cred : Credentials) (D : Z) (fuel j : nat) (s : St)
         (pre : list string) (line rest : string) (b : bool),
    (forall n : nat, 0 <= delta env n <= D) ->
    connected s = false -> server_up env (epoch s) = true ->
    timeoutStamp s = 0 ->
    (forall i : nat, (i < j)%nat -> arrive env (epoch s + i) = "") ->
    arrive env (epoch s + j) = lines_of pre ++ line ++ String LF rest ->
    Forall passed_over pre -> no_LF line = true -> verdict b line ->
    0 <= now s -> now s + APRS_TIMEOUT < 2 ^ 32 ->
    elapsed env (epoch s) j <= TIMEOUT_MS ->
    elapsed env (epoch s) (S j) + Z.of_nat (List.length pre) * D < APRS_TIMEOUT ->
    (S j + List.length pre < fuel)%nat ->
    exists s' : St,
      setup env cred fuel s = Some (tt, s')
      /\ aprsState s' = (if b then APRS_VERIFIED else APRS_CONNECTED)
      /\ connected s' = true
      /\ tx s' = (tx s ++ [login_line cred])%list.
Proof.
  intros env cred D fuel j s pre line rest b Hd Hc Hup Hst Hq Hans Hp Hn Hv H0 H1 Hw Hk Hf.
  assert (Hd0 : forall n : nat, 0 <= delta env n) by (intros n; apply Hd).
  destruct (connectToAPRSserver_unfold env cred fuel s (or_intror Hup))
    as [s1 [C1 [R1 [N1 [Ep1 [S1 [A1 [T1 E]]]]]]]].
  rewrite Hc in R1.
  pose proof (elapsed_nonneg env Hd0 (epoch s) (S j)) as He.
  unfold APRS_TIMEOUT, TIMEOUT_MS in *.
  assert (V : exists s3 : St,
             verifyLogonStatus env fuel s1 = Some (b, s3)
             /\ connected s3 = true
             /\ aprsState s3 = aprsState s1 /\ tx s3 = tx s1).
  { rewrite verifyLogonStatus_unfold by (unfold APRS_TIMEOUT; lia).
    unfold APRS_TIMEOUT.
    replace fuel with (S j + (fuel - S j))%nat by lia.
    destruct (verify_loop_wait env Hd0 (now s1 + 2000) (now s1) ltac:(lia)
                j (fuel - S j)%nat s1)
      as [s2 [E2 [C2 [R2 [N2 [Ep2 [A2 T2]]]]]]]; unfold TIMEOUT_MS;
      rewrite ?Ep1, ?N1; auto; try lia.
    rewrite N1 in E2. rewrite E2. rewrite Ep1, Hans in R2. rewrite Ep1, N1 in N2.
    destruct (verify_loop_response env D Hd b line (now s + 2000) pre Hn Hv ltac:(lia)
                (fuel - S j)%nat s2 rest C2 Hp R2)
      as [s3 [E3 [C3 [A3 [T3 _]]]]]; try lia.
    exists s3. split; [exact E3|]. repeat split; congruence. }
  destruct V as [s3 [V [C3 [A3 T3]]]].
  unfold setup. rewrite E, V. eexists. split; [reflexivity|].
  destruct b; stsimpl; repeat split; auto; congruence.
Qed.

Lemma setup_logs_on_witness :
  (forall n : nat, 0 <= delta answering_env n <= 1)
  /\ connected boot = false /\ server_up answering_env (epoch boot) = true
  /\ timeoutStamp boot = 0
  /\ (forall i : nat, (i < 1)%nat -> arrive answering_env (epoch boot + i) = "")
  /\ arrive answering_env (epoch boot + 1)
     = lines_of greeting ++ logresp_ok ++ String LF ""
  /\ Forall passed_over greeting /\ no_LF logresp_ok = true /\ verdict true logresp_ok
  /\ 0 <= now boot /\ now boot + APRS_TIMEOUT < 2 ^ 32
  /\ elapsed answering_env (epoch boot) 1 <= TIMEOUT_MS
  /\ elapsed answering_env (epoch boot) 2 + Z.of_nat (List.length greeting) * 1
     < APRS_TIMEOUT
  /\ (2 + List.length greeting < 5)%nat
  /\ option_map (fun x => (aprsState (snd x), connected (snd x), tx (snd x)))
       (setup answering_env cred_W4KRL 5 boot)
     = Some (APRS_VERIFIED, true,
             ["user W4KRL-2 pass 9092 ver D1S-VEVOR 2500610 filter b/W4KRL-2*"]).
Proof.
  assert (Hd : forall n : nat, 0 <= delta answering_env n <= 1) by (intros n; simpl; lia).
  assert (Hq : forall i : nat, (i < 1)%nat -> arrive answering_env (epoch boot + i) = "").
  { intros i Hi. replace i with 0%nat by lia. reflexivity. }
  assert (Hp : Forall passed_over greeting) by (repeat constructor).
  assert (Hv : verdict true logresp_ok).
  { split; [reflexivity|]. split.
    - apply (indexOf_Contains logresp_ok "verified"); [discriminate | reflexivity].
    - apply (indexOf_not_Contains logresp_ok "unverified"); [discriminate | reflexivity]. }
  assert (H0 : 0 <= now boot) by (simpl; lia).
  assert (H1 : now boot + APRS_TIMEOUT < 2 ^ 32) by (unfold APRS_TIMEOUT; simpl; lia).
  assert (Hw : elapsed answering_env (epoch boot) 1 <= TIMEOUT_MS)
    by (vm_compute; discriminate).
  assert (Hk : elapsed answering_env (epoch boot) 2 + Z.of_nat (List.length greeting) * 1
               < APRS_TIMEOUT) by (vm_compute; reflexivity).
  assert (Hf : (2 + List.length greeting < 5)%nat) by (simpl; lia).
  repeat (split; [first [assumption | reflexivity]|]).
  destruct (setup_logs_on answering_env cred_W4KRL 1 5 1 boot greeting
              logresp_ok "" true Hd eq_refl eq_refl eq_refl Hq eq_refl Hp eq_refl Hv
              H0 H1 Hw Hk Hf)
    as [s' [E [A [C T]]]].
  rewrite E. cbn [option_map snd]. rewrite A, C, T. reflexivity.
Defined.

(** ** The scheduler: what is sent, and how often *)

Lemma APRSsendBulletin_full (cred : Credentials) (message ID : string) (s : St) :
  exists s',
    APRSsendBulletin cred message ID s = Some (tt, s')
    /\ tx s' = (tx s ++ (if sendable message s
                         then [bulletin_frame cred message ID] else []))%list
    /\ same_session s s'
    /\ picks s' = picks s.
Proof.
  unfold sendable, same_session.
  destruct (Nat.ltb_spec 67 (String.length message)) as [L|L].
  - rewrite APRSsendBulletin_too_long by assumption.
    replace (String.length message <=? 67)%nat with false
      by (symmetry; apply Nat.leb_gt; lia).
    rewrite andb_false_r, app_nil_r. eexists. repeat split.
  - replace (String.length message <=? 67)%nat with true
      by (symmetry; apply Nat.leb_le; lia).
    rewrite andb_true_r. destruct (connected s) eqn:C.
    + rewrite APRSsendBulletin_posted by assumption. eexists. repeat split. exact C.
    + rewrite APRSsendBulletin_lost by assumption. rewrite app_nil_r.
      eexists. repeat split. exact C.
Qed.

Lemma morning_check_full (env : Env) (cred : Credentials) (s : St) :
  exists s',
    morning_check env cred s = Some (tt, s')
    /\ tx s' = (tx s ++ (if morning_due s && sendable (pickAphorism env (picks s)) s
                         then [bulletin_frame cred (pickAphorism env (picks s)) "M"]
                         else []))%list
    /\ same_session s s'.
Proof.
  unfold morning_check. cbv [bind gets]. fold (morning_due s).
  destruct (morning_due s) eqn:E.
  - unfold pick.
    destruct (APRSsendBulletin_full cred (pickAphorism env (picks s)) "M"
                (set_picks (S (picks s)) s)) as [s1 [E1 [T [Ss P]]]].
    rewrite E1. unfold modify. eexists. split; [reflexivity|].
    unfold same_session, sendable in *. stsimpl. cbn [andb]. auto.
  - exists s. rewrite app_nil_r. unfold ret, same_session. auto 10.
Qed.

Lemma evening_check_full (env : Env) (cred : Credentials) (s : St) :
  exists s',
    evening_check env cred s = Some (tt, s')
    /\ tx s' = (tx s ++ (if evening_due s && sendable (pickAphorism env (picks s)) s
                         then [bulletin_frame cred (pickAphorism env (picks s)) "E"]
                         else []))%list
    /\ same_session s s'.
Proof.
  unfold evening_check. cbv [bind gets]. fold (evening_due s).
  destruct (evening_due s) eqn:E.
  - unfold pick.
    destruct (APRSsendBulletin_full cred (pickAphorism env (picks s)) "E"
                (set_picks (S (picks s)) s)) as [s1 [E1 [T [Ss P]]]].
    rewrite E1. unfold modify. eexists. split; [reflexivity|].
    unfold same_session, sendable in *. stsimpl. cbn [andb]. auto.
  - exists s. rewrite app_nil_r. unfold ret, same_session. auto 10.
Qed.

Lemma due_exclusive (s : St) : morning_due s = true -> evening_due s = false.
Proof.
  unfold morning_due, evening_due. intros H.
  apply andb_true_iff in H as [H _]. apply andb_true_iff in H as [H _].
  apply Z.eqb_eq in H. rewrite H. reflexivity.
Qed.

Lemma processBulletins_tx :
  forall (env : Env) (cred : Credentials) (s : St),
    let text := pickAphorism env (picks s) in
    exists s' : St,
      processBulletins env cred s = Some (tt, s')
      /\ same_session s s'
      /\ tx s'
         = (tx s ++ (if morning_due s && sendable text s
                     then [bulletin_frame cred text "M"]
                     else if evening_due s && sendable text s
                          then [bulletin_frame cred text "E"]
                          else []))%list.
Proof.
  intros env cred s text. subst text. rewrite processBulletins_blocks.
  destruct (morning_check_full env cred s) as [s1 [E1 [T1 S1]]].
  destruct (morning_check_effect env cred s) as [s1' [E1' [_ [_ [P1 [_ [H1 [M1 _]]]]]]]].
  rewrite E1 in E1'. injection E1' as <-.
  destruct (evening_check_full env cred s1) as [s2 [E2 [T2 S2]]].
  rewrite (bind_Some _ _ _ _ _ E1), (bind_Some _ _ _ _ _ E2).
  assert (Ev : evening_due s1 = evening_due s) by (unfold evening_due; congruence).
  unfold reset_check. cbv [bind gets modify ret].
  assert (Ss : same_session s s2)
    by (unfold same_session in *; intuition congruence).
  assert (Tx : tx s2
               = (tx s ++ (if morning_due s && sendable (pickAphorism env (picks s)) s
                           then [bulletin_frame cred (pickAphorism env (picks s)) "M"]
                           else if evening_due s && sendable (pickAphorism env (picks s)) s
                                then [bulletin_frame cred (pickAphorism env (picks s)) "E"]
                                else []))%list).
  { rewrite T2, T1, Ev. destruct (morning_due s) eqn:Em.
    - rewrite (due_exclusive s Em). cbn [andb]. rewrite app_nil_r.
      destruct (sendable (pickAphorism env (picks s)) s); cbn [andb];
        [reflexivity | now rewrite app_nil_r].
    - cbn [andb]. rewrite app_nil_r.
      assert (Hs1 : s1 = s).
      { unfold morning_check in E1. cbv [bind gets] in E1.
        fold (morning_due s) in E1. rewrite Em in E1. unfold ret in E1.
        now injection E1. }
      subst s1. reflexivity. }
  destruct (negb (day s2 =? lastDay s2)); eexists; (split; [reflexivity|]);
    (split; [exact Ss | exact Tx]).
Qed.

(** X15.  One poll of the scheduler hands at most one line to the transport,
    and only a bulletin frame: at 08:00 the frame with ID "M", at 20:00 the
    frame with ID "E", carrying the text the collaborator picked, and only if
    the flag of that slot was clear, the transport is connected and the text
    has at most 67 characters.  The session (transport, connection state,
    receive buffer, idle timer) is left alone. *)
Theorem processBulletins_writes :
  forall (env : Env) (cred : Credentials) (s : St),
    let text := pickAphorism env (picks s) in
    exists s' : St,
      processBulletins env cred s = Some (tt, s')
      /\ same_session s s'
      /\ tx s'
         = (tx s ++ (if morning_due s && sendable text s
                     then [bulletin_frame cred text "M"]
                     else if evening_due s && sendable text s
                          then [bulletin_frame cred text "E"]
                          else []))%list.
Proof. intros env cred s. apply processBulletins_tx. Qed.

(** X16.  Over the polls of a day whose reset has already happened, each
    bulletin is requested exactly as often as it should be: the morning
    bulletin once if its flag is clear and some poll falls on 08:00, and not
    at all otherwise; likewise the evening bulletin at 20:00.  The flags at
    the end record whether the slot was met. *)
Theorem bulletins_exactly_once :
  forall (env : Env) (cred : Credentials) (ps : list LocalTime) (s : St),
    Forall (fun p => day_of p = lastDay s) ps ->
    exists s' : St,
      run_polls env cred ps s = Some (tt, s')
      /\ fired "M" s'
         = (fired "M" s
            + (if negb (amBulletinSent s) && existsb at_8 ps then 1 else 0))%nat
      /\ fired "E" s'
         = (fired "E" s
            + (if negb (pmBulletinSent s) && existsb at_20 ps then 1 else 0))%nat
      /\ amBulletinSent s' = amBulletinSent s || existsb at_8 ps
      /\ pmBulletinSent s' = pmBulletinSent s || existsb at_20 ps.
Proof.
  intros env cred ps s H.
  destruct (run_same_day_flags env cred ps s H) as [s' [E [A [P [BM [BE _]]]]]].
  exists s'. split; [exact E|].
  destruct (fired_from_budget s s' BM BE) as [FM FE].
  rewrite FM, FE, A, P.
  destruct (amBulletinSent s); destruct (pmBulletinSent s);
    destruct (existsb at_8 ps); destruct (existsb at_20 ps); cbn; repeat split; lia.
Qed.

Lemma bulletins_exactly_once_witness :
  Forall (fun p => day_of p = lastDay st_day5) day5
  /\ exists s' : St,
       run_polls (quiet_env 1) cred_W4KRL day5 st_day5 = Some (tt, s')
       /\ fired "M" s'
          = (fired "M" st_day5
             + (if negb (amBulletinSent st_day5) && existsb at_8 day5 then 1 else 0))%nat
       /\ fired "E" s'
          = (fired "E" st_day5
             + (if negb (pmBulletinSent st_day5) && existsb at_20 day5 then 1 else 0))%nat
       /\ amBulletinSent s' = amBulletinSent st_day5 || existsb at_8 day5
       /\ pmBulletinSent s' = pmBulletinSent st_day5 || existsb at_20 day5.
Proof.
  assert (H : Forall (fun p => day_of p = lastDay st_day5) day5) by (repeat constructor).
  split; [exact H|].
  exact (bulletins_exactly_once (quiet_env 1) cred_W4KRL day5 st_day5 H).
Defined.

(** X17.  A bulletin that could not be sent is not sent later.  On a day
    the scheduler has already recorded ([lastDay] is that day), at 08:00 with
    the morning flag clear, if the transport is down or the picked text is
    longer than 67 characters, the poll writes nothing and still sets the
    flag; whatever polls follow that day, the morning bulletin is never
    requested again. *)
Theorem missed_bulletin_is_not_retried :
  forall (env : Env) (cred : Credentials) (d : Z) (ps : list LocalTime) (s : St),
    amBulletinSent s = false -> lastDay s = d ->
    sendable (pickAphorism env (picks s)) s = false ->
    Forall (fun p => day_of p = d) ps ->
    exists s1 s2 : St,
      poll_at env cred (8, 0, d) s = Some (tt, s1)
      /\ tx s1 = tx s
      /\ amBulletinSent s1 = true
      /\ run_polls env cred ps s1 = Some (tt, s2)
      /\ fired "M" s2 = fired "M" s1.
Proof.
  intros env cred d ps s Ham Hl Hs Hps.
  destruct (poll_same_day_flags env cred (8, 0, d) s) as [s1 [E1 [A1 [_ [_ [_ L1]]]]]];
    [cbn [day_of]; congruence|].
  assert (T1 : tx s1 = tx s).
  { unfold poll_at in E1. cbv [bind modify] in E1.
    destruct (processBulletins_tx env cred (set_localtime 8 0 d s))
      as [s1' [E1' [_ T]]].
    rewrite E1 in E1'. injection E1' as <-. rewrite T.
    unfold sendable in *. stsimpl. rewrite Hs, !andb_false_r. apply app_nil_r. }
  destruct (run_same_day_flags env cred ps s1) as [s2 [E2 [A2 [_ [BM [BE _]]]]]].
  { rewrite L1, Hl. exact Hps. }
  exists s1, s2. cbn [at_8] in A1. rewrite Ham in A1. cbn in A1.
  split; [exact E1|]. split; [exact T1|]. split; [exact A1|]. split; [exact E2|].
  destruct (fired_from_budget s1 s2 BM BE) as [FM _].
  rewrite FM, A2, A1. cbn. lia.
Qed.

Lemma missed_bulletin_is_not_retried_witness :
  amBulletinSent st_day5 = false /\ lastDay st_day5 = 5
  /\ sendable (pickAphorism (quiet_env 1) (picks st_day5)) st_day5 = false
  /\ Forall (fun p => day_of p = 5) day5_later
  /\ exists s1 s2 : St,
       poll_at (quiet_env 1) cred_W4KRL (8, 0, 5) st_day5 = Some (tt, s1)
       /\ tx s1 = tx st_day5
       /\ amBulletinSent s1 = true
       /\ run_polls (quiet_env 1) cred_W4KRL day5_later s1 = Some (tt, s2)
       /\ fired "M" s2 = fired "M" s1.
Proof.
  assert (H : Forall (fun p => day_of p = 5) day5_later) by (repeat constructor).
  split; [reflexivity|]. split; [reflexivity|]. split; [reflexivity|].
  split; [exact H|].
  exact (missed_bulletin_is_not_retried (quiet_env 1) cred_W4KRL 5 day5_later st_day5
           eq_refl eq_refl eq_refl H).
Defined.

(** X18.  Every new day gets its bulletins, whatever the flags were the day
    before: when the first poll of a day observes the new day off the
    scheduled minutes, the morning bulletin is requested that day exactly
    once if a later poll falls on 08:00, and not at all otherwise; likewise
    the evening bulletin at 20:00. *)
Theorem new_day_rearms :
  forall (env : Env) (cred : Credentials) (d : Z)
         (p : LocalTime) (rest : list LocalTime) (s : St),
    Forall (fun q => day_of q = d) (p :: rest) ->
    d <> lastDay s -> scheduled p = false ->
    exists s' : St,
      run_polls env cred (p :: rest) s = Some (tt, s')
      /\ fired "M" s' = (fired "M" s + (if existsb at_8 rest then 1 else 0))%nat
      /\ fired "E" s' = (fired "E" s + (if existsb at_20 rest then 1 else 0))%nat.
Proof.
  intros env cred d p rest s Hday Hd Hp.
  inversion Hday as [|? ? Hpd Hrest]; subst.
  destruct p as [[h m] d]. cbn [day_of scheduled] in *.
  destruct (poll_at_effect env cred h m d s) as [s1 [E1 [R1 [A1 [P1 L1]]]]].
  apply Z.eqb_neq in Hd. rewrite Hd in A1, P1.
  assert (Hm : morning_due (set_localtime h m d s) = false).
  { unfold morning_due. stsimpl.
    destruct (h =? 8); destruct (h =? 20); destruct (m =? 0);
      try discriminate; reflexivity. }
  assert (He : evening_due (set_localtime h m d s) = false).
  { unfold evening_due. stsimpl.
    destruct (h =? 8); destruct (h =? 20); destruct (m =? 0);
      try discriminate; reflexivity. }
  rewrite Hm, He, !app_nil_r in R1.
  destruct (run_same_day_flags env cred rest s1) as [s' [E [A [P [BM [BE _]]]]]].
  { rewrite L1. exact Hrest. }
  exists s'. cbn [run_polls]. rewrite (bind_Some _ _ _ _ _ E1).
  split; [exact E|].
  destruct (fired_from_budget s1 s' BM BE) as [FM FE].
  rewrite FM, FE, A, P, A1, P1. unfold fired. rewrite R1.
  destruct (existsb at_8 rest); destruct (existsb at_20 rest); cbn; split; lia.
Qed.

Lemma new_day_rearms_witness :
  Forall (fun q => day_of q = 5) ((0, 0, 5) :: day5_from_eight)
  /\ 5 <> lastDay (set_amBulletinSent true boot)
  /\ scheduled (0, 0, 5) = false
  /\ exists s' : St,
       run_polls (quiet_env 1) cred_W4KRL ((0, 0, 5) :: day5_from_eight)
         (set_amBulletinSent true boot) = Some (tt, s')
       /\ fired "M" s'
          = (fired "M" (set_amBulletinSent true boot)
             + (if existsb at_8 day5_from_eight then 1 else 0))%nat
       /\ fired "E" s'
          = (fired "E" (set_amBulletinSent true boot)
             + (if existsb at_20 day5_from_eight then 1 else 0))%nat.
Proof.
  assert (H : Forall (fun q => day_of q = 5) ((0, 0, 5) :: day5_from_eight))
    by (repeat constructor).
  assert (Hd : 5 <> lastDay (set_amBulletinSent true boot)) by (simpl; lia).
  split; [exact H|]. split; [exact Hd|]. split; [reflexivity|].
  exact (new_day_rearms (quiet_env 1) cred_W4KRL 5 (0, 0, 5) day5_from_eight
           (set_amBulletinSent true boot) H Hd eq_refl).
Defined.

(** ** Received data *)

Lemma fmt_02d_length (z : Z) : 0 <= z < 100 -> String.length (fmt_02d z) = 2%nat.
Proof.
  intros H.
  assert (F : forallb (fun n => (String.length (fmt_02d (Z.of_nat n)) =? 2)%nat)
                (seq 0 100) = true) by (vm_compute; reflexivity).
  rewrite forallb_forall in F. specialize (F (Z.to_nat z)).
  rewrite Z2Nat.id in F by lia. apply Nat.eqb_eq, F, in_seq. lia.
Qed.

Lemma sprintf_age_fits (h m sec : Z) :
  0 <= h < 100 -> 0 <= m < 100 -> 0 <= sec < 100 ->
  exists age, sprintf_age h m sec = Some age /\ String.length age = 8%nat.
Proof.
  intros Hh Hm Hs. unfold sprintf_age.
  assert (L : String.length (fmt_02d h ++ ":" ++ fmt_02d m ++ ":" ++ fmt_02d sec) = 8%nat).
  { rewrite !string_length_append, !fmt_02d_length by assumption. reflexivity. }
  rewrite L. cbn [Nat.leb]. eexists. split; [reflexivity | exact L].
Qed.

(** X19.  [APRSreceivedData] with a clock whose fields have two digits always
    returns (the time stamp fits its buffer).  An empty line, a comment line
    (first character [#]) and a line of at most ten characters leave the
    stored data as they are.  The time stamp changes only together with the
    weather line, and then it is eight characters long. *)
Theorem APRSreceivedData_filter :
  forall (h m sec : Z) (APRSrcvd : string) (st : Store),
    0 <= h < 100 -> 0 <= m < 100 -> 0 <= sec < 100 ->
    exists st1 : Store,
      APRSreceivedData (h, m, sec) APRSrcvd st = Some st1
      /\ (APRSrcvd = "" \/ (exists r, APRSrcvd = String "#" r)
          \/ (String.length APRSrcvd <= 10)%nat -> st1 = st)
      /\ (APRSage st1 <> APRSage st ->
          APRSdataWeather st1 = APRSrcvd /\ APRSdataWeather st <> APRSrcvd
          /\ String.length (APRSage st1) = 8%nat).
Proof.
  intros h m sec x st Hh Hm Hs.
  destruct (sprintf_age_fits h m sec Hh Hm Hs) as [age [Ea La]].
  unfold APRSreceivedData. rewrite Ea.
  destruct (negb (x =? "")%string
            && negb match x with
                    | "" => false
                    | String c _ => Ascii.eqb c APRS_ID_COMMENT
                    end
            && (10 <? String.length x)%nat) eqn:Acc.
  - assert (Hacc : ~ (x = "" \/ (exists r, x = String "#" r)
                      \/ (String.length x <= 10)%nat)).
    { apply andb_true_iff in Acc as [Acc A3]. apply andb_true_iff in Acc as [A1 A2].
      apply Nat.ltb_lt in A3. intros [-> | [[r ->] | Hl]];
        [discriminate A1 | discriminate A2 | lia]. }
    destruct (0 <? indexOf x APRS_ID_WEATHER);
      destruct (APRSdataWeather st =? x)%string eqn:Ew; cbn [negb];
      destruct (0 <? indexOf x "T#");
      try (destruct (APRSdataTelemetry st =? x)%string); cbn [negb];
      cbn [APRSdataWeather APRSdataTelemetry APRSage];
      try (destruct (APRSdataTelemetry st =? x)%string); cbn [negb];
      eexists; (split; [reflexivity|]); (split; [tauto|]);
      cbn [APRSdataWeather APRSdataTelemetry APRSage];
      intros Hage; try congruence;
      apply String.eqb_neq in Ew; auto.
  - exists st. split; [reflexivity|]. split; [reflexivity | congruence].
Qed.

Lemma APRSreceivedData_filter_witness :
  0 <= 8 < 100 /\ 0 <= 15 < 100 /\ 0 <= 30 < 100
  /\ APRSreceivedData (8, 15, 30) "# aprsc 2.1.19" (mkStore "" "" "")
     = Some (mkStore "" "" "")
  /\ APRSreceivedData (8, 15, 30) "W4KRL-2>APRS:_10090556c220s004g005t077"
       (mkStore "" "" "")
     = Some (mkStore "W4KRL-2>APRS:_10090556c220s004g005t077" "" "08:15:30").
Proof.
  assert (Hh : 0 <= 8 < 100) by lia.
  assert (Hm : 0 <= 15 < 100) by lia.
  assert (Hs : 0 <= 30 < 100) by lia.
  split; [exact Hh|]. split; [exact Hm|]. split; [exact Hs|]. split.
  - destruct (APRSreceivedData_filter 8 15 30 "# aprsc 2.1.19" (mkStore "" "" "")
                Hh Hm Hs) as [st1 [E [I _]]].
    rewrite E. f_equal. apply I. right. left. eexists. reflexivity.
  - reflexivity.
Defined.

(** X20.  Receiving the same line again changes nothing: once
    [APRSreceivedData] has returned on a line, a second call on that line,
    at whatever time, leaves the stored data and the time stamp as they
    are. *)
Theorem APRSreceivedData_idempotent :
  forall (t t' : Z * Z * Z) (APRSrcvd : string) (st st1 : Store),
    APRSreceivedData t APRSrcvd st = Some st1 ->
    APRSreceivedData t' APRSrcvd st1 = Some st1.
Proof.
  intros [[h m] sec] [[h' m'] sec'] x st st1. unfold APRSreceivedData.
  destruct (negb (x =? "")%string
            && negb match x with
                    | "" => false
                    | String c _ => Ascii.eqb c APRS_ID_COMMENT
                    end
            && (10 <? String.length x)%nat); [| intros E; injection E as <-; reflexivity].
  destruct (0 <? indexOf x APRS_ID_WEATHER);
    destruct (0 <? indexOf x "T#");
    destruct (APRSdataWeather st =? x)%string eqn:Ew; cbn [negb];
    try destruct (sprintf_age h m sec); try discriminate;
    cbn [APRSdataWeather APRSdataTelemetry APRSage];
    try (destruct (APRSdataTelemetry st =? x)%string eqn:Et); cbn [negb];
    intros E; injection E as <-;
    cbn [APRSdataWeather APRSdataTelemetry APRSage];
    rewrite ?String.eqb_refl, ?Ew, ?Et; cbn [negb];
    cbn [APRSdataWeather APRSdataTelemetry APRSage];
    rewrite ?String.eqb_refl, ?Ew, ?Et; cbn [negb];
    try reflexivity; destruct st; reflexivity.
Qed.

Lemma APRSreceivedData_idempotent_witness :
  APRSreceivedData (8, 15, 30) "W4KRL-2>APRS:_10090556c220s004g005t077"
    (mkStore "" "" "")
  = Some (mkStore "W4KRL-2>APRS:_10090556c220s004g005t077" "" "08:15:30")
  /\ APRSreceivedData (9, 0, 0) "W4KRL-2>APRS:_10090556c220s004g005t077"
       (mkStore "W4KRL-2>APRS:_10090556c220s004g005t077" "" "08:15:30")
     = Some (mkStore "W4KRL-2>APRS:_10090556c220s004g005t077" "" "08:15:30").
Proof.
  split; [reflexivity|].
  apply (APRSreceivedData_idempotent (8, 15, 30) (9, 0, 0) _ (mkStore "" "" "")).
  reflexivity.
Defined.

(** ** A late login response *)

(** X21.  The way out of Connected and LoggedIn: when a poll of [updateAPRS]
    in one of these states finds the login response at hand, behind lines it
    passes over, the state becomes Verified on a verified response; on a
    rejection the state stays as it was.  Nothing is sent in either case, so
    a rejected logon is never repeated by [updateAPRS]. *)
Theorem updateAPRS_late_response :
  forall (env : Env) (D : Z) (fuel : nat) (s : St)
         (pre : list string) (line rest : string) (b : bool),
    aprsState s = APRS_CONNECTED \/ aprsState s = APRS_LOGGED_IN ->
    (forall n : nat, 0 <= delta env n <= D) ->
    connected s = true -> Forall passed_over pre ->
    no_LF line = true -> verdict b line ->
    rx s = lines_of pre ++ line ++ String LF rest ->
    0 <= now s -> now s + APRS_TIMEOUT < 2 ^ 32 ->
    Z.of_nat (List.length pre) * D < APRS_TIMEOUT ->
    (List.length pre < fuel)%nat ->
    exists s' : St,
      updateAPRS env fuel s = Some (tt, s')
      /\ aprsState s' = (if b then APRS_VERIFIED else aprsState s)
      /\ connected s' = true
      /\ tx s' = tx s.
Proof.
  intros env D fuel s pre line rest b Hst Hd Hc Hp Hn Hv Hrx H0 H1 Hk Hf.
  destruct (verifyLogonStatus_response env D fuel s pre line rest b
              Hd Hc Hp Hn Hv Hrx H0 H1 Hk Hf) as [s1 [E [C [A [T _]]]]].
  unfold updateAPRS, bind at 1, gets.
  destruct Hst as [Hst | Hst]; rewrite Hst, (bind_Some _ _ _ _ _ E);
    destruct b; eexists; (split; [reflexivity|]); stsimpl;
    repeat split; auto; congruence.
Qed.

Lemma updateAPRS_late_response_witness :
  (aprsState (set_aprsState APRS_CONNECTED st_answered) = APRS_CONNECTED
   \/ aprsState (set_aprsState APRS_CONNECTED st_answered) = APRS_LOGGED_IN)
  /\ (forall n : nat, 0 <= delta greeting_env n <= 1)
  /\ connected (set_aprsState APRS_CONNECTED st_answered) = true
  /\ Forall passed_over greeting /\ no_LF logresp_ok = true /\ verdict true logresp_ok
  /\ rx (set_aprsState APRS_CONNECTED st_answered)
     = lines_of greeting ++ logresp_ok ++ String LF ""
  /\ 0 <= now (set_aprsState APRS_CONNECTED st_answered)
  /\ now (set_aprsState APRS_CONNECTED st_answered) + APRS_TIMEOUT < 2 ^ 32
  /\ Z.of_nat (List.length greeting) * 1 < APRS_TIMEOUT
  /\ (List.length greeting < 2)%nat
  /\ option_map (fun x => aprsState (snd x))
       (updateAPRS greeting_env 2 (set_aprsState APRS_CONNECTED st_answered))
     = Some APRS_VERIFIED.
Proof.
  assert (Hst : aprsState (set_aprsState APRS_CONNECTED st_answered) = APRS_CONNECTED
                \/ aprsState (set_aprsState APRS_CONNECTED st_answered) = APRS_LOGGED_IN)
    by (left; reflexivity).
  assert (Hd : forall n : nat, 0 <= delta greeting_env n <= 1) by (intros n; simpl; lia).
  assert (Hp : Forall passed_over greeting) by (repeat constructor).
  assert (Hv : verdict true logresp_ok).
  { split; [reflexivity|]. split.
    - apply (indexOf_Contains logresp_ok "verified"); [discriminate | reflexivity].
    - apply (indexOf_not_Contains logresp_ok "unverified"); [discriminate | reflexivity]. }
  assert (H0 : 0 <= now (set_aprsState APRS_CONNECTED st_answered)) by (simpl; lia).
  assert (H1 : now (set_aprsState APRS_CONNECTED st_answered) + APRS_TIMEOUT < 2 ^ 32)
    by (unfold APRS_TIMEOUT; simpl; lia).
  assert (Hk : Z.of_nat (List.length greeting) * 1 < APRS_TIMEOUT)
    by (unfold APRS_TIMEOUT; simpl; lia).
  assert (Hf : (List.length greeting < 2)%nat) by (simpl; lia).
  repeat (split; [first [assumption | reflexivity]|]).
  destruct (updateAPRS_late_response greeting_env 1 2
              (set_aprsState APRS_CONNECTED st_answered) greeting logresp_ok "" true
              Hst Hd eq_refl Hp eq_refl Hv eq_refl H0 H1 Hk Hf) as [s' [E [A _]]].
  rewrite E. cbn [option_map snd]. exact (f_equal Some A).
Defined.

(** ** The length of a bulletin line *)

(** X22.  What [APRSsendBulletin] writes is bounded: when it hands a line to
    the transport, the line has [|CALLSIGN| + |ID| + 23 + |message|]
    characters, at most [|CALLSIGN| + |ID| + 90], and the message is its
    tail; in every other case nothing is written. *)
Theorem bulletin_line_bounded :
  forall (cred : Credentials) (message ID : string) (s : St),
    exists s' : St,
      APRSsendBulletin cred message ID s = Some (tt, s')
      /\ (tx s' = tx s
          \/ exists line : string,
               tx s' = (tx s ++ [line])%list
               /\ String.length line
                  = (String.length (CALLSIGN cred) + String.length ID + 23
                     + String.length message)%nat
               /\ (String.length line
                   <= String.length (CALLSIGN cred) + String.length ID + 90)%nat
               /\ String.substring
                    (String.length (CALLSIGN cred) + String.length ID + 23)
                    (String.length message) line
                  = message).
Proof.
  intros cred message ID s.
  destruct (APRSsendBulletin_full cred message ID s) as [s' [E [T _]]].
  exists s'. split; [exact E|].
  destruct (sendable message s) eqn:Hs; [| left; now rewrite T, app_nil_r].
  right. exists (bulletin_frame cred message ID). split; [exact T|].
  unfold sendable in Hs. apply andb_true_iff in Hs as [_ Hl]. apply Nat.leb_le in Hl.
  assert (L : String.length (bulletin_frame cred message ID)
              = (String.length (CALLSIGN cred) + String.length ID + 23
                 + String.length message)%nat).
  { unfold bulletin_frame. rewrite !string_length_append. simpl. lia. }
  split; [exact L|]. split; [lia|].
  assert (Sk : forall (a b : string) (n m : nat),
             String.substring (String.length a + n) m (a ++ b) = String.substring n m b).
  { intros a b n m. induction a as [|x a IH]; simpl; [reflexivity | exact IH]. }
  unfold bulletin_frame.
  replace (String.length (CALLSIGN cred) + String.length ID + 23)%nat
    with (String.length (CALLSIGN cred) + (17 + (String.length ID + 6)))%nat by lia.
  rewrite Sk. change (">APRS,TCPIP*::BLN" ++ ID ++ "     :" ++ message)
    with (">APRS,TCPIP*::BLN" ++ (ID ++ "     :" ++ message)).
  change 17%nat with (String.length ">APRS,TCPIP*::BLN").
  rewrite Sk, Sk.
  change 6%nat with (String.length "     :" + 0)%nat. rewrite Sk.
  apply substring_0_length.
Qed.

(** ** Silence ends a verified session *)

Lemma updateAPRS_verified (env : Env) (fuel : nat) (s : St) :
  aprsState s = APRS_VERIFIED -> updateAPRS env fuel s = pollAPRS fuel s.
Proof. intros H. unfold updateAPRS, bind at 1, gets. now rewrite H. Qed.

Lemma pollAPRS_fresh_arm (fuel : nat) (s : St) :
  aprsState s = APRS_VERIFIED -> connected s = true -> rx s = "" ->
  timeoutStamp s = 0 -> (0 < fuel)%nat ->
  pollAPRS fuel s = Some (tt, set_timeoutStamp (ulong (now s)) s).
Proof.
  intros Hst Hc Hr Ht Hf. destruct fuel as [|fuel]; [lia|].
  assert (P : poll_loop (S fuel) s = Some (tt, set_timeoutStamp (ulong (now s)) s)).
  { cbn [poll_loop]. rewrite (bind_Some _ _ _ _ _ (reader_arms s Hc Hr Ht)).
    reflexivity. }
  rewrite (pollAPRS_verified_unfold _ _ _ Hst P). stsimpl. now rewrite Hc.
Qed.

Lemma pollAPRS_armed_wait (fuel : nat) (t0 : Z) (s : St) :
  armed t0 s -> now s - t0 <= TIMEOUT_MS -> now s < 2 ^ 32 -> (0 < fuel)%nat ->
  pollAPRS fuel s = Some (tt, s).
Proof.
  intros [Hst [Hc [Hr [Ht H0]]]] Hw Hn Hf. destruct fuel as [|fuel]; [lia|]. subst t0.
  assert (P : poll_loop (S fuel) s = Some (tt, s)).
  { cbn [poll_loop].
    rewrite (bind_Some _ _ _ _ _ (reader_idle_wait s Hc Hr H0 Hw Hn)). reflexivity. }
  rewrite (pollAPRS_verified_unfold _ _ _ Hst P). now rewrite Hc.
Qed.

Lemma pollAPRS_armed_close (fuel : nat) (t0 : Z) (s : St) :
  armed t0 s -> TIMEOUT_MS < now s - t0 -> now s < 2 ^ 32 -> (0 < fuel)%nat ->
  exists s', pollAPRS fuel s = Some (tt, s')
             /\ aprsState s' = APRS_DISCONNECTED /\ tx s' = tx s.
Proof.
  intros [Hst [Hc [Hr [Ht H0]]]] Hw Hn Hf. destruct fuel as [|fuel]; [lia|]. subst t0.
  assert (P : poll_loop (S fuel) s
              = Some (tt, set_stops (stops s ++ [now s])
                            (set_rx "" (set_connected false (set_timeoutStamp 0 s))))).
  { cbn [poll_loop].
    rewrite (bind_Some _ _ _ _ _ (reader_idle_close s Hc Hr H0 Hw Hn)). reflexivity. }
  rewrite (pollAPRS_verified_unfold _ _ _ Hst P). stsimpl.
  eexists. split; [reflexivity|]. split; reflexivity.
Qed.

Section Silence.

Variable env : Env.
Variable due : nat -> bool.
Variable fuel : nat.
Hypothesis quiet : forall k : nat, arrive env k = "".
Hypothesis delta_nonneg : forall k : nat, 0 <= delta env k.
Hypothesis fuel_pos : (0 < fuel)%nat.

Lemma loop_armed_wait (t0 : Z) (s : St) :
  armed t0 s -> now s - t0 <= TIMEOUT_MS -> now s < 2 ^ 32 ->
  loop env due fuel s = Some (tt, s).
Proof.
  intros Ha Hw Hn. pose proof Ha as [Hst _].
  pose proof (pollAPRS_armed_wait fuel t0 s Ha Hw Hn fuel_pos) as P.
  unfold loop, bind at 1, gets.
  assert (U : updateTasks (due (epoch s)) fuel s = Some (tt, s))
    by (unfold updateTasks; destruct (due (epoch s)); [exact P | reflexivity]).
  rewrite (bind_Some _ _ _ _ _ U), (updateAPRS_verified env fuel s Hst). exact P.
Qed.

Lemma loop_armed_close (t0 : Z) (s : St) :
  armed t0 s -> TIMEOUT_MS < now s - t0 -> now s < 2 ^ 32 ->
  exists s', loop env due fuel s = Some (tt, s')
             /\ aprsState s' = APRS_DISCONNECTED /\ tx s' = tx s.
Proof.
  intros Ha Hw Hn. pose proof Ha as [Hst _].
  destruct (pollAPRS_armed_close fuel t0 s Ha Hw Hn fuel_pos) as [s1 [P [A1 T1]]].
  unfold loop, bind at 1, gets. unfold updateTasks.
  destruct (due (epoch s)).
  - rewrite (bind_Some _ _ _ _ _ P).
    destruct (updateAPRS_in_disconnected env fuel s1 A1) as [s' [E [A [T _]]]].
    exists s'. split; [exact E|]. split; [exact A | congruence].
  - unfold bind at 1, ret. rewrite (updateAPRS_verified env fuel s Hst).
    exists s1. auto.
Qed.

(** [n + 1] turns from a session whose idle timer was started at [t0]: the
    last turn comes [elapsed n] after the first. *)
Lemma run_armed (t0 : Z) (n : nat) :
  forall s : St,
    armed t0 s -> now s + elapsed env (epoch s) n < 2 ^ 32 ->
    exists s', run_loop env due fuel (S n) s = Some (tt, s')
               /\ tx s' = tx s
               /\ (TIMEOUT_MS < now s - t0 + elapsed env (epoch s) n ->
                   aprsState s' = APRS_DISCONNECTED).
Proof.
  induction n as [|n IH]; intros s Ha Hb;
    pose proof Ha as [Hst [Hc [Hr [Ht H0]]]];
    pose proof (delta_nonneg (epoch s)) as Hd.
  - cbn [elapsed] in *. cbn [run_loop].
    destruct (Z_lt_le_dec TIMEOUT_MS (now s - t0)) as [Hlate | Hearly].
    + destruct (loop_armed_close t0 s Ha Hlate ltac:(lia)) as [s1 [E1 [A1 T1]]].
      rewrite (bind_Some _ _ _ _ _ E1). unfold bind at 1, yield, modify.
      eexists. split; [reflexivity|]. stsimpl. auto.
    + rewrite (bind_Some _ _ _ _ _ (loop_armed_wait t0 s Ha Hearly ltac:(lia))).
      unfold bind at 1, yield, modify.
      eexists. split; [reflexivity|]. stsimpl. split; [reflexivity | lia].
  - pose proof (elapsed_nonneg env delta_nonneg (S (epoch s)) n) as He.
    rewrite elapsed_S in *.
    change (run_loop env due fuel (S (S n)) s)
      with ((loop env due fuel ;; yield env ;; run_loop env due fuel (S n)) s).
    destruct (Z_lt_le_dec TIMEOUT_MS (now s - t0)) as [Hlate | Hearly].
    + destruct (loop_armed_close t0 s Ha Hlate ltac:(lia)) as [s1 [E1 [A1 T1]]].
      rewrite (bind_Some _ _ _ _ _ E1). unfold bind at 1, yield, modify.
      destruct (run_loop_in_disconnected env due fuel (S n) (tick env s1))
        as [s' [E [A T]]]; [exact A1|].
      exists s'. split; [exact E|]. stsimpl. split; [congruence | auto].
    + rewrite (bind_Some _ _ _ _ _ (loop_armed_wait t0 s Ha Hearly ltac:(lia))).
      unfold bind at 1, yield, modify.
      destruct (IH (tick env s)) as [s' [E [T Hdis]]].
      * unfold armed. stsimpl. rewrite Hc, Hr, quiet.
        repeat split; auto; lia.
      * stsimpl. lia.
      * exists s'. split; [exact E|]. stsimpl. split; [exact T|].
        intros Hlong. apply Hdis. lia.
Qed.

End Silence.

(** X23.  Silence ends a verified session.  A session in state Verified with
    nothing to read and its idle timer off is driven by [loop()] while
    nothing arrives; [millis()] does not read zero at the first turn, the
    clock does not run backwards and does not wrap.  The first turn starts
    the idle timer; once the pauses between the turns add up to more than
    [TIMEOUT_MS], after [n] pauses, that is [n + 1] turns, the transport has
    been closed and the state is Disconnected, whether or not the ticker
    called [pollAPRS] as well, and nothing has been sent. *)
Theorem silence_ends_session :
  forall (env : Env) (due : nat -> bool) (fuel n : nat) (s : St),
    (forall k : nat, arrive env k = "") ->
    (forall k : nat, 0 <= delta env k) -> (0 < fuel)%nat ->
    aprsState s = APRS_VERIFIED -> connected s = true -> rx s = "" ->
    timeoutStamp s = 0 -> 0 < now s ->
    now s + elapsed env (epoch s) n < 2 ^ 32 ->
    TIMEOUT_MS < elapsed env (epoch s) n ->
    exists s' : St,
      run_loop env due fuel (S n) s = Some (tt, s')
      /\ aprsState s' = APRS_DISCONNECTED
      /\ tx s' = tx s.
Proof.
  intros env due fuel n s Hq Hd0 Hf Hst Hc Hr Ht H0 Hw Hlong.
  destruct n as [|n]; [cbn [elapsed] in Hlong; unfold TIMEOUT_MS in Hlong; lia|].
  rewrite elapsed_S in Hw, Hlong.
  pose proof (Hd0 (epoch s)) as Hd.
  pose proof (elapsed_nonneg env Hd0 (S (epoch s)) n) as He.
  assert (Hn : 0 <= now s < 2 ^ 32) by lia.
  pose proof (pollAPRS_fresh_arm fuel s Hst Hc Hr Ht Hf) as P.
  rewrite (ulong_small _ Hn) in P.
  set (sa := set_timeoutStamp (now s) s) in *.
  assert (Ha : armed (now s) sa) by (unfold armed, sa; stsimpl; repeat split; auto; lia).
  assert (L : loop env due fuel s = Some (tt, sa)).
  { unfold loop, bind at 1, gets. unfold updateTasks. destruct (due (epoch s)).
    - rewrite (bind_Some _ _ _ _ _ P).
      rewrite (updateAPRS_verified env fuel sa (proj1 Ha)).
      apply (pollAPRS_armed_wait fuel (now s) sa Ha); auto.
      + unfold sa, TIMEOUT_MS. stsimpl. lia.
      + unfold sa. stsimpl. lia.
    - unfold bind at 1, ret. rewrite (updateAPRS_verified env fuel s Hst). exact P. }
  change (run_loop env due fuel (S (S n)) s)
    with ((loop env due fuel ;; yield env ;; run_loop env due fuel (S n)) s).
  rewrite (bind_Some _ _ _ _ _ L). unfold bind at 1, yield, modify.
  destruct (run_armed env due fuel Hq Hd0 Hf (now s) n (tick env sa))
    as [s' [E [T Hdis]]].
  - unfold armed, sa. stsimpl. rewrite Hc, Hr, Hq. repeat split; auto; lia.
  - unfold sa. stsimpl. lia.
  - exists s'. split; [exact E|]. split.
    + apply Hdis. unfold sa. stsimpl. lia.
    + unfold sa in T. stsimpl. exact T.
Qed.

Lemma silence_ends_session_witness :
  (forall k : nat, arrive (quiet_env 400) k = "")
  /\ (forall k : nat, 0 <= delta (quiet_env 400) k)
  /\ (0 < 1)%nat
  /\ aprsState st_verified = APRS_VERIFIED /\ connected st_verified = true
  /\ rx st_verified = "" /\ timeoutStamp st_verified = 0 /\ 0 < now st_verified
  /\ now st_verified + elapsed (quiet_env 400) (epoch st_verified) 4 < 2 ^ 32
  /\ TIMEOUT_MS < elapsed (quiet_env 400) (epoch st_verified) 4
  /\ exists s' : St,
       run_loop (quiet_env 400) always_due 1 5 st_verified = Some (tt, s')
       /\ aprsState s' = APRS_DISCONNECTED
       /\ tx s' = tx st_verified.
Proof.
  assert (Hq : forall k : nat, arrive (quiet_env 400) k = "") by reflexivity.
  assert (Hb : forall k : nat, 0 <= delta (quiet_env 400) k)
    by (intros k; simpl; lia).
  assert (Hf : (0 < 1)%nat) by lia.
  assert (H0 : 0 < now st_verified) by (simpl; lia).
  assert (Hw : now st_verified + elapsed (quiet_env 400) (epoch st_verified) 4 < 2 ^ 32)
    by (vm_compute; reflexivity).
  assert (Hl : TIMEOUT_MS < elapsed (quiet_env 400) (epoch st_verified) 4)
    by (vm_compute; reflexivity).
  repeat (split; [first [assumption | reflexivity]|]).
  exact (silence_ends_session (quiet_env 400) always_due 1 4 st_verified
           Hq Hb Hf eq_refl eq_refl eq_refl eq_refl H0 Hw Hl).
Defined.

(** ** A verification that is pending when the clock wraps *)

Lemma verify_body_silent (s : St) :
  rx s = "" ->
  exists s1 : St,
    verify_body s = Some (None, s1)
    /\ rx s1 = "" /\ now s1 = now s /\ epoch s1 = epoch s.
Proof.
  intros Hr. unfold verify_body, readAPRSPacket. mstep.
  destruct (connected s); cbn [negb].
  - rewrite Hr. cbn [String.length Nat.eqb negb].
    destruct (timeoutStamp s =? 0).
    + eexists. split; [reflexivity|]. stsimpl. auto.
    + destruct (ulong (ulong (now s) - timeoutStamp s) >? TIMEOUT_MS);
        eexists; (split; [reflexivity|]); stsimpl; auto.
  - eexists. split; [reflexivity|]. auto.
Qed.

(** On a silent line the loop goes on for as long as every turn finds the
    clock below the deadline. *)
Lemma verify_loop_spins (env : Env) (T : Z) :
  (forall n : nat, arrive env n = "") ->
  forall (k : nat) (s : St),
    rx s = "" ->
    (forall i : nat, (i < k)%nat -> ulong (now s + elapsed env (epoch s) i) < T) ->
    verify_loop env k T s = None.
Proof.
  intros quiet. induction k as [|k IH]; intros s Hr Hlt; [reflexivity|].
  assert (H0 : ulong (now s) < T).
  { specialize (Hlt 0%nat ltac:(lia)). cbn [elapsed] in Hlt.
    now rewrite Z.add_0_r in Hlt. }
  rewrite verify_loop_step by exact H0.
  destruct (verify_body_silent s Hr) as [s1 [E [R1 [N1 E1]]]]. rewrite E.
  apply IH.
  - stsimpl. rewrite R1, quiet. destruct (connected s1); reflexivity.
  - intros i Hi. stsimpl. rewrite N1, E1.
    specialize (Hlt (S i) ltac:(lia)). rewrite elapsed_S in Hlt.
    now rewrite Z.add_assoc in Hlt.
Qed.

Lemma elapsed_le (env : Env) (i k e : nat) :
  (forall n : nat, 0 <= delta env n) -> (i <= k)%nat ->
  elapsed env e i <= elapsed env e k.
Proof.
  intros Hd. revert e k. induction i as [|i IH]; intros e k Hik.
  - cbn [elapsed]. apply elapsed_nonneg. exact Hd.
  - destruct k as [|k]; [lia|]. rewrite !elapsed_S.
    specialize (IH (S e) k ltac:(lia)). lia.
Qed.

(** X24.  A verification whose deadline is pending when [millis()] wraps
    around does not stop at its deadline.  The deadline [millis() + 2000]
    does not overflow, nothing is at hand and nothing arrives, the clock does
    not run backwards; the turn before the [m]-th [yield()] still finds the
    clock below the deadline, and that [yield()] takes the clock past 2^32.
    From then on [millis()] reads small values again, below the deadline, so
    that the loop cannot time out: it is still running after any number of
    turns [k] whose yields take less than 2^32 + 2000 ms together, whether
    the transport is connected or not. *)
Theorem verification_outlives_wrap :
  forall (env : Env) (k m : nat) (s : St),
    (forall n : nat, arrive env n = "") ->
    (forall n : nat, 0 <= delta env n) ->
    rx s = "" ->
    0 <= now s -> now s + APRS_TIMEOUT < 2 ^ 32 ->
    elapsed env (epoch s) m < APRS_TIMEOUT ->
    2 ^ 32 <= now s + elapsed env (epoch s) (S m) ->
    elapsed env (epoch s) k < 2 ^ 32 + APRS_TIMEOUT ->
    verifyLogonStatus env k s = None.
Proof.
  intros env k m s quiet Hd Hr H0 H1 Hm Hw Hk.
  rewrite verifyLogonStatus_unfold by assumption.
  unfold APRS_TIMEOUT in *.
  apply verify_loop_spins; [exact quiet | exact Hr |].
  intros i Hi.
  pose proof (elapsed_nonneg env Hd (epoch s) i) as Hi0.
  pose proof (elapsed_le env i k (epoch s) Hd ltac:(lia)) as Hik.
  destruct (Nat.le_gt_cases i m) as [Hle | Hgt].
  - pose proof (elapsed_le env i m (epoch s) Hd Hle) as Him.
    rewrite ulong_small by lia. lia.
  - pose proof (elapsed_le env (S m) i (epoch s) Hd ltac:(lia)) as Hmi.
    rewrite ulong_wrapped by lia. lia.
Qed.

Lemma verification_outlives_wrap_witness :
  (forall n : nat, arrive (quiet_env 300) n = "")
  /\ (forall n : nat, 0 <= delta (quiet_env 300) n)
  /\ rx st_before_wrap = ""
  /\ 0 <= now st_before_wrap /\ now st_before_wrap + APRS_TIMEOUT < 2 ^ 32
  /\ elapsed (quiet_env 300) (epoch st_before_wrap) 6 < APRS_TIMEOUT
  /\ 2 ^ 32 <= now st_before_wrap + elapsed (quiet_env 300) (epoch st_before_wrap) 7
  /\ elapsed (quiet_env 300) (epoch st_before_wrap) 5000 < 2 ^ 32 + APRS_TIMEOUT
  /\ verifyLogonStatus (quiet_env 300) 5000 st_before_wrap = None.
Proof.
  assert (Hq : forall n : nat, arrive (quiet_env 300) n = "") by reflexivity.
  assert (Hd : forall n : nat, 0 <= delta (quiet_env 300) n) by (intros n; simpl; lia).
  assert (H0 : 0 <= now st_before_wrap) by (vm_compute; discriminate).
  assert (H1 : now st_before_wrap + APRS_TIMEOUT < 2 ^ 32) by (vm_compute; reflexivity).
  assert (Hm : elapsed (quiet_env 300) (epoch st_before_wrap) 6 < APRS_TIMEOUT)
    by (vm_compute; reflexivity).
  assert (Hw : 2 ^ 32 <= now st_before_wrap + elapsed (quiet_env 300) (epoch st_before_wrap) 7)
    by (vm_compute; discriminate).
  assert (Hk : elapsed (quiet_env 300) (epoch st_before_wrap) 5000 < 2 ^ 32 + APRS_TIMEOUT)
    by (vm_compute; reflexivity).
  repeat (split; [first [assumption | reflexivity]|]).
  exact (verification_outlives_wrap (quiet_env 300) 5000 6 st_before_wrap
           Hq Hd eq_refl H0 H1 Hm Hw Hk).
Defined.
